(** * mcp-secret-wrapper: the secret-reference resolution pipeline

    A shallow embedding of the command-line wrapper's core (the module
    [cli]: [parseCliArgs], [validateJsonPath], [extractJsonPath],
    [getSecrets]) and of the GCP vault plugin (the class [GCPVaultPlugin]
    with [initialize] and [getSecret], in the version that defers the check
    of the project id to [getSecret]), followed by the properties of the
    specification, proved or refuted on that embedding.

    Conventions.
    - A JavaScript string is modelled by the [string] of its UTF-8 bytes.
      Every pattern the program searches for ([#], [=], [.], [/],
      ["projects/"], ["/versions/"], ...) is ASCII, and an ASCII byte never
      occurs inside a multi-byte UTF-8 sequence, so searching, splitting and
      slicing at these patterns commute with the encoding.
    - A thrown value is a [JsThrown]; a computation that may throw returns a
      [Result].
    - Code that mutates [this], writes to the console or calls a collaborator
      is a function of the world before to a result and the world after; a
      thrown exception keeps the mutations made before it, as in JavaScript. *)

From Stdlib Require Import String Ascii List ZArith Bool Lia DecimalString.
Import ListNotations.
Local Open Scope list_scope.
Local Open Scope string_scope.
Set Warnings "-register-all".

(* ===================================================================== *)
(** * JavaScript strings                                                  *)
(* ===================================================================== *)

Module JsString.

(** [s.length] *)
Definition length (s : string) : Z := Z.of_nat (String.length s).

(** Truthiness of a string: only the empty string is falsy. *)
Definition truthy (s : string) : bool := negb (s =? EmptyString).

(** [s.startsWith(p)] *)
Definition startsWith (s p : string) : bool := String.prefix p s.

(** [s.includes(p)] *)
Fixpoint includes (s p : string) : bool :=
  String.prefix p s ||
  match s with
  | EmptyString => false
  | String _ s' => includes s' p
  end.

(** [s.endsWith(p)] *)
Definition endsWith (s p : string) : bool :=
  (String.length p <=? String.length s)%nat &&
  (String.substring (String.length s - String.length p) (String.length p) s =? p).

(** [s.lastIndexOf(c)] for a one-character pattern: the index of the last
    occurrence, or [-1]. [i] is the index of the head of [s] and [found]
    the last occurrence seen so far. *)
Fixpoint lastIndexOf_from (s : string) (c : ascii) (i found : Z) : Z :=
  match s with
  | EmptyString => found
  | String a s' =>
      lastIndexOf_from s' c (i + 1) (if Ascii.eqb a c then i else found)
  end.

Definition lastIndexOf (s : string) (c : ascii) : Z :=
  lastIndexOf_from s c 0 (-1).

(** [s.substring(start, end)]: both indices are clamped to [0, s.length]
    and swapped when [start > end]. *)
Definition clamp (s : string) (i : Z) : nat :=
  Z.to_nat (Z.min (Z.max i 0) (length s)).

Definition substring (s : string) (start end_ : Z) : string :=
  let a := clamp s start in
  let b := clamp s end_ in
  String.substring (Nat.min a b) (Nat.max a b - Nat.min a b) s.

(** [s.substring(start)] *)
Definition substring_from (s : string) (start : Z) : string :=
  substring s start (length s).

(** [s.split(c)] for a one-character separator. The result is never empty:
    the empty string gives one empty piece. *)
Fixpoint split (s : string) (c : ascii) : list string :=
  match s with
  | EmptyString => [EmptyString]
  | String a s' =>
      if Ascii.eqb a c then EmptyString :: split s' c
      else match split s' c with
           | seg :: segs => String a seg :: segs
           | [] => [String a EmptyString]
           end
  end.

(** [s.split(c, limit)]: JavaScript splits the whole string and keeps the
    first [limit] pieces; what follows them is dropped. *)
Definition split_limit (s : string) (c : ascii) (limit : nat) : list string :=
  firstn limit (split s c).

(** [segs.join(sep)] *)
Definition join (segs : list string) (sep : string) : string :=
  String.concat sep segs.

(** [c] does not occur in [s]. *)
Fixpoint lacks (c : ascii) (s : string) : bool :=
  match s with
  | EmptyString => true
  | String a s' => negb (Ascii.eqb a c) && lacks c s'
  end.

End JsString.

(* ===================================================================== *)
(** * Thrown values and results                                           *)
(* ===================================================================== *)

(** An exception object: the name of its class and its message. *)
Record JsThrown : Type := mkThrown {
  ename : string;
  emessage : string
}.

(** [new Error(message)] *)
Definition Error (message : string) : JsThrown := mkThrown "Error" message.

(** [error instanceof SyntaxError] *)
Definition instanceof_SyntaxError (e : JsThrown) : bool :=
  ename e =? "SyntaxError".

(** [String(error)], that is [Error.prototype.toString]. *)
Definition String_of_thrown (e : JsThrown) : string :=
  if emessage e =? EmptyString then ename e
  else if ename e =? EmptyString then emessage e
  else ename e ++ ": " ++ emessage e.

Inductive Result (A : Type) : Type :=
| OK (a : A)
| Throw (e : JsThrown).

Arguments OK {A} a.
Arguments Throw {A} e.

(* ===================================================================== *)
(** * What [console.error] prints                                         *)
(* ===================================================================== *)

(** The second argument of a call [console.error(label, arg)] of the
    program: a string, or the value caught by a [catch] block. *)
Inductive ConsoleArg : Type :=
| ArgString (s : string)
| ArgThrown (e : JsThrown).

(** What Node's [util] module contributes to such a call:
    - [util_inspect e]: the text printed for an error object that is an
      argument of its own (the error with its stack);
    - [util_format label arg]: [util.format(label, arg)] for a [label]
      that holds a [%]: the format specifiers of the label ([%s], [%d],
      [%i], [%f], [%j], [%o], [%O], [%c], [%%]) are replaced. *)
Record ConsoleFormat : Type := mkConsoleFormat {
  util_inspect : JsThrown -> string;
  util_format : string -> ConsoleArg -> string
}.

(** The line printed by [console.error(label, arg)]. The first argument
    goes through [util.format]: a label without [%] is printed as it is,
    followed by a space and the argument, a string as it is and any other
    value inspected. *)
Definition console_line (cf : ConsoleFormat) (label : string) (arg : ConsoleArg)
    : string :=
  if JsString.lacks "%" label then
    label ++ " " ++
    match arg with
    | ArgString s => s
    | ArgThrown e => util_inspect cf e
    end
  else util_format cf label arg.

(** A console that prints an error object as [String(error)], without
    stack, and a label that holds a [%] as it does one that holds none. *)
Definition plainConsole : ConsoleFormat := {|
  util_inspect := String_of_thrown;
  util_format := fun label arg =>
    label ++ " " ++
    match arg with
    | ArgString s => s
    | ArgThrown e => String_of_thrown e
    end
|}.

(* ===================================================================== *)
(** * JavaScript objects used as maps                                     *)
(* ===================================================================== *)

(** A plain object ([Record<string, V>], or an object built by
    [JSON.parse]) is modelled by the list of its own properties in the
    order in which [Object.keys] and [Object.entries] enumerate them
    (ECMAScript, OrdinaryOwnPropertyKeys): the keys that are array indices
    first, in ascending numeric order, then every other key in the order of
    its creation. *)
Module JsObject.

Definition t (V : Type) : Type := list (string * V).

Definition isDigit (a : ascii) : bool :=
  (48 <=? nat_of_ascii a)%nat && (nat_of_ascii a <=? 57)%nat.

Fixpoint allDigits (s : string) : bool :=
  match s with
  | EmptyString => true
  | String a s' => isDigit a && allDigits s'
  end.

Fixpoint digitsValue (s : string) (acc : N) : N :=
  match s with
  | EmptyString => acc
  | String a s' => digitsValue s' (10 * acc + (N_of_ascii a - 48))%N
  end.

(** A key is an array index when it is the canonical decimal form of an
    integer between 0 and 2^32 - 2. *)
Definition isArrayIndex (k : string) : bool :=
  match k with
  | EmptyString => false
  | String a rest =>
      allDigits k
      && (negb (Ascii.eqb a "0") || (rest =? EmptyString))
      && (digitsValue k 0 <=? 4294967294)%N
  end.

Definition indexOfKey (k : string) : N := digitsValue k 0.

(** [Object.prototype.hasOwnProperty.call(o, k)] *)
Fixpoint hasOwn {V} (o : t V) (k : string) : bool :=
  match o with
  | [] => false
  | (k', _) :: o' => (k' =? k) || hasOwn o' k
  end.

(** The own property [k] of [o], when there is one. *)
Fixpoint getOwn {V} (o : t V) (k : string) : option V :=
  match o with
  | [] => None
  | (k', v) :: o' => if k' =? k then Some v else getOwn o' k
  end.

(** Overwrite the value of the existing own property [k], in place. *)
Fixpoint replace {V} (o : t V) (k : string) (v : V) : t V :=
  match o with
  | [] => []
  | (k', v') :: o' =>
      if k' =? k then (k', v) :: o' else (k', v') :: replace o' k v
  end.

(** Create the array-index property [k]: it goes before the first
    property that is not an array index or is a greater one. *)
Fixpoint insertIndex {V} (o : t V) (k : string) (v : V) : t V :=
  match o with
  | [] => [(k, v)]
  | (k', v') :: o' =>
      if isArrayIndex k' && (indexOfKey k' <? indexOfKey k)%N
      then (k', v') :: insertIndex o' k v
      else (k, v) :: (k', v') :: o'
  end.

(** Create or overwrite the own data property [k]. *)
Definition define {V} (o : t V) (k : string) (v : V) : t V :=
  if hasOwn o k then replace o k v
  else if isArrayIndex k then insertIndex o k v
  else (o ++ [(k, v)])%list.

(** The assignment [o[k] = v] where [v] is a string and [o] inherits
    from [Object.prototype]. The key ["__proto__"] reaches the inherited
    setter, which ignores a value that is neither an object nor [null];
    every other key creates or overwrites an own property. *)
Definition set {V} (o : t V) (k : string) (v : V) : t V :=
  if k =? "__proto__" then o else define o k v.

(** [Object.keys(o)] *)
Definition keys {V} (o : t V) : list string := map fst o.

(** [Object.entries(o)] *)
Definition entries {V} (o : t V) : list (string * V) := o.

End JsObject.

(** [Record<string, string>] *)
Definition Record : Type := JsObject.t string.

(* ===================================================================== *)
(** * JavaScript values met by the JSON path extractor                    *)
(* ===================================================================== *)

(** The values [JSON.parse] builds, together with the two kinds of value
    that a property access on such an object can reach through its
    prototype: the built-in methods of [Object.prototype] and
    [Object.prototype] itself. [N] is the type of numbers. *)
Inductive JsValue (N : Type) : Type :=
| JsNull
| JsBool (b : bool)
| JsNumber (n : N)
| JsString (s : string)
| JsArray (elements : list (JsValue N))
| JsObject (props : list (string * JsValue N))
| JsFunction
| JsObjectPrototype.

Arguments JsNull {N}.
Arguments JsBool {N} b.
Arguments JsNumber {N} n.
Arguments JsString {N} s.
Arguments JsArray {N} elements.
Arguments JsObject {N} props.
Arguments JsFunction {N}.
Arguments JsObjectPrototype {N}.

(** What the program uses of the JavaScript runtime and does not define
    itself: numbers with [String(n)] and their truthiness,
    [JSON.parse], which returns the parsed value or throws, and the
    formatting of the console. ECMAScript has [JSON.parse] throw a
    [SyntaxError] exactly when the text is not valid JSON. *)
Class JsRuntime : Type := {
  JsNum : Type;
  Number_toString : JsNum -> string;
  Number_truthy : JsNum -> bool;
  JSON_parse : string -> Result (JsValue JsNum);
  util : ConsoleFormat
}.

(** The own property names of [Object.prototype]; none is enumerable. *)
Definition Object_prototype_names : list string :=
  [ "constructor"; "hasOwnProperty"; "isPrototypeOf"; "propertyIsEnumerable";
    "toLocaleString"; "toString"; "valueOf"; "__proto__";
    "__defineGetter__"; "__defineSetter__"; "__lookupGetter__";
    "__lookupSetter__" ].

Definition isPrototypeName (k : string) : bool :=
  existsb (String.eqb k) Object_prototype_names.

Section Values.
Context {N : Type}.

(** [typeof v] *)
Definition typeof (v : JsValue N) : string :=
  match v with
  | JsNull => "object"
  | JsBool _ => "boolean"
  | JsNumber _ => "number"
  | JsString _ => "string"
  | JsArray _ => "object"
  | JsObject _ => "object"
  | JsFunction => "function"
  | JsObjectPrototype => "object"
  end.

(** [Array.isArray(v)] *)
Definition Array_isArray (v : JsValue N) : bool :=
  match v with
  | JsArray _ => true
  | _ => false
  end.

(** [Object.keys(v)] for an object [v] *)
Definition Object_keys (v : JsValue N) : list string :=
  match v with
  | JsObject props => JsObject.keys props
  | _ => []
  end.

(** Property access on an object: [Some (v[key])] when [key in v], and
    [None] when [key in v] is false. An own property wins; otherwise the
    key is looked up on [Object.prototype], whose [__proto__] accessor
    returns the prototype of the receiver and whose other properties are
    functions. *)
Definition getProperty (v : JsValue N) (key : string) : option (JsValue N) :=
  match v with
  | JsObject props =>
      match JsObject.getOwn props key with
      | Some x => Some x
      | None =>
          if key =? "__proto__" then Some JsObjectPrototype
          else if isPrototypeName key then Some JsFunction
          else None
      end
  | JsObjectPrototype =>
      if key =? "__proto__" then Some JsNull
      else if isPrototypeName key then Some JsFunction
      else None
  | _ => None
  end.

End Values.

(* ===================================================================== *)
(** * The JSON path extractor (module [cli])                              *)
(* ===================================================================== *)

Definition bindResult {A B} (r : Result A) (k : A -> Result B) : Result B :=
  match r with
  | OK a => k a
  | Throw e => Throw e
  end.

Declare Scope result_scope.
Delimit Scope result_scope with result.
Notation "x <- r ;; k" := (bindResult r (fun x => k))
  (at level 61, r at next level, right associativity) : result_scope.
Notation "r ;; k" := (bindResult r (fun _ => k))
  (at level 61, right associativity) : result_scope.

Section Extractor.
Context {RT : JsRuntime}.

#[local] Abbreviation Value := (JsValue JsNum).

(** [!!v] *)
Definition truthy (v : Value) : bool :=
  match v with
  | JsNull => false
  | JsBool b => b
  | JsNumber n => Number_truthy n
  | JsString s => JsString.truthy s
  | JsArray _ | JsObject _ | JsFunction | JsObjectPrototype => true
  end.

(** [validateJsonPath(jsonPath)] *)
Definition validateJsonPath (jsonPath : string) : Result unit :=
  if (JsString.length jsonPath =? 0)%Z then
    Throw (Error "JSON path cannot be empty")
  else if JsString.startsWith jsonPath "." || JsString.endsWith jsonPath "." then
    Throw (Error ("JSON path '" ++ jsonPath ++
      "' cannot start or end with a dot. Use format like 'key.subkey'"))
  else
    let segments := JsString.split jsonPath "." in
    let emptySegments :=
      filter (fun seg => (JsString.length seg =? 0)%Z) segments in
    if (0 <? List.length emptySegments)%nat then
      Throw (Error ("JSON path '" ++ jsonPath ++
        "' contains empty segments. Use format like 'key.subkey' without consecutive dots"))
    else OK tt.

(** The test [!value || typeof value !== "object" || Array.isArray(value)]
    that guards the root and every step of the traversal. *)
Definition notPlainObject (value : Value) : bool :=
  negb (truthy value) || negb (typeof value =? "object") || Array_isArray value.

(** [parentPath ? `path '${parentPath}'` : "top-level"] *)
Definition pathDescription (parentPath : option string) : string :=
  match parentPath with
  | Some p => if JsString.truthy p then "path '" ++ p ++ "'" else "top-level"
  | None => "top-level"
  end.

(** The exception of step 3 for a value that is not a plain object. *)
Definition notObjectError (jsonPath : string) (parentPath : option string)
    (key : string) (value : Value) : JsThrown :=
  let valueType :=
    if Array_isArray value then "an array"
    else match value with
         | JsNull => "null"
         | _ => "a " ++ typeof value
         end in
  Error ("Cannot extract JSON path '" ++ jsonPath ++ "' from secret: value at " ++
         pathDescription parentPath ++ " is " ++ valueType ++ ", not a plain object. " ++
         "Cannot access property '" ++ key ++ "' on " ++ valueType ++
         ". JSON path extraction requires plain objects with key-value pairs.").

(** The exception of step 3 for a key that is not in the object. *)
Definition keyNotFoundError (jsonPath : string) (parentPath : option string)
    (key : string) (value : Value) : JsThrown :=
  let availableKeys := Object_keys value in
  Error ("Cannot extract JSON path '" ++ jsonPath ++ "' from secret: key '" ++ key ++
         "' not found at " ++ pathDescription parentPath ++ ". " ++
         "Available keys: " ++
         (if (0 <? List.length availableKeys)%nat
          then JsString.join availableKeys ", " else "(none)")).

(** Step 3, the loop [for (let i = 0; i < keys.length; i++)] over the
    keys still to visit, with the loop variables [value] and
    [pathSegments]. *)
Fixpoint traverse (jsonPath : string) (keys : list string) (value : Value)
    (pathSegments : list string) : Result Value :=
  match keys with
  | [] => OK value
  | key :: keys' =>
      let parentPath :=
        if (0 <? List.length pathSegments)%nat
        then Some (JsString.join pathSegments ".") else None in
      if notPlainObject value then
        Throw (notObjectError jsonPath parentPath key value)
      else
        match getProperty value key with
        | Some value' => traverse jsonPath keys' value' (pathSegments ++ [key])%list
        | None => Throw (keyNotFoundError jsonPath parentPath key value)
        end
  end.

(** [String(value)] for a boolean *)
Definition Boolean_toString (b : bool) : string :=
  if b then "true" else "false".

(** Step 4, the conversion of the final value. A function has [typeof]
    ["function"] and so falls through to the last branch. *)
Definition convertFinal (jsonPath : string) (value : Value) : Result string :=
  match value with
  | JsString s => OK s
  | JsNumber n => OK (Number_toString n)
  | JsBool b => OK (Boolean_toString b)
  | JsNull =>
      Throw (Error ("Cannot extract JSON path '" ++ jsonPath ++
        "' from secret: value at path '" ++ jsonPath ++ "' is null. " ++
        "Only non-null primitive values (string, number, boolean) can be extracted."))
  | JsArray _ =>
      Throw (Error ("Cannot extract JSON path '" ++ jsonPath ++
        "' from secret: value at path '" ++ jsonPath ++ "' is an array. " ++
        "Only primitive values (string, number, boolean) can be extracted, not arrays or objects."))
  | JsObject _ | JsFunction | JsObjectPrototype =>
      Throw (Error ("Cannot extract JSON path '" ++ jsonPath ++
        "' from secret: value at path '" ++ jsonPath ++ "' is an object. " ++
        "Only primitive values (string, number, boolean) can be extracted, not objects or arrays."))
  end.

(** The exception of step 1 when [JSON.parse] throws a [SyntaxError]. *)
Definition notJsonError (jsonPath : string) : JsThrown :=
  Error ("Cannot extract JSON path '" ++ jsonPath ++
         "' from secret: secret value is not valid JSON. " ++
         "If you did not intend to extract a JSON path, remove the '#" ++ jsonPath ++
         "' suffix from the secret ID.").

(** The exception of step 2 for a root that is not a plain object. *)
Definition rootNotObjectError (jsonPath : string) (parsed : Value) : JsThrown :=
  let valueType :=
    if Array_isArray parsed then "a JSON array"
    else match parsed with
         | JsNull => "null"
         | _ => "a JSON primitive (" ++ typeof parsed ++ ")"
         end in
  Error ("Cannot extract JSON path '" ++ jsonPath ++ "' from secret: secret value is " ++
         valueType ++ ", not a JSON object. " ++
         "JSON path extraction requires a JSON object with key-value pairs.").

(** [extractJsonPath(jsonString, jsonPath)] *)
Definition extractJsonPath (jsonString jsonPath : string) : Result string :=
  (validateJsonPath jsonPath ;;
   parsed <- match JSON_parse jsonString with
             | OK parsed => OK parsed
             | Throw error =>
                 if instanceof_SyntaxError error
                 then Throw (notJsonError jsonPath)
                 else Throw error
             end ;;
   if notPlainObject parsed then Throw (rootNotObjectError jsonPath parsed)
   else
     let keys := JsString.split jsonPath "." in
     value <- traverse jsonPath keys parsed [] ;;
     convertFinal jsonPath value)%result.

End Extractor.

(* ===================================================================== *)
(** * Effects: the world, and computations that change it                 *)
(* ===================================================================== *)

(** The part of the world the pipeline acts on: the vault plugin instance,
    whose state is a [V], and what was written with [console.error], one
    entry for each call, oldest first. *)
Record World (V : Type) : Type := mkWorld {
  vault : V;
  console : list string
}.

Arguments mkWorld {V} vault console.
Arguments vault {V} w.
Arguments console {V} w.

(** A computation over worlds [W] that returns an [A] or throws. The world
    after is returned in both cases. *)
Definition M (W A : Type) : Type := W -> Result A * W.

Definition ret {W A} (a : A) : M W A := fun w => (OK a, w).

Definition throw {W A} (e : JsThrown) : M W A := fun w => (Throw e, w).

Definition bind {W A B} (m : M W A) (k : A -> M W B) : M W B :=
  fun w =>
    match m w with
    | (OK a, w') => k a w'
    | (Throw e, w') => (Throw e, w')
    end.

(** [try { body } catch (error) { handler }] *)
Definition tryCatch {W A} (body : M W A) (handler : JsThrown -> M W A) : M W A :=
  fun w =>
    match body w with
    | (OK a, w') => (OK a, w')
    | (Throw error, w') => handler error w'
    end.

Declare Scope m_scope.
Delimit Scope m_scope with M.
Notation "x <- m ;; k" := (bind m (fun x => k))
  (at level 61, m at next level, right associativity) : m_scope.
Notation "m ;; k" := (bind m (fun _ => k))
  (at level 61, right associativity) : m_scope.

(** [console.error(line)], with the line that is printed: a call with
    one argument prints it as it is, and [console_line] gives the line of
    a call with two. *)
Definition console_error {V} (line : string) : M (World V) unit :=
  fun w => (OK tt, mkWorld (vault w) (console w ++ [line])%list).

(** The one method of the [VaultPlugin] interface that the pipeline calls:
    [vault.getSecret(secretId)]. *)
Definition VaultPlugin (V : Type) : Type := string -> M (World V) string.

(* ===================================================================== *)
(** * The GCP vault plugin ([GCPVaultPlugin])                             *)
(* ===================================================================== *)

Module GCP.

Record Credentials : Type := mkCredentials {
  client_email : string;
  private_key : string;
  project_id : string
}.

(** [interface GCPVaultConfig]; [None] is an absent optional field. *)
Record GCPVaultConfig : Type := mkConfig {
  projectId : option string;
  keyFilename : option string;
  credentials : option Credentials
}.

(** The local [clientConfig] of [initialize]. *)
Record ClientConfig : Type := mkClientConfig {
  client_projectId : option string;
  client_keyFilename : option string;
  client_credentials : option Credentials
}.

(** A [SecretManagerServiceClient], known by the configuration it was
    built from. *)
Record Client : Type := mkClient { clientConfig : ClientConfig }.

(** The private fields of a [GCPVaultPlugin] instance. *)
Record Plugin : Type := mkPlugin {
  client : option Client;
  config : option GCPVaultConfig;
  resolvedProjectId : option string
}.

(** [new GCPVaultPlugin()] *)
Definition new : Plugin := mkPlugin None None None.

(** What the plugin reaches outside the program. A thrown value is an
    [Error] object.
    - [GOOGLE_APPLICATION_CREDENTIALS]: the environment variable;
    - [keyFile_project_id path]: the outcome of
      [JSON.parse(fs.readFileSync(path, "utf8")).project_id], where [None]
      is [undefined]; a service-account key file holds a string there;
    - [gcloud_project]: the outcome of
      [execSync("gcloud config get-value project", ...).trim()];
    - [newClient]: the constructor [new SecretManagerServiceClient(_)];
    - [accessSecretVersion client name]: the outcome of
      [client.accessSecretVersion({ name })]: it throws, or returns a
      version whose payload data, decoded as UTF-8, is [Some data], or a
      version for which [!version.payload || !version.payload.data]
      holds, [None];
    - [formats]: the formatting of the console. *)
Record Host : Type := mkHost {
  GOOGLE_APPLICATION_CREDENTIALS : option string;
  keyFile_project_id : string -> Result (option string);
  gcloud_project : Result string;
  newClient : ClientConfig -> Result Client;
  accessSecretVersion : Client -> string -> Result (option string);
  formats : ConsoleFormat
}.

(** Truthiness of an optional string: [undefined] and the empty string
    are falsy. *)
Definition truthy (o : option string) : bool :=
  match o with
  | Some s => JsString.truthy s
  | None => false
  end.

(** The body shared by priorities 1 and 2 of [initialize]: the key file
    at [path] is the client's key file, and gives the project id when no
    explicit one is configured. *)
Definition useKeyFile (host : Host) (config : GCPVaultConfig) (path : string)
    (this : Plugin) (cc : ClientConfig) : Result (Plugin * ClientConfig) :=
  let cc := mkClientConfig (client_projectId cc) (Some path) (client_credentials cc) in
  if negb (truthy (projectId config)) then
    match keyFile_project_id host path with
    | OK pid =>
        if truthy pid then
          OK (mkPlugin (client this) (GCP.config this) pid,
              mkClientConfig pid (client_keyFilename cc) (client_credentials cc))
        else OK (this, cc)
    | Throw error =>
        Throw (Error ("Failed to read or parse key file " ++ path ++ ": " ++
                      String_of_thrown error))
    end
  else OK (this, cc).

(** The chain [if (config.keyFilename) ... else if (process.env....) ...
    else if (config.credentials) ...] of [initialize]. *)
Definition credentialSource (host : Host) (config : GCPVaultConfig)
    (this : Plugin) (cc : ClientConfig) : Result (Plugin * ClientConfig) :=
  if truthy (keyFilename config) then
    useKeyFile host config
      (match keyFilename config with Some p => p | None => EmptyString end) this cc
  else if truthy (GOOGLE_APPLICATION_CREDENTIALS host) then
    useKeyFile host config
      (match GOOGLE_APPLICATION_CREDENTIALS host with
       | Some p => p
       | None => EmptyString
       end) this cc
  else
    match credentials config with
    | Some creds =>
        let cc := mkClientConfig (client_projectId cc) (client_keyFilename cc) (Some creds) in
        if JsString.truthy (project_id creds) then
          OK (mkPlugin (client this) (GCP.config this) (Some (project_id creds)),
              mkClientConfig (Some (project_id creds)) (client_keyFilename cc)
                             (client_credentials cc))
        else OK (this, cc)
    | None => OK (this, cc)
    end.

(** [async initialize(config)] on the instance [this]; the instance after
    the call is returned also when the call throws. *)
Definition initialize (host : Host) (config : GCPVaultConfig) (this : Plugin)
    : Result unit * Plugin :=
  let this := mkPlugin (client this) (Some config) (resolvedProjectId this) in
  let cc := mkClientConfig None None None in
  match credentialSource host config this cc with
  | Throw e => (Throw e, this)
  | OK (this, cc) =>
      (* Explicit projectId takes precedence *)
      let '(this, cc) :=
        if truthy (projectId config) then
          (mkPlugin (client this) (GCP.config this) (projectId config),
           mkClientConfig (projectId config) (client_keyFilename cc) (client_credentials cc))
        else (this, cc) in
      (* gcloud config as last resort *)
      let '(this, cc) :=
        if negb (truthy (resolvedProjectId this)) && negb (truthy (client_projectId cc)) then
          match gcloud_project host with
          | OK projectId =>
              if JsString.truthy projectId && negb (projectId =? "(unset)") then
                (mkPlugin (client this) (GCP.config this) (Some projectId),
                 mkClientConfig (Some projectId) (client_keyFilename cc)
                                (client_credentials cc))
              else (this, cc)
          | Throw _ => (this, cc)
          end
        else (this, cc) in
      match newClient host cc with
      | OK c => (OK tt, mkPlugin (Some c) (GCP.config this) (resolvedProjectId this))
      | Throw error =>
          (Throw (Error ("Failed to initialize GCP Secret Manager client: " ++
             emessage error ++
             ". Ensure GCP credentials are configured via GOOGLE_APPLICATION_CREDENTIALS, --vault-keyFilename, or gcloud auth application-default login.")),
           this)
      end
  end.

Definition shorthandWithoutProjectError : JsThrown :=
  Error "Cannot use shorthand secret ID format without projectId. Use full format: projects/PROJECT_ID/secrets/SECRET_NAME/versions/VERSION or set projectId via --vault-projectId, VAULT_PROJECTID, keyFilename, credentials, or gcloud config.".

Definition invalidFormatError (secretId : string) : JsThrown :=
  Error ("Invalid secret ID format: " ++ secretId ++
         ". Use format: projects/PROJECT_ID/secrets/SECRET_NAME/versions/VERSION or PROJECT_ID/SECRET_NAME").

(** The first half of [getSecret], from [let normalizedSecretId] to the
    end of the [if (secretId.startsWith("projects/")) ... else ...]: the
    value of [normalizedSecretId], or the exception thrown, and the
    value of [this.resolvedProjectId] afterwards. *)
Definition normalizeSecretId (secretId : string) (resolved : option string)
    : Result string * option string :=
  if JsString.startsWith secretId "projects/" then
    let parts := JsString.split secretId "/" in
    let resolved :=
      if (2 <=? List.length parts)%nat && (nth 0 parts EmptyString =? "projects")
         && negb (truthy resolved)
      then Some (nth 1 parts EmptyString)
      else resolved in
    if negb (JsString.includes secretId "/versions/") then
      (OK (secretId ++ "/versions/latest"), resolved)
    else (OK secretId, resolved)
  else
    if negb (truthy resolved) then (Throw shorthandWithoutProjectError, resolved)
    else
      let p := match resolved with Some p => p | None => EmptyString end in
      match JsString.split secretId "/" with
      | [name] =>
          (OK ("projects/" ++ p ++ "/secrets/" ++ name ++ "/versions/latest"), resolved)
      | [a; b] =>
          if a =? p then
            (OK ("projects/" ++ a ++ "/secrets/" ++ b ++ "/versions/latest"), resolved)
          else
            (OK ("projects/" ++ p ++ "/secrets/" ++ a ++ "/versions/" ++ b), resolved)
      | [a; b; c] =>
          (OK ("projects/" ++ a ++ "/secrets/" ++ b ++ "/versions/" ++ c), resolved)
      | _ => (Throw (invalidFormatError secretId), resolved)
      end.

(** The state of a plugin instance in the world: its fields, and the
    names for which [client.accessSecretVersion] has been called so far,
    oldest first. *)
Record State : Type := mkState {
  this : Plugin;
  requests : list string
}.

(** The [catch] block at the end of [getSecret]. *)
Definition accessFailed (host : Host) (secretId normalizedSecretId : string)
    (error : JsThrown) : M (World State) string :=
  let errorMessage := emessage error in
  (console_error
     (console_line (formats host)
        ("Error retrieving secret " ++ secretId ++ " (normalized: " ++
         normalizedSecretId ++ "):")
        (ArgString errorMessage)) ;;
   if JsString.includes errorMessage "Permission denied"
      || JsString.includes errorMessage "permission" then
     throw (Error ("Permission denied accessing secret. Ensure your GCP credentials have the 'Secret Manager Secret Accessor' role. Original error: " ++ errorMessage))
   else if JsString.includes errorMessage "not found"
           || JsString.includes errorMessage "NotFound" then
     throw (Error ("Secret not found: " ++ normalizedSecretId ++
                   ". Verify the secret exists in the specified project. Original error: " ++
                   errorMessage))
   else if JsString.includes errorMessage "Could not load the default credentials" then
     throw (Error ("GCP credentials not found. Set GOOGLE_APPLICATION_CREDENTIALS, use --vault-keyFilename, or run 'gcloud auth application-default login'. Original error: " ++ errorMessage))
   else throw error)%M.

(** The [try] block at the end of [getSecret]: the call of the client,
    recorded in [requests], and the decoding of the payload. *)
Definition access (host : Host) (c : Client) (normalizedSecretId : string)
    : M (World State) string :=
  fun w =>
    let st := vault w in
    let w' := mkWorld (mkState (this st) (requests st ++ [normalizedSecretId])%list)
                      (console w) in
    match accessSecretVersion host c normalizedSecretId with
    | OK (Some data) => (OK data, w')
    | OK None => (Throw (Error "Secret value is empty"), w')
    | Throw e => (Throw e, w')
    end.

(** [async getSecret(secretId)] *)
Definition getSecret (host : Host) : VaultPlugin State :=
  fun secretId w =>
    let st := vault w in
    match client (this st) with
    | None =>
        (Throw (Error "GCP vault plugin not initialized. Call initialize() first."), w)
    | Some c =>
        let '(normalized, resolved) :=
          normalizeSecretId secretId (resolvedProjectId (this st)) in
        let w := mkWorld (mkState (mkPlugin (client (this st)) (config (this st)) resolved)
                                  (requests st))
                         (console w) in
        match normalized with
        | Throw e => (Throw e, w)
        | OK normalizedSecretId =>
            tryCatch (access host c normalizedSecretId)
                     (accessFailed host secretId normalizedSecretId) w
        end
    end.

End GCP.

(* ===================================================================== *)
(** * The command line and the resolution pipeline (module [cli])         *)
(* ===================================================================== *)

Module JsArray.

(** [xs.indexOf(x)] on an array of strings: the first index, or [-1]. *)
Fixpoint indexOf_from (xs : list string) (x : string) (i : Z) : Z :=
  match xs with
  | [] => (-1)%Z
  | y :: xs' => if y =? x then i else indexOf_from xs' x (i + 1)
  end.

Definition indexOf (xs : list string) (x : string) : Z := indexOf_from xs x 0.

(** [xs.slice(start, end)] and [xs.slice(start)] for indices that are not
    negative. *)
Definition slice {A} (xs : list A) (start end_ : Z) : list A :=
  firstn (Z.to_nat end_ - Z.to_nat start) (skipn (Z.to_nat start) xs).

Definition slice_from {A} (xs : list A) (start : Z) : list A :=
  skipn (Z.to_nat start) xs.

End JsArray.

(** The body of the loop [for (const arg of envVarArgs)] of [parseCliArgs].
    The pattern [[key, value]] reads the first two pieces of the split; an
    argument that passed the [includes] test has both. *)
Fixpoint parseEnvVarArgs (envVarArgs : list string) (envVars : Record)
    : Result Record :=
  match envVarArgs with
  | [] => OK envVars
  | arg :: rest =>
      if negb (JsString.includes arg "=") then
        Throw (Error ("Invalid format: '" ++ arg ++ "'. Use key=value."))
      else
        let pieces := JsString.split_limit arg "=" 2 in
        let key := nth 0 pieces EmptyString in
        let value := nth 1 pieces EmptyString in
        parseEnvVarArgs rest (JsObject.set envVars key value)
  end.

(** [parseCliArgs(args)] *)
Definition parseCliArgs (args : list string) : Result (Record * list string) :=
  let delimiterIndex := JsArray.indexOf args "--" in
  if negb (delimiterIndex =? -1)%Z then
    let envVarArgs := JsArray.slice args 0 delimiterIndex in
    let command := JsArray.slice_from args (delimiterIndex + 1) in
    match parseEnvVarArgs envVarArgs [] with
    | OK envVars => OK (envVars, command)
    | Throw e => Throw e
    end
  else OK ([], args).

Section Pipeline.
Context {RT : JsRuntime}.
Context {V : Type}.

(** The first statements of the [try] block of [getSecrets]: the pair of
    [actualSecretId] and [jsonPath], where [None] is [undefined]. *)
Definition splitSecretId (secretIdWithPath : string) : string * option string :=
  let lastHashIndex := JsString.lastIndexOf secretIdWithPath "#" in
  let actualSecretId :=
    if (lastHashIndex =? -1)%Z then secretIdWithPath
    else JsString.substring secretIdWithPath 0 lastHashIndex in
  let jsonPath :=
    if (lastHashIndex =? -1)%Z then None
    else Some (JsString.substring_from secretIdWithPath (lastHashIndex + 1)) in
  (actualSecretId, jsonPath).

Definition emptyJsonPathError (key secretIdWithPath : string) : JsThrown :=
  Error ("Invalid secret ID format for " ++ key ++ ": '" ++ secretIdWithPath ++ "'. " ++
         "JSON path cannot be empty after '#' delimiter.").

(** Lifting of a pure result into a computation. *)
Definition liftResult {W A} (r : Result A) : M W A := fun w => (r, w).

(** The [try] block of [getSecrets] for one entry: the value assigned to
    [result[key]]. *)
Definition resolveSecret (vault : VaultPlugin V) (key secretIdWithPath : string)
    : M (World V) string :=
  let '(actualSecretId, jsonPath) := splitSecretId secretIdWithPath in
  match jsonPath with
  | Some EmptyString => throw (emptyJsonPathError key secretIdWithPath)
  | _ =>
      (secretValue <- vault actualSecretId ;;
       match jsonPath with
       | Some path =>
           if JsString.truthy path
           then liftResult (extractJsonPath secretValue path)
           else ret secretValue
       | None => ret secretValue
       end)%M
  end.

(** The line written by
    [console.error(`Failed to get secret for ${key}:`, error)]. *)
Definition failureLine (key : string) (error : JsThrown) : string :=
  console_line util ("Failed to get secret for " ++ key ++ ":") (ArgThrown error).

(** The [catch] block of [getSecrets]. *)
Definition resolveFailed {A} (key : string) (error : JsThrown) : M (World V) A :=
  (console_error (failureLine key error) ;; throw error)%M.

(** The loop [for (const [key, secretIdWithPath] of Object.entries(envVars))]
    over the entries still to visit, with the mapping [result] built so
    far. *)
Fixpoint getSecretsLoop (vault : VaultPlugin V) (entries : list (string * string))
    (result : Record) : M (World V) Record :=
  match entries with
  | [] => ret result
  | (key, secretIdWithPath) :: entries' =>
      (value <- tryCatch (resolveSecret vault key secretIdWithPath)
                         (resolveFailed key) ;;
       getSecretsLoop vault entries' (JsObject.set result key value))%M
  end.

(** [getSecrets(envVars, vault)] *)
Definition getSecrets (envVars : Record) (vault : VaultPlugin V)
    : M (World V) Record :=
  getSecretsLoop vault (JsObject.entries envVars) [].

End Pipeline.

(* ===================================================================== *)
(** * A runtime to run the extractor on concrete documents                *)
(* ===================================================================== *)

(** An instance of [JsRuntime] whose numbers are the integers. Its
    [JSON_parse] follows the JSON grammar (ECMA-404): white space, the three
    literals, strings with their escapes, arrays, and objects whose
    properties are created as [JSON.parse] creates them. It agrees with
    JavaScript on every text whose numbers are integer literals of magnitude
    at most 2^53; a number with a fraction or an exponent, or a larger one,
    is outside this fragment and is refused with an exception of its own,
    which is not a [SyntaxError]. *)
Module IntegerJson.

Definition dquote : ascii := ascii_of_nat 34.

(** A document written with ['] for the double quote. *)
Fixpoint json (s : string) : string :=
  match s with
  | EmptyString => EmptyString
  | String a s' => String (if Ascii.eqb a "'" then dquote else a) (json s')
  end.

Definition syntaxError : JsThrown :=
  mkThrown "SyntaxError" "Unexpected token in JSON".

Definition outsideFragment : JsThrown :=
  mkThrown "RangeError" "number outside the integer fragment".

Definition isWhitespace (a : ascii) : bool :=
  let n := nat_of_ascii a in
  (n =? 32)%nat || (n =? 9)%nat || (n =? 10)%nat || (n =? 13)%nat.

Fixpoint skipWhitespace (s : string) : string :=
  match s with
  | String a s' => if isWhitespace a then skipWhitespace s' else s
  | EmptyString => s
  end.

Definition hexValue (a : ascii) : option N :=
  let n := N_of_ascii a in
  if (48 <=? n)%N && (n <=? 57)%N then Some (n - 48)%N
  else if (65 <=? n)%N && (n <=? 70)%N then Some (n - 55)%N
  else if (97 <=? n)%N && (n <=? 102)%N then Some (n - 87)%N
  else None.

Definition hex4 (a b c d : ascii) : option N :=
  match hexValue a, hexValue b, hexValue c, hexValue d with
  | Some x, Some y, Some z, Some w => Some (((x * 16 + y) * 16 + z) * 16 + w)%N
  | _, _, _, _ => None
  end.

(** A character of a string literal: a byte of the text, or the UTF-16
    code unit of a [\u] escape. *)
Inductive piece : Type :=
| Raw (a : ascii)
| Unit16 (n : N).

Definition byte (n : N) : string := String (ascii_of_N n) EmptyString.

(** UTF-8 encoding of a code point. *)
Definition utf8 (cp : N) : string :=
  if (cp <? 128)%N then byte cp
  else if (cp <? 2048)%N then
    byte (192 + cp / 64) ++ byte (128 + cp mod 64)
  else if (cp <? 65536)%N then
    byte (224 + cp / 4096) ++ byte (128 + (cp / 64) mod 64) ++ byte (128 + cp mod 64)
  else
    byte (240 + cp / 262144) ++ byte (128 + (cp / 4096) mod 64) ++
    byte (128 + (cp / 64) mod 64) ++ byte (128 + cp mod 64).

Definition isHighSurrogate (n : N) : bool := (55296 <=? n)%N && (n <=? 56319)%N.
Definition isLowSurrogate (n : N) : bool := (56320 <=? n)%N && (n <=? 57343)%N.

Fixpoint encode (ps : list piece) : string :=
  match ps with
  | [] => EmptyString
  | Raw a :: ps' => String a (encode ps')
  | Unit16 hi :: ps' =>
      match ps' with
      | Unit16 lo :: ps'' =>
          if isHighSurrogate hi && isLowSurrogate lo
          then utf8 (65536 + (hi - 55296) * 1024 + (lo - 56320)) ++ encode ps''
          else utf8 hi ++ encode ps'
      | _ => utf8 hi ++ encode ps'
      end
  end.

(** The characters of a string literal after its opening quote, up to
    the closing quote, and the text that follows it. *)
Fixpoint stringBody (s : string) : Result (list piece * string) :=
  match s with
  | EmptyString => Throw syntaxError
  | String a s' =>
      if Ascii.eqb a dquote then OK ([], s')
      else if Ascii.eqb a "\" then
        match s' with
        | String e s'' =>
            let simple (c : ascii) :=
              match stringBody s'' with
              | OK (ps, rest) => OK (Raw c :: ps, rest)
              | Throw x => Throw x
              end in
            if Ascii.eqb e dquote then simple dquote
            else if Ascii.eqb e "\" then simple "\"%char
            else if Ascii.eqb e "/" then simple "/"%char
            else if Ascii.eqb e "b" then simple (ascii_of_nat 8)
            else if Ascii.eqb e "f" then simple (ascii_of_nat 12)
            else if Ascii.eqb e "n" then simple (ascii_of_nat 10)
            else if Ascii.eqb e "r" then simple (ascii_of_nat 13)
            else if Ascii.eqb e "t" then simple (ascii_of_nat 9)
            else if Ascii.eqb e "u" then
              match s'' with
              | String h1 (String h2 (String h3 (String h4 s4))) =>
                  match hex4 h1 h2 h3 h4, stringBody s4 with
                  | Some n, OK (ps, rest) => OK (Unit16 n :: ps, rest)
                  | _, _ => Throw syntaxError
                  end
              | _ => Throw syntaxError
              end
            else Throw syntaxError
        | EmptyString => Throw syntaxError
        end
      else if (nat_of_ascii a <? 32)%nat then Throw syntaxError
      else
        match stringBody s' with
        | OK (ps, rest) => OK (Raw a :: ps, rest)
        | Throw x => Throw x
        end
  end.

Definition stringLiteral (s : string) : Result (string * string) :=
  match stringBody s with
  | OK (ps, rest) => OK (encode ps, rest)
  | Throw x => Throw x
  end.

(** The longest prefix of digits of [s], as a number, with the number of
    digits read and the rest of the text. *)
Fixpoint digits (s : string) (acc : N) (count : nat) : N * nat * string :=
  match s with
  | String a s' =>
      if JsObject.isDigit a
      then digits s' (10 * acc + (N_of_ascii a - 48))%N (S count)
      else (acc, count, s)
  | EmptyString => (acc, count, s)
  end.

Definition startsFractionOrExponent (s : string) : bool :=
  match s with
  | String a _ => Ascii.eqb a "." || Ascii.eqb a "e" || Ascii.eqb a "E"
  | EmptyString => false
  end.

(** A number: an optional minus sign and an integer without a leading
    zero. *)
Definition numberLiteral (s : string) : Result (Z * string) :=
  let '(negative, s1) :=
    match s with
    | String a s' => if Ascii.eqb a "-" then (true, s') else (false, s)
    | EmptyString => (false, s)
    end in
  let '(n, count, rest) := digits s1 0 0 in
  let leadingZero :=
    match s1 with
    | String a _ => Ascii.eqb a "0" && (1 <? count)%nat
    | EmptyString => false
    end in
  if (count =? 0)%nat || leadingZero then Throw syntaxError
  else if startsFractionOrExponent rest || (9007199254740992 <? n)%N
  then Throw outsideFragment
  else OK (if negative then (- Z.of_N n)%Z else Z.of_N n, rest).

Definition expect (word : string) (v : JsValue Z) (s : string)
    : Result (JsValue Z * string) :=
  if String.prefix word s
  then OK (v, String.substring (String.length word)
                               (String.length s - String.length word) s)
  else Throw syntaxError.

(** The value at the head of [s], after white space, and the text that
    follows it. [fuel] bounds the depth of the calls. *)
Fixpoint value (fuel : nat) (s : string) : Result (JsValue Z * string) :=
  match fuel with
  | O => Throw syntaxError
  | S fuel' =>
      match skipWhitespace s with
      | EmptyString => Throw syntaxError
      | String a s' as text =>
          if Ascii.eqb a "{" then
            match skipWhitespace s' with
            | String b s'' as inner =>
                if Ascii.eqb b "}" then OK (JsObject [], s'')
                else members fuel' inner []
            | EmptyString => Throw syntaxError
            end
          else if Ascii.eqb a "[" then
            match skipWhitespace s' with
            | String b s'' as inner =>
                if Ascii.eqb b "]" then OK (JsArray [], s'')
                else elements fuel' inner []
            | EmptyString => Throw syntaxError
            end
          else if Ascii.eqb a dquote then
            match stringLiteral s' with
            | OK (str, rest) => OK (JsString str, rest)
            | Throw x => Throw x
            end
          else if Ascii.eqb a "t" then expect "true" (JsBool true) text
          else if Ascii.eqb a "f" then expect "false" (JsBool false) text
          else if Ascii.eqb a "n" then expect "null" JsNull text
          else
            match numberLiteral text with
            | OK (n, rest) => OK (JsNumber n, rest)
            | Throw x => Throw x
            end
      end
  end

(** The members of an object from the head of [s], which is the start of
    a member, to the closing brace; [acc] holds the properties created so
    far. A repeated key overwrites the property in its place. *)
with members (fuel : nat) (s : string) (acc : list (string * JsValue Z))
    : Result (JsValue Z * string) :=
  match fuel with
  | O => Throw syntaxError
  | S fuel' =>
      match s with
      | String q s' =>
          if Ascii.eqb q dquote then
            match stringLiteral s' with
            | OK (key, rest) =>
                match skipWhitespace rest with
                | String c rest' =>
                    if Ascii.eqb c ":" then
                      match value fuel' rest' with
                      | OK (v, rest'') =>
                          let acc' := JsObject.define acc key v in
                          match skipWhitespace rest'' with
                          | String d rest3 =>
                              if Ascii.eqb d "," then
                                members fuel' (skipWhitespace rest3) acc'
                              else if Ascii.eqb d "}" then OK (JsObject acc', rest3)
                              else Throw syntaxError
                          | EmptyString => Throw syntaxError
                          end
                      | Throw x => Throw x
                      end
                    else Throw syntaxError
                | EmptyString => Throw syntaxError
                end
            | Throw x => Throw x
            end
          else Throw syntaxError
      | EmptyString => Throw syntaxError
      end
  end

(** The elements of an array from the head of [s] to the closing
    bracket. *)
with elements (fuel : nat) (s : string) (acc : list (JsValue Z))
    : Result (JsValue Z * string) :=
  match fuel with
  | O => Throw syntaxError
  | S fuel' =>
      match value fuel' s with
      | OK (v, rest) =>
          match skipWhitespace rest with
          | String d rest' =>
              if Ascii.eqb d "," then elements fuel' rest' (acc ++ [v])%list
              else if Ascii.eqb d "]" then OK (JsArray (acc ++ [v])%list, rest')
              else Throw syntaxError
          | EmptyString => Throw syntaxError
          end
      | Throw x => Throw x
      end
  end.

(** [JSON.parse(text)]: one value, and nothing but white space after it.
    No chain of calls is longer than twice the length of the text. *)
Definition parse (text : string) : Result (JsValue Z) :=
  match value (2 * String.length text + 2) text with
  | OK (v, rest) =>
      match skipWhitespace rest with
      | EmptyString => OK v
      | String _ _ => Throw syntaxError
      end
  | Throw x => Throw x
  end.

(** [String(n)] for an integer [n]. *)
Definition toString (n : Z) : string := NilZero.string_of_int (Z.to_int n).

#[export] Instance runtime : JsRuntime := {|
  JsNum := Z;
  Number_toString := toString;
  Number_truthy := fun n => negb (n =? 0)%Z;
  JSON_parse := parse;
  util := plainConsole
|}.

End IntegerJson.

(* ===================================================================== *)
(** * Example documents                                                   *)
(* ===================================================================== *)

Module Documents.

(** The document of the specification, and one whose [db] is empty. *)
Definition dbDocument : string :=
  IntegerJson.json "{'db':{'host':'postgres','port':5432}}".

Definition emptyDbDocument : string := IntegerJson.json "{'db':{}}".

(** The database configuration of the README. *)
Definition readmeDocument : string :=
  IntegerJson.json
    "{ 'db': { 'credentials': { 'username': 'demo_user', 'password': 'demo_password' }, 'host': 'postgres', 'port': 5432, 'name': 'demo' } }".

(** A document with a value of every kind. *)
Definition kindsDocument : string :=
  IntegerJson.json "{'s':'text','n':-7,'b':true,'z':null,'a':[1,2],'o':{'k':1}}".

(** [JSON.parse(kindsDocument)] *)
Definition kindsRoot : JsValue Z :=
  JsObject [("s", JsString "text"); ("n", JsNumber (-7)%Z); ("b", JsBool true);
            ("z", JsNull); ("a", JsArray [JsNumber 1%Z; JsNumber 2%Z]);
            ("o", JsObject [("k", JsNumber 1%Z)])].

End Documents.

(* ===================================================================== *)
(** * Test doubles                                                        *)
(* ===================================================================== *)

Module Doubles.

(** A vault that records, in its state, the secret ids it is asked for,
    oldest first, and answers with [answer]. *)
Definition spy (answer : string -> Result string) : VaultPlugin (list string) :=
  fun secretId w =>
    (answer secretId, mkWorld (vault w ++ [secretId])%list (console w)).

(** A vault that returns the id it is asked for. *)
Definition echo (secretId : string) : Result string := OK secretId.

(** A vault that holds no secret. *)
Definition missing (secretId : string) : Result string :=
  Throw (Error ("Secret not found: " ++ secretId)).

(** A vault that holds every secret but [absent]. *)
Definition except (absent secretId : string) : Result string :=
  if secretId =? absent then missing secretId else echo secretId.

(** The world before anything happened. *)
Definition start {V} (v : V) : World V := mkWorld v [].

(** A machine without GCP configuration: no credentials variable, no
    readable key file, no gcloud tool. Clients can be built and every
    secret version exists. *)
Definition bareHost : GCP.Host := {|
  GCP.GOOGLE_APPLICATION_CREDENTIALS := None;
  GCP.keyFile_project_id := fun path =>
    Throw (Error ("ENOENT: no such file or directory, open '" ++ path ++ "'"));
  GCP.gcloud_project := Throw (Error "Command failed: gcloud config get-value project");
  GCP.newClient := fun cc => OK (GCP.mkClient cc);
  GCP.accessSecretVersion := fun _ name => OK (Some ("payload of " ++ name));
  GCP.formats := plainConsole
|}.

(** The same machine with gcloud configured for project [p]. *)
Definition gcloudHost (p : string) : GCP.Host := {|
  GCP.GOOGLE_APPLICATION_CREDENTIALS := None;
  GCP.keyFile_project_id := GCP.keyFile_project_id bareHost;
  GCP.gcloud_project := OK p;
  GCP.newClient := GCP.newClient bareHost;
  GCP.accessSecretVersion := GCP.accessSecretVersion bareHost;
  GCP.formats := GCP.formats bareHost
|}.

(** No [--vault-*] parameter at all. *)
Definition noConfig : GCP.GCPVaultConfig := GCP.mkConfig None None None.

(** The world holding the plugin instance [this] before any request. *)
Definition gcpStart (this : GCP.Plugin) : World GCP.State :=
  start (GCP.mkState this []).

(** The world after [new GCPVaultPlugin()] and [initialize({})] on the
    machine [host]. *)
Definition initialized (host : GCP.Host) : World GCP.State :=
  gcpStart (snd (GCP.initialize host noConfig GCP.new)).

End Doubles.

(** The worlds after each call of a sequence of [getSecret] calls on the
    same GCP plugin instance, whatever the calls return. *)
Fixpoint gcpSession (host : GCP.Host) (secretIds : list string) (w : World GCP.State)
    : list (World GCP.State) :=
  match secretIds with
  | [] => []
  | secretId :: rest =>
      let w' := snd (GCP.getSecret host secretId w) in
      w' :: gcpSession host rest w'
  end.

(* ===================================================================== *)
(** * The vault configuration parser ([VaultConfigParser])                *)
(* ===================================================================== *)

Module VaultConfigParser.

(** [interface VaultConfig]; the parameters read from the command line and
    from the environment are strings. *)
Record VaultConfig : Type := mkVaultConfig {
  type : string;
  params : Record
}.

(** The body of the loop [for (const arg of args)] of [parseFromArgs]:
    [value] is [undefined] when the text after [--vault-] holds no [=]. *)
Definition readVaultArg (params : Record) (arg : string) : Record :=
  if JsString.startsWith arg "--vault-"
     && negb (JsString.startsWith arg "--vault-type=") then
    let pieces := JsString.split (JsString.substring_from arg 8) "=" in
    let key := nth 0 pieces EmptyString in
    match nth_error pieces 1 with
    | Some value =>
        if JsString.truthy key && JsString.truthy value
        then JsObject.set params key value
        else params
    | None => params
    end
  else params.

(** [VaultConfigParser.parseFromArgs(args)]; [None] is [null]. *)
Definition parseFromArgs (args : list string) : option VaultConfig :=
  match List.find (fun arg => JsString.startsWith arg "--vault-type=") args with
  | Some vaultTypeArg =>
      if negb (JsString.truthy vaultTypeArg) then None
      else
        let vaultType := nth 1 (JsString.split vaultTypeArg "=") EmptyString in
        Some (mkVaultConfig vaultType (fold_left readVaultArg args []))
  | None => None
  end.

(** The body of the loop over [Object.entries(process.env)] of
    [parseFromEnv]. *)
Definition readVaultVariable (toLowerCase : string -> string) (params : Record)
    (entry : string * string) : Record :=
  let '(key, value) := entry in
  if JsString.startsWith key "VAULT_" && negb (key =? "VAULT_TYPE") then
    let paramKey := toLowerCase (JsString.substring_from key 6) in
    JsObject.set params paramKey value
  else params.

(** [VaultConfigParser.parseFromEnv()], as a function of [process.env],
    given by its entries, and of [String.prototype.toLowerCase]. *)
Definition parseFromEnv (toLowerCase : string -> string) (env : Record)
    : option VaultConfig :=
  match JsObject.getOwn env "VAULT_TYPE" with
  | Some vaultType =>
      if negb (JsString.truthy vaultType) then None
      else Some (mkVaultConfig vaultType
                   (fold_left (readVaultVariable toLowerCase) (JsObject.entries env) []))
  | None => None
  end.

(** [VaultConfigParser.getVaultConfig(args)] *)
Definition getVaultConfig (toLowerCase : string -> string) (env : Record)
    (args : list string) : Result VaultConfig :=
  match parseFromArgs args with
  | Some cliConfig => OK cliConfig
  | None =>
      match parseFromEnv toLowerCase env with
      | Some envConfig => OK envConfig
      | None =>
          Throw (Error "No vault configuration found. Please specify --vault-type or set VAULT_TYPE environment variable.")
      end
  end.

(** [VaultConfigParser.removeVaultArgs(args)] *)
Definition removeVaultArgs (args : list string) : list string :=
  filter (fun arg => negb (JsString.startsWith arg "--vault-")) args.

End VaultConfigParser.

(* ===================================================================== *)
(** * The plugin registry ([DefaultVaultRegistry])                        *)
(* ===================================================================== *)

Module Registry.

(** A plugin object as the registry and the pipeline use it: its [name],
    its methods [validateConfig], [initialize] and [getSecret], and its own
    fields, of type [S]. *)
Record Plugin (S : Type) : Type := mkPlugin {
  name : string;
  validateConfig : Record -> bool;
  initialize : Record -> S -> Result unit * S;
  getSecret : VaultPlugin S;
  fields : S
}.

Arguments mkPlugin {S} name validateConfig initialize getSecret fields.
Arguments name {S} p.
Arguments validateConfig {S} p params.
Arguments initialize {S} p params this.
Arguments getSecret {S} p secretId w.
Arguments fields {S} p.

(** The field [plugins], a [Map<string, VaultPlugin>]: its entries in the
    order of insertion. *)
Definition t (S : Type) : Type := list (string * Plugin S).

(** [map.set(key, value)]: the value of an existing key is replaced where
    the key stands; a new key goes to the end. *)
Definition mapSet {A} (m : list (string * A)) (key : string) (value : A)
    : list (string * A) :=
  if JsObject.hasOwn m key then JsObject.replace m key value
  else (m ++ [(key, value)])%list.

(** [register(plugin)] *)
Definition register {S} (registry : t S) (plugin : Plugin S) : t S :=
  mapSet registry (name plugin) plugin.

(** [get(name)] *)
Definition get {S} (registry : t S) (pluginName : string) : option (Plugin S) :=
  JsObject.getOwn registry pluginName.

(** [list()] *)
Definition list {S} (registry : t S) : List.list string := map fst registry.

(** [createVault(config)]: the new instance is a copy of the registered
    plugin, and [initialize] acts on the copy. *)
Definition createVault {S} (registry : t S) (config : VaultConfigParser.VaultConfig)
    : Result (Plugin S) :=
  match get registry (VaultConfigParser.type config) with
  | None =>
      Throw (Error ("Vault plugin '" ++ VaultConfigParser.type config ++
                    "' not found. Available plugins: " ++
                    JsString.join (list registry) ", "))
  | Some plugin =>
      if negb (validateConfig plugin (VaultConfigParser.params config)) then
        Throw (Error ("Invalid configuration for vault plugin '" ++
                      VaultConfigParser.type config ++ "'"))
      else
        match initialize plugin (VaultConfigParser.params config) (fields plugin) with
        | (OK _, this) =>
            OK (mkPlugin (name plugin) (validateConfig plugin) (initialize plugin)
                         (getSecret plugin) this)
        | (Throw e, _) => Throw e
        end
  end.

End Registry.

(* ===================================================================== *)
(** * The AWS vault plugin ([AWSVaultPlugin])                             *)
(* ===================================================================== *)

Module AWS.

(** [interface AWSVaultConfig]; [None] is an absent optional field. *)
Record AWSVaultConfig : Type := mkConfig {
  profile : option string;
  region : option string;
  accessKeyId : option string;
  secretAccessKey : option string;
  sessionToken : option string
}.

(** The object assigned to [clientConfig.credentials]. *)
Record Credentials : Type := mkCredentials {
  credentials_accessKeyId : string;
  credentials_secretAccessKey : string;
  credentials_sessionToken : option string
}.

(** The local [clientConfig] of [initialize]. *)
Record ClientConfig : Type := mkClientConfig {
  client_profile : option string;
  client_region : option string;
  client_credentials : option Credentials
}.

(** A [SecretsManagerClient], known by the configuration it was built
    from. *)
Record Client : Type := mkClient { clientConfig : ClientConfig }.

(** The private fields of an [AWSVaultPlugin] instance. *)
Record Plugin : Type := mkPlugin {
  client : option Client;
  config : option AWSVaultConfig
}.

(** [new AWSVaultPlugin()] *)
Definition new : Plugin := mkPlugin None None.

(** The fields of a [GetSecretValueCommandOutput] that [getSecret] reads:
    [SecretBinary] is given decoded as UTF-8 and is [None] when absent. *)
Record Response : Type := mkResponse {
  SecretString : option string;
  SecretBinary : option string
}.

(** What the plugin reaches outside the program: the constructor
    [new SecretsManagerClient(_)], the outcome of
    [client.send(new GetSecretValueCommand({ SecretId }))], and the
    formatting of the console. *)
Record Host : Type := mkHost {
  newClient : ClientConfig -> Result Client;
  send : Client -> string -> Result Response;
  formats : ConsoleFormat
}.

(** [async initialize(config)] on the instance [this]; the instance after
    the call is returned also when the constructor of the client throws. *)
Definition initialize (host : Host) (config : AWSVaultConfig) (this : Plugin)
    : Result unit * Plugin :=
  let this := mkPlugin (client this) (Some config) in
  let cc := mkClientConfig None None None in
  let cc :=
    if GCP.truthy (profile config)
    then mkClientConfig (profile config) (client_region cc) (client_credentials cc)
    else cc in
  let cc :=
    if GCP.truthy (region config)
    then mkClientConfig (client_profile cc) (region config) (client_credentials cc)
    else cc in
  let cc :=
    match accessKeyId config, secretAccessKey config with
    | Some keyId, Some secret =>
        if JsString.truthy keyId && JsString.truthy secret then
          mkClientConfig (client_profile cc) (client_region cc)
            (Some (mkCredentials keyId secret
                     (if GCP.truthy (sessionToken config)
                      then sessionToken config else None)))
        else cc
    | _, _ => cc
    end in
  match newClient host cc with
  | OK c => (OK tt, mkPlugin (Some c) (AWS.config this))
  | Throw e => (Throw e, this)
  end.

(** The state of a plugin instance in the world: its fields, and the
    secret ids sent to the client so far, oldest first. *)
Record State : Type := mkState {
  this : Plugin;
  requests : list string
}.

(** The [try] block of [getSecret]. *)
Definition fetch (host : Host) (c : Client) (secretId : string)
    : M (World State) string :=
  fun w =>
    let st := vault w in
    let w' := mkWorld (mkState (this st) (requests st ++ [secretId])%list) (console w) in
    match send host c secretId with
    | OK response =>
        if GCP.truthy (SecretString response) then
          (OK (match SecretString response with Some s => s | None => EmptyString end), w')
        else
          match SecretBinary response with
          | Some buff => (OK buff, w')
          | None => (Throw (Error "Secret value is empty"), w')
          end
    | Throw e => (Throw e, w')
    end.

(** The [catch] block of [getSecret]. *)
Definition fetchFailed (host : Host) (secretId : string) (error : JsThrown)
    : M (World State) string :=
  (console_error
     (console_line (formats host) ("Error retrieving secret " ++ secretId ++ ":")
                   (ArgThrown error)) ;;
   throw error)%M.

(** [async getSecret(secretId)] *)
Definition getSecret (host : Host) : VaultPlugin State :=
  fun secretId w =>
    match client (this (vault w)) with
    | None =>
        (Throw (Error "AWS vault plugin not initialized. Call initialize() first."), w)
    | Some c => tryCatch (fetch host c secretId) (fetchFailed host secretId) w
    end.

(** [validateConfig(_config)] *)
Definition validateConfig (_config : Record) : bool := true.

End AWS.

(* ===================================================================== *)
(** * The child process and the entry point (module [cli])                *)
(* ===================================================================== *)

(** The object literal [{ ...a, ...b }]: the own properties of [a], then
    those of [b], each created or overwritten in turn. *)
Definition spread (a b : Record) : Record :=
  fold_left (fun o entry => JsObject.define o (fst entry) (snd entry))
            (JsObject.entries a ++ JsObject.entries b)%list [].

(** The call [spawn(command, args, { env, stdio: "inherit", shell: true })]. *)
Record SpawnCall : Type := mkSpawnCall {
  spawn_command : string;
  spawn_args : list string;
  spawn_env : Record;
  spawn_stdio : string;
  spawn_shell : bool
}.

(** [runMcpServer(command, args, env)], as a function of [process.env]:
    the child process it spawns. *)
Definition runMcpServer (processEnv : Record) (command : string) (args : list string)
    (env : Record) : SpawnCall :=
  mkSpawnCall command args (spread processEnv env) "inherit" true.

(** The handler of the child's [exit] event: the status given to
    [process.exit], for the exit code of the child or [null]. *)
Definition onChildExit (code : option Z) : Z :=
  match code with
  | Some c => if (c =? 0)%Z then 0%Z else c
  | None => 0%Z
  end.

(** The handler of the child's [error] event: the line written to the
    console and the status given to [process.exit]. *)
Definition onChildError (error : JsThrown) : string * Z :=
  ("Error executing command: " ++ emessage error, 1%Z).

(** How [main] ends: with [process.exit(status)], or with the child
    spawned by [runMcpServer]. *)
Inductive Outcome : Type :=
| Exited (status : Z)
| Spawned (call : SpawnCall).

Section Main.
Context {RT : JsRuntime}.
Context {S : Type}.

(** The [try] block of [main] after the two calls of [register]:
    [registry] is the registry they leave, [env] is [process.env] and
    [argv] is [process.argv]. The world holds the console and, once the
    vault instance is created, the fields of that instance. *)
Definition mainBody (toLowerCase : string -> string) (env : Record)
    (registry : Registry.t S) (argv : list string) : M (World S) SpawnCall :=
  let args := JsArray.slice_from argv 2 in
  (vaultConfig <- liftResult (VaultConfigParser.getVaultConfig toLowerCase env args) ;;
   let cleanArgs := VaultConfigParser.removeVaultArgs args in
   parsed <- liftResult (parseCliArgs cleanArgs) ;;
   let '(envVars, commandWithArgs) := parsed in
   match commandWithArgs with
   | [] =>
       throw (Error "No command specified. Use format: mcp-secret [ENV_VAR=secret_key...] -- command [args...]")
   | command :: commandArgs =>
       vault <- liftResult (Registry.createVault registry vaultConfig) ;;
       secretValues <-
         (fun w =>
            let '(r, w') := getSecrets envVars (Registry.getSecret vault)
                                       (mkWorld (Registry.fields vault) (console w)) in
            (r, w')) ;;
       ret (runMcpServer env command commandArgs secretValues)
   end)%M.

(** [main()]: the outcome and the world after. Any exception is written
    to the console and ends the process with status 1. *)
Definition main (toLowerCase : string -> string) (env : Record)
    (registry : Registry.t S) (argv : list string) (w : World S)
    : Outcome * World S :=
  match mainBody toLowerCase env registry argv w with
  | (OK call, w') => (Spawned call, w')
  | (Throw error, w') =>
      (Exited 1,
       mkWorld (vault w') (console w' ++ [("Error: " ++ emessage error)%string])%list)
  end.

End Main.

(* ===================================================================== *)
(** * More test doubles                                                   *)
(* ===================================================================== *)

Module Fixtures.

(** [toLowerCase] on a text of ASCII characters. *)
Definition lowerAscii (a : ascii) : ascii :=
  let n := nat_of_ascii a in
  if (65 <=? n)%nat && (n <=? 90)%nat then ascii_of_nat (n + 32) else a.

Fixpoint toLowerCase (s : string) : string :=
  match s with
  | EmptyString => EmptyString
  | String a s' => String (lowerAscii a) (toLowerCase s')
  end.

(** An AWS account that holds every secret but [absent], as text. *)
Definition awsHost : AWS.Host := {|
  AWS.newClient := fun cc => OK (AWS.mkClient cc);
  AWS.send := fun _ secretId =>
    if secretId =? "absent"
    then Throw (mkThrown "ResourceNotFoundException"
                         "Secrets Manager can't find the specified secret.")
    else OK (AWS.mkResponse (Some ("value of " ++ secretId)) None);
  AWS.formats := plainConsole
|}.

(** The world holding an AWS plugin instance initialized without any
    parameter. *)
Definition awsInitialized : World AWS.State :=
  Doubles.start
    (AWS.mkState (snd (AWS.initialize awsHost (AWS.mkConfig None None None None None)
                                      AWS.new)) []).

(** A capital letter of the ASCII alphabet occurs in [s]. *)
Definition isUpperCaseLetter (a : ascii) : bool :=
  (65 <=? nat_of_ascii a)%nat && (nat_of_ascii a <=? 90)%nat.

Fixpoint hasUpperCaseLetter (s : string) : bool :=
  match s with
  | EmptyString => false
  | String a s' => isUpperCaseLetter a || hasUpperCaseLetter s'
  end.

(** A machine with gcloud configured for project [p1] on which every
    request of a secret version throws [error]. *)
Definition failingHost (error : JsThrown) : GCP.Host := {|
  GCP.GOOGLE_APPLICATION_CREDENTIALS := None;
  GCP.keyFile_project_id := GCP.keyFile_project_id Doubles.bareHost;
  GCP.gcloud_project := OK "p1";
  GCP.newClient := GCP.newClient Doubles.bareHost;
  GCP.accessSecretVersion := fun _ _ => Throw error;
  GCP.formats := GCP.formats Doubles.bareHost
|}.

(** The same machine, on which every secret version comes without
    payload data. *)
Definition emptyHost : GCP.Host := {|
  GCP.GOOGLE_APPLICATION_CREDENTIALS := None;
  GCP.keyFile_project_id := GCP.keyFile_project_id Doubles.bareHost;
  GCP.gcloud_project := OK "p1";
  GCP.newClient := GCP.newClient Doubles.bareHost;
  GCP.accessSecretVersion := fun _ _ => OK None;
  GCP.formats := GCP.formats Doubles.bareHost
|}.

(** A machine whose only key file is [key.json], of project [p-file];
    the credentials variable names another file and gcloud is configured
    for [p-gcloud]. *)
Definition keyFileHost : GCP.Host := {|
  GCP.GOOGLE_APPLICATION_CREDENTIALS := Some "other.json";
  GCP.keyFile_project_id := fun path =>
    if path =? "key.json" then OK (Some "p-file")
    else GCP.keyFile_project_id Doubles.bareHost path;
  GCP.gcloud_project := OK "p-gcloud";
  GCP.newClient := GCP.newClient Doubles.bareHost;
  GCP.accessSecretVersion := GCP.accessSecretVersion Doubles.bareHost;
  GCP.formats := GCP.formats Doubles.bareHost
|}.

(** A plugin named [spy] whose instances record the secret ids they are
    asked for and answer with [answer]. *)
Definition spyPlugin (answer : string -> Result string) : Registry.Plugin (list string) :=
  Registry.mkPlugin "spy" (fun _ => true) (fun _ this => (OK tt, this))
                    (Doubles.spy answer) [].

(** A registry that holds the plugin [spy]. *)
Definition spyRegistry (answer : string -> Result string) : Registry.t (list string) :=
  Registry.register [] (spyPlugin answer).

End Fixtures.

(* ===================================================================== *)
(** * Facts about JavaScript strings                                      *)
(* ===================================================================== *)

Module JsStringFacts.
Import JsString.

Lemma append_assoc (a b c : string) : (a ++ b) ++ c = a ++ (b ++ c).
Proof. induction a as [|x a IH]; simpl; [reflexivity | now rewrite IH]. Qed.

Lemma append_empty_r (a : string) : a ++ EmptyString = a.
Proof. induction a as [|x a IH]; simpl; [reflexivity | now rewrite IH]. Qed.

Lemma length_append (a b : string) :
  String.length (a ++ b) = (String.length a + String.length b)%nat.
Proof. induction a as [|x a IH]; simpl; [reflexivity | now rewrite IH]. Qed.

Lemma prefix_append (p b : string) : String.prefix p (p ++ b) = true.
Proof.
  induction p as [|x p IH]; simpl; [now destruct b|].
  destruct (ascii_dec x x) as [_|n]; [exact IH | now destruct n].
Qed.

Lemma prefix_weaken (p s t : string) :
  String.prefix p s = true -> String.prefix p (s ++ t) = true.
Proof.
  revert s; induction p as [|x p IH]; intros s H; simpl.
  - now destruct (s ++ t).
  - destruct s as [|y s]; simpl in *; [discriminate|].
    destruct (ascii_dec x y); [now apply IH | discriminate].
Qed.

Lemma startsWith_append (s t p : string) :
  startsWith s p = true -> startsWith (s ++ t) p = true.
Proof. apply prefix_weaken. Qed.

(** A pattern found in [t] is found in [a ++ t]. *)
Lemma includes_skip (a t p : string) :
  includes t p = true -> includes (a ++ t) p = true.
Proof.
  intros H; induction a as [|x a IH]; simpl; [exact H|].
  rewrite IH; apply orb_true_r.
Qed.

Lemma includes_prefix (p b : string) : includes (p ++ b) p = true.
Proof.
  destruct p as [|x p]; [now destruct b|].
  change (includes (String x p ++ b) (String x p))
    with (String.prefix (String x p) (String x p ++ b) || includes (p ++ b) (String x p)).
  now rewrite prefix_append.
Qed.

(** [a ++ p ++ b] includes [p]. *)
Lemma includes_middle (a p b : string) : includes (a ++ p ++ b) p = true.
Proof. apply includes_skip, includes_prefix. Qed.

Lemma includes_weaken (s t p : string) :
  includes s p = true -> includes (s ++ t) p = true.
Proof.
  induction s as [|x s IH]; simpl; intros H.
  - rewrite orb_false_r in H. destruct p; [now destruct t | discriminate].
  - apply orb_true_iff in H as [H|H].
    + change (String x s ++ t) with (String x (s ++ t)) in *.
      apply (prefix_weaken _ (String x s) t) in H. simpl in H. now rewrite H.
    + rewrite (IH H). apply orb_true_r.
Qed.

(** The last occurrence does not depend on what was seen before it. *)
Lemma lastIndexOf_from_lacks (s : string) (c : ascii) (i found : Z) :
  lacks c s = true -> lastIndexOf_from s c i found = found.
Proof.
  revert i found; induction s as [|x s IH]; intros i found H; simpl in *.
  - reflexivity.
  - apply andb_true_iff in H as [Hx Hs].
    apply negb_true_iff in Hx. rewrite Hx. now apply IH.
Qed.

Lemma lastIndexOf_from_append (a b : string) (c : ascii) (i found : Z) :
  lacks c b = true ->
  lastIndexOf_from (a ++ String c b) c i found = (i + length a)%Z.
Proof.
  unfold length.
  revert i found; induction a as [|x a IH]; intros i found H; simpl.
  - rewrite Ascii.eqb_refl, lastIndexOf_from_lacks by assumption. lia.
  - rewrite IH by assumption. lia.
Qed.

Lemma lastIndexOf_append (a b : string) (c : ascii) :
  lacks c b = true -> lastIndexOf (a ++ String c b) c = length a.
Proof.
  intros H. unfold lastIndexOf. now rewrite lastIndexOf_from_append.
Qed.

Lemma lastIndexOf_lacks (s : string) (c : ascii) :
  lacks c s = true -> lastIndexOf s c = (-1)%Z.
Proof. apply lastIndexOf_from_lacks. Qed.

Lemma substring_head (a b : string) :
  String.substring 0 (String.length a) (a ++ b) = a.
Proof.
  induction a as [|x a IH]; simpl; [now destruct b | now rewrite IH].
Qed.

Lemma substring_all (b : string) : String.substring 0 (String.length b) b = b.
Proof. induction b as [|x b IH]; simpl; [reflexivity | now rewrite IH]. Qed.

Lemma substring_tail (a b : string) :
  String.substring (String.length a) (String.length b) (a ++ b) = b.
Proof. induction a as [|x a IH]; simpl; [apply substring_all | exact IH]. Qed.

(** [(a + c + b).substring(0, a.length)] is [a]. *)
Lemma substring_before (a b : string) (c : ascii) :
  substring (a ++ String c b) 0 (length a) = a.
Proof.
  unfold substring, clamp, length.
  rewrite length_append; simpl String.length.
  replace (Z.to_nat (Z.min (Z.max 0 0) _)) with 0%nat by lia.
  replace (Z.to_nat (Z.min (Z.max (Z.of_nat (String.length a)) 0) _))
    with (String.length a) by lia.
  rewrite Nat.min_0_l, Nat.max_0_l, Nat.sub_0_r.
  apply substring_head.
Qed.

(** [(a + c + b).substring(a.length + 1)] is [b]. *)
Lemma substring_after (a b : string) (c : ascii) :
  substring_from (a ++ String c b) (length a + 1) = b.
Proof.
  unfold substring_from, substring, clamp, length.
  rewrite length_append; simpl String.length.
  replace (Z.to_nat (Z.min (Z.max (Z.of_nat (String.length a) + 1) 0) _))
    with (String.length (a ++ String c EmptyString)) by (rewrite length_append; simpl; lia).
  replace (Z.to_nat (Z.min (Z.max (Z.of_nat (String.length a + S (String.length b))) 0) _))
    with (String.length (a ++ String c EmptyString) + String.length b)%nat
    by (rewrite length_append; simpl; lia).
  rewrite Nat.min_l, Nat.max_r by lia.
  replace (String.length (a ++ String c EmptyString) + String.length b
           - String.length (a ++ String c EmptyString))%nat with (String.length b) by lia.
  replace (a ++ String c b) with ((a ++ String c EmptyString) ++ b)
    by (now rewrite append_assoc).
  apply substring_tail.
Qed.

Lemma split_lacks (s : string) (c : ascii) :
  lacks c s = true -> split s c = [s].
Proof.
  induction s as [|x s IH]; simpl; intros H; [reflexivity|].
  apply andb_true_iff in H as [Hx Hs].
  apply negb_true_iff in Hx. now rewrite Hx, IH.
Qed.

Lemma split_append (a b : string) (c : ascii) :
  lacks c a = true -> split (a ++ String c b) c = a :: split b c.
Proof.
  induction a as [|x a IH]; simpl; intros H.
  - now rewrite Ascii.eqb_refl.
  - apply andb_true_iff in H as [Hx Ha].
    apply negb_true_iff in Hx. now rewrite Hx, IH.
Qed.

(** A string either lacks [c] or is cut in one way at its last [c]. *)
Lemma last_occurrence (s : string) (c : ascii) :
  lacks c s = true
  \/ exists a b, s = a ++ String c b /\ lacks c b = true.
Proof.
  induction s as [|x s [IH|(a & b & -> & Hb)]].
  - now left.
  - simpl. destruct (Ascii.eqb x c) eqn:Hx.
    + right. apply Ascii.eqb_eq in Hx as ->. now exists EmptyString, s.
    + left. now rewrite IH.
  - right. now exists (String x a), b.
Qed.

Lemma includes_char (a b : string) (c : ascii) :
  includes (a ++ String c b) (String c EmptyString) = true.
Proof. apply (includes_middle a (String c EmptyString) b). Qed.

End JsStringFacts.

(* ===================================================================== *)
(** * The secret reference splitter                                       *)
(* ===================================================================== *)

Section SplitterFacts.
Context {RT : JsRuntime} {V : Type}.
Import JsStringFacts.

Lemma splitSecretId_hash (id path : string) :
  JsString.lacks "#" path = true ->
  splitSecretId (id ++ "#" ++ path) = (id, Some path).
Proof.
  intros H. unfold splitSecretId.
  change (id ++ "#" ++ path) with (id ++ String "#" path).
  rewrite lastIndexOf_append by assumption.
  assert (Hne : (JsString.length id =? -1)%Z = false)
    by (apply Z.eqb_neq; unfold JsString.length; lia).
  now rewrite Hne, substring_before, substring_after.
Qed.

Lemma splitSecretId_plain (token : string) :
  JsString.lacks "#" token = true -> splitSecretId token = (token, None).
Proof.
  intros H. unfold splitSecretId. now rewrite lastIndexOf_lacks.
Qed.

Lemma resolveSecret_empty_path (plugin : VaultPlugin V) (key id : string)
    (w : World V) :
  resolveSecret plugin key (id ++ "#") w =
    (Throw (emptyJsonPathError key (id ++ "#")), w).
Proof.
  unfold resolveSecret.
  pose proof (splitSecretId_hash id EmptyString eq_refl) as H.
  change ("#" ++ EmptyString) with "#" in H. rewrite H. reflexivity.
Qed.

(** C1. Every token either holds no [#] or is [id#path] for one [id] and
    one [path] without [#]. The splitter divides it at that last [#]: the
    token [id#path] gives the identifier [id] and the path [path], whatever
    [#] the identifier holds; a token without [#] is the identifier and
    has no path; and for a token that ends with [#] the pipeline throws
    the format error "JSON path cannot be empty after '#' delimiter",
    leaves the vault as it was, whatever the vault is, and only writes the
    error to the console. *)
Theorem splitter_divides_at_last_hash :
  (forall token : string,
      JsString.lacks "#" token = true
      \/ exists id path, token = id ++ "#" ++ path /\ JsString.lacks "#" path = true)
  /\ (forall id path : string,
      JsString.lacks "#" path = true ->
      splitSecretId (id ++ "#" ++ path) = (id, Some path))
  /\ (forall token : string,
      JsString.lacks "#" token = true ->
      splitSecretId token = (token, None))
  /\ (forall (plugin : VaultPlugin V) (key id : string)
             (entries : list (string * string)) (result : Record) (w : World V),
      let error := emptyJsonPathError key (id ++ "#") in
      getSecretsLoop plugin ((key, id ++ "#") :: entries) result w =
        (Throw error,
         mkWorld (vault w) (console w ++ [failureLine key error])%list)
      /\ JsString.includes (emessage error)
           "JSON path cannot be empty after '#' delimiter." = true).
Proof.
  split; [intros token; apply last_occurrence|].
  split; [exact splitSecretId_hash | split; [exact splitSecretId_plain|]].
  intros plugin key id entries result w error. split.
  - simpl. unfold bind, tryCatch.
    rewrite resolveSecret_empty_path. reflexivity.
  - unfold error, emptyJsonPathError, Error; simpl emessage.
    repeat apply includes_skip. reflexivity.
Qed.

End SplitterFacts.

(** The example of the specification, an identifier without a path, and a
    reference with an empty path given to a recording vault: nothing is
    requested from it. *)
Lemma splitter_divides_at_last_hash_witness :
  splitSecretId "my#secret#a.b" = ("my#secret", Some "a.b")
  /\ splitSecretId "arn:aws:secretsmanager:eu-west-1:1:secret:db" =
       ("arn:aws:secretsmanager:eu-west-1:1:secret:db", None)
  /\ vault (snd (getSecrets (RT := IntegerJson.runtime) [("API_KEY", "my#secret#")]
                            (Doubles.spy Doubles.echo) (Doubles.start []))) = [].
Proof.
  destruct (@splitter_divides_at_last_hash IntegerJson.runtime (list string))
    as (_ & Hsplit & Hplain & Hempty).
  split; [exact (Hsplit "my#secret" "a.b" eq_refl)|].
  split; [exact (Hplain "arn:aws:secretsmanager:eu-west-1:1:secret:db" eq_refl)|].
  unfold getSecrets, JsObject.entries.
  destruct (Hempty (Doubles.spy Doubles.echo) "API_KEY" "my#secret" [] []
                   (Doubles.start [])) as [Hloop _].
  change ("my#secret" ++ "#") with "my#secret#" in Hloop.
  rewrite Hloop. reflexivity.
Defined.

(* ===================================================================== *)
(** * The GCP identifier normalizer                                       *)
(* ===================================================================== *)

Module GCPFacts.
Import GCP JsStringFacts.

Lemma truthy_Some (p : string) : p <> EmptyString -> truthy (Some p) = true.
Proof.
  intros H. simpl. unfold JsString.truthy.
  apply negb_true_iff, String.eqb_neq, H.
Qed.

Lemma truthy_inv (o : option string) :
  truthy o = true -> exists p, o = Some p /\ p <> EmptyString.
Proof.
  destruct o as [p|]; simpl; [|discriminate].
  unfold JsString.truthy. intros H. exists p. split; [reflexivity|].
  now apply String.eqb_neq, negb_true_iff.
Qed.

(** A resolved project id is never replaced by the normalizer. *)
Lemma normalizeSecretId_keeps (secretId : string) (resolved : option string) :
  truthy resolved = true ->
  snd (normalizeSecretId secretId resolved) = resolved.
Proof.
  intros H. unfold normalizeSecretId. rewrite H.
  destruct (JsString.startsWith secretId "projects/").
  - rewrite andb_false_r.
    now destruct (negb (JsString.includes secretId "/versions/")).
  - simpl negb. cbv iota.
    destruct (JsString.split secretId "/") as [|a [|b [|c [|d l]]]]; try reflexivity.
    now destruct (a =? _).
Qed.

(** The catch block does not touch the plugin instance. *)
Lemma accessFailed_vault (host : Host) (secretId normalized : string)
    (error : JsThrown) (w : World State) :
  vault (snd (accessFailed host secretId normalized error w)) = vault w.
Proof.
  unfold accessFailed, bind, console_error, throw.
  repeat match goal with |- context [if ?b then _ else _] => destruct b end;
    reflexivity.
Qed.

(** What a call of [getSecret] on an initialized instance does to the
    instance: the resolved project id is the normalizer's, and the
    normalized name, when there is one, is the one name requested from
    the client. *)
Lemma getSecret_state (host : Host) (secretId : string) (w : World State)
    (c : Client) :
  client (this (vault w)) = Some c ->
  let '(normalized, resolved) :=
    normalizeSecretId secretId (resolvedProjectId (this (vault w))) in
  let st := vault (snd (getSecret host secretId w)) in
  resolvedProjectId (this st) = resolved
  /\ client (this st) = Some c
  /\ requests st =
       match normalized with
       | OK name => (requests (vault w) ++ [name])%list
       | Throw _ => requests (vault w)
       end.
Proof.
  intros Hc. unfold getSecret. rewrite Hc.
  destruct (normalizeSecretId secretId _) as [[name|e] resolved]; simpl.
  - unfold tryCatch, access; simpl.
    destruct (accessSecretVersion host c name) as [[data|]|e]; simpl;
      try rewrite accessFailed_vault; simpl; repeat split; reflexivity.
  - repeat split; reflexivity.
Qed.

(** On an initialized instance [getSecret] returns the payload that the
    client returns for the normalized name. *)
Lemma getSecret_payload (host : Host) (secretId name data : string)
    (resolved : option string) (w : World State) (c : Client) :
  client (this (vault w)) = Some c ->
  normalizeSecretId secretId (resolvedProjectId (this (vault w))) = (OK name, resolved) ->
  accessSecretVersion host c name = OK (Some data) ->
  fst (getSecret host secretId w) = OK data.
Proof.
  intros Hc Hn Ha. unfold getSecret. rewrite Hc, Hn. simpl.
  unfold tryCatch, access. now rewrite Ha.
Qed.

(** C2. For a shorthand identifier [A/B] of exactly two segments and a
    resolved project id [p], the normalized name is
    [projects/A/secrets/B/versions/latest] when [A] is the string [p] and
    [projects/p/secrets/A/versions/B] when it is any other string; the
    resolved project id is unchanged, and on an initialized instance this
    name is the one requested from the client. *)
Theorem two_segment_tie_break (a b p : string) :
  JsString.lacks "/" a = true ->
  JsString.lacks "/" b = true ->
  p <> EmptyString ->
  JsString.startsWith (a ++ "/" ++ b) "projects/" = false ->
  let expected :=
    if a =? p then "projects/" ++ a ++ "/secrets/" ++ b ++ "/versions/latest"
    else "projects/" ++ p ++ "/secrets/" ++ a ++ "/versions/" ++ b in
  (a = p -> expected = "projects/" ++ a ++ "/secrets/" ++ b ++ "/versions/latest")
  /\ (a <> p -> expected = "projects/" ++ p ++ "/secrets/" ++ a ++ "/versions/" ++ b)
  /\ normalizeSecretId (a ++ "/" ++ b) (Some p) = (OK expected, Some p)
  /\ forall (host : Host) (w : World State) (c : Client),
       client (this (vault w)) = Some c ->
       resolvedProjectId (this (vault w)) = Some p ->
       requests (vault (snd (getSecret host (a ++ "/" ++ b) w))) =
         (requests (vault w) ++ [expected])%list.
Proof.
  intros Ha Hb Hp Hshort expected.
  assert (Hn : normalizeSecretId (a ++ "/" ++ b) (Some p) = (OK expected, Some p)).
  { unfold normalizeSecretId. rewrite Hshort, (truthy_Some p Hp). simpl negb. cbv iota.
    change (a ++ "/" ++ b) with (a ++ String "/" b).
    rewrite split_append, split_lacks by assumption.
    unfold expected. now destruct (a =? p). }
  repeat split.
  - intros ->. unfold expected. now rewrite String.eqb_refl.
  - intros Hne. unfold expected. apply String.eqb_neq in Hne. now rewrite Hne.
  - exact Hn.
  - intros host w c Hc Hr.
    pose proof (getSecret_state host (a ++ "/" ++ b) w c Hc) as H.
    rewrite Hr, Hn in H. apply H.
Qed.

(** C3. On an identifier that starts with [projects/], the normalizer
    returns it unchanged when it has a [/versions/] segment, and
    otherwise appends [/versions/latest]; the result of that is returned
    unchanged when normalized again. *)
Theorem canonical_idempotent (secretId : string) (resolved : option string) :
  JsString.startsWith secretId "projects/" = true ->
  (JsString.includes secretId "/versions/" = true ->
     fst (normalizeSecretId secretId resolved) = OK secretId)
  /\ (JsString.includes secretId "/versions/" = false ->
     fst (normalizeSecretId secretId resolved) = OK (secretId ++ "/versions/latest")
     /\ forall resolved' : option string,
          fst (normalizeSecretId (secretId ++ "/versions/latest") resolved')
          = OK (secretId ++ "/versions/latest")).
Proof.
  intros Hfull. split; intros Hv.
  - unfold normalizeSecretId. now rewrite Hfull, Hv.
  - split; [unfold normalizeSecretId; now rewrite Hfull, Hv|].
    intros resolved'. unfold normalizeSecretId.
    rewrite (startsWith_append _ "/versions/latest" _ Hfull).
    pose proof (includes_middle secretId "/versions/" "latest") as Hm.
    change ("/versions/" ++ "latest") with "/versions/latest" in Hm.
    now rewrite Hm.
Qed.

Lemma prefix_inv (p s : string) :
  String.prefix p s = true -> exists t, s = p ++ t.
Proof.
  revert s; induction p as [|x p IH]; intros s H.
  - now exists s.
  - destruct s as [|y s]; simpl in H; [discriminate|].
    destruct (ascii_dec x y) as [->|]; [|discriminate].
    destruct (IH s H) as [t ->]. now exists t.
Qed.

Lemma split_cons (s : string) (c : ascii) :
  exists seg segs, JsString.split s c = seg :: segs.
Proof.
  induction s as [|x s (seg & segs & IH)]; simpl; [now eexists; eexists|].
  destruct (Ascii.eqb x c); [now eexists; eexists|].
  rewrite IH. now eexists; eexists.
Qed.

(** The pieces of a fully-qualified identifier: ["projects"], then the
    project segment, then the rest. *)
Lemma split_full (secretId : string) :
  JsString.startsWith secretId "projects/" = true ->
  exists project rest, JsString.split secretId "/" = "projects" :: project :: rest.
Proof.
  intros H. destruct (prefix_inv _ _ H) as [t ->].
  destruct (split_cons t "/") as (project & rest & Ht).
  exists project, rest.
  change ("projects/" ++ t) with ("projects" ++ String "/" t).
  now rewrite split_append, Ht.
Qed.

(** When no project id is resolved, a fully-qualified identifier gives
    its project segment and a shorthand one leaves the field as it is. *)
Lemma normalizeSecretId_adopts (secretId : string) (resolved : option string) :
  truthy resolved = false ->
  snd (normalizeSecretId secretId resolved) =
    if JsString.startsWith secretId "projects/"
    then Some (nth 1 (JsString.split secretId "/") EmptyString)
    else resolved.
Proof.
  intros H. unfold normalizeSecretId. rewrite H.
  destruct (JsString.startsWith secretId "projects/") eqn:Hfull.
  - destruct (split_full _ Hfull) as (project & rest & ->). simpl.
    now destruct (negb (JsString.includes secretId "/versions/")).
  - reflexivity.
Qed.

Lemma getSecret_resolved (host : Host) (secretId : string) (w : World State) :
  resolvedProjectId (this (vault (snd (getSecret host secretId w)))) =
    match client (this (vault w)) with
    | Some _ => snd (normalizeSecretId secretId (resolvedProjectId (this (vault w))))
    | None => resolvedProjectId (this (vault w))
    end.
Proof.
  destruct (client (this (vault w))) as [c|] eqn:Hc.
  - pose proof (getSecret_state host secretId w c Hc) as H.
    destruct (normalizeSecretId secretId _) as [normalized resolved].
    apply H.
  - unfold getSecret. now rewrite Hc.
Qed.

(** C4, as the code has it. Once the resolved project id is a non-empty
    string, no sequence of [getSecret] calls changes it: after every call
    it is the same string. While it is unset, a call with a
    fully-qualified identifier sets it to the project segment of that
    identifier, and a call with a shorthand identifier leaves it unset. *)
Theorem resolved_project_id_fixed_once_set (host : Host) :
  (forall (secretIds : list string) (w : World State) (p : string),
      resolvedProjectId (this (vault w)) = Some p ->
      p <> EmptyString ->
      Forall (fun w' => resolvedProjectId (this (vault w')) = Some p)
             (gcpSession host secretIds w))
  /\ (forall (secretId : string) (w : World State) (c : Client),
      client (this (vault w)) = Some c ->
      truthy (resolvedProjectId (this (vault w))) = false ->
      resolvedProjectId (this (vault (snd (getSecret host secretId w)))) =
        if JsString.startsWith secretId "projects/"
        then Some (nth 1 (JsString.split secretId "/") EmptyString)
        else resolvedProjectId (this (vault w))).
Proof.
  split.
  - intros secretIds; induction secretIds as [|secretId rest IH];
      intros w p Hr Hp; simpl; constructor.
    + rewrite getSecret_resolved, Hr.
      destruct (client (this (vault w))); [|reflexivity].
      apply normalizeSecretId_keeps, truthy_Some, Hp.
    + apply IH; [|exact Hp].
      rewrite getSecret_resolved, Hr.
      destruct (client (this (vault w))); [|reflexivity].
      apply normalizeSecretId_keeps, truthy_Some, Hp.
  - intros secretId w c Hc Hr.
    rewrite getSecret_resolved, Hc. now apply normalizeSecretId_adopts.
Qed.

(** A text without [/] is a shorthand identifier. *)
Lemma shorthand_without_slash (s : string) :
  JsString.lacks "/" s = true -> JsString.startsWith s "projects/" = false.
Proof.
  intros H. destruct (JsString.startsWith s "projects/") eqn:Hp; [|reflexivity].
  destruct (prefix_inv _ _ Hp) as [t ->]. discriminate.
Qed.

(** What the last two steps of [initialize] do when nothing has given a
    project id so far and gcloud gives none either. *)
Lemma initialize_without_project (host : Host) (config : GCPVaultConfig)
    (cc : ClientConfig) (c : Client) :
  truthy (projectId config) = false ->
  (forall project, gcloud_project host = OK project ->
     project = EmptyString \/ project = "(unset)") ->
  credentialSource host config (mkPlugin None (Some config) None)
                   (mkClientConfig None None None) =
    OK (mkPlugin None (Some config) None, cc) ->
  client_projectId cc = None ->
  newClient host cc = OK c ->
  initialize host config new = (OK tt, mkPlugin (Some c) (Some config) None).
Proof.
  intros Hexplicit Hgcloud Hsource Hcc Hnew.
  unfold initialize; cbn [new client resolvedProjectId].
  rewrite Hsource, Hexplicit. cbv beta iota zeta.
  cbn [resolvedProjectId]. rewrite Hcc. simpl negb. simpl andb. cbv iota.
  destruct (gcloud_project host) as [project|e] eqn:Hproject.
  - destruct (Hgcloud project eq_refl) as [-> | ->]; simpl; now rewrite Hnew.
  - simpl. now rewrite Hnew.
Qed.

(** C5, as the code has it. On an initialized instance with no resolved
    project id at the time of the call, a shorthand identifier makes
    [getSecret] throw the configuration error, which names the ways to
    give a project id, and changes nothing: no name is requested from the
    client. That no source gives a project id is not an error of
    [initialize]: without an explicit [projectId], with a key file (the
    one of [keyFilename], else the one of
    [GOOGLE_APPLICATION_CREDENTIALS]) that is readable and holds no
    [project_id], or else with inline credentials, if any, that hold
    none, and with a gcloud tool that fails or prints nothing or
    [(unset)], [initialize] succeeds as soon as the client can be built,
    and resolves no project id. With no resolved project id a
    fully-qualified identifier is requested and its payload returned, and
    that call sets the resolved project id to the project segment of the
    identifier: when the segment is not empty, a one-segment shorthand is
    then requested in that project. *)
Theorem shorthand_needs_project_id (host : Host) :
  (forall (w : World State) (c : Client) (secretId : string),
      client (this (vault w)) = Some c ->
      truthy (resolvedProjectId (this (vault w))) = false ->
      JsString.startsWith secretId "projects/" = false ->
      getSecret host secretId w = (Throw shorthandWithoutProjectError, w))
  /\ Forall (fun source =>
               JsString.includes (emessage shorthandWithoutProjectError) source = true)
            ["--vault-projectId"; "VAULT_PROJECTID"; "keyFilename"; "credentials";
             "gcloud config"]
  /\ (forall (config : GCPVaultConfig) (c : Client),
      let path :=
        if truthy (keyFilename config) then keyFilename config
        else if truthy (GOOGLE_APPLICATION_CREDENTIALS host)
             then GOOGLE_APPLICATION_CREDENTIALS host
             else None in
      let inline :=
        match path with
        | Some _ => None
        | None => credentials config
        end in
      truthy (projectId config) = false ->
      (forall file, path = Some file ->
         exists pid, keyFile_project_id host file = OK pid /\ truthy pid = false) ->
      (forall creds, inline = Some creds -> project_id creds = EmptyString) ->
      (forall project, gcloud_project host = OK project ->
         project = EmptyString \/ project = "(unset)") ->
      newClient host (mkClientConfig None path inline) = OK c ->
      initialize host config new = (OK tt, mkPlugin (Some c) (Some config) None))
  /\ (forall (w : World State) (c : Client) (secretId data : string),
      client (this (vault w)) = Some c ->
      truthy (resolvedProjectId (this (vault w))) = false ->
      JsString.startsWith secretId "projects/" = true ->
      let name :=
        if JsString.includes secretId "/versions/" then secretId
        else secretId ++ "/versions/latest" in
      accessSecretVersion host c name = OK (Some data) ->
      getSecret host secretId w =
        (OK data,
         mkWorld (mkState (mkPlugin (Some c) (config (this (vault w)))
                                    (Some (nth 1 (JsString.split secretId "/") EmptyString)))
                          (requests (vault w) ++ [name])%list)
                 (console w)))
  /\ (forall (w : World State) (c : Client) (secretId shorthand : string),
      client (this (vault w)) = Some c ->
      truthy (resolvedProjectId (this (vault w))) = false ->
      JsString.startsWith secretId "projects/" = true ->
      nth 1 (JsString.split secretId "/") EmptyString <> EmptyString ->
      JsString.lacks "/" shorthand = true ->
      let w1 := snd (getSecret host secretId w) in
      requests (vault (snd (getSecret host shorthand w1))) =
        (requests (vault w1) ++
         [("projects/" ++ nth 1 (JsString.split secretId "/") EmptyString ++
           "/secrets/" ++ shorthand ++ "/versions/latest")%string])%list).
Proof.
  split; [|split; [|split; [|split]]].
  - intros w c secretId Hc Hr Hshort.
    destruct w as [[[cl cfg resolved] reqs] cons]; simpl in *.
    unfold getSecret, normalizeSecretId; simpl.
    now rewrite Hc, Hshort, Hr.
  - repeat constructor.
  - intros config c path inline Hexplicit Hfile Hcreds Hgcloud Hnew.
    assert (Hkey : forall file cc,
               path = Some file ->
               useKeyFile host config file (mkPlugin None (Some config) None) cc =
                 OK (mkPlugin None (Some config) None,
                     mkClientConfig (client_projectId cc) (Some file)
                                    (client_credentials cc))).
    { intros file cc Hpath. unfold useKeyFile. rewrite Hexplicit. simpl negb. cbv iota.
      destruct (Hfile file Hpath) as (pid & -> & ->). reflexivity. }
    apply (initialize_without_project host config (mkClientConfig None path inline) c);
      try assumption; try reflexivity.
    unfold credentialSource. subst inline path.
    destruct (truthy (keyFilename config)) eqn:Hk.
    { destruct (truthy_inv _ Hk) as (file & Hfilename & _).
      rewrite Hfilename in *. now rewrite (Hkey file _ eq_refl). }
    destruct (truthy (GOOGLE_APPLICATION_CREDENTIALS host)) eqn:Hv.
    { destruct (truthy_inv _ Hv) as (file & Hvariable & _).
      rewrite Hvariable in *. now rewrite (Hkey file _ eq_refl). }
    destruct (credentials config) as [creds|]; [|reflexivity].
    cbn [client_projectId client_keyFilename client_credentials].
    now rewrite (Hcreds creds eq_refl).
  - intros w c secretId data Hc Hr Hfull name Ha.
    assert (Hn : normalizeSecretId secretId (resolvedProjectId (this (vault w))) =
                 (OK name, Some (nth 1 (JsString.split secretId "/") EmptyString))).
    { pose proof (normalizeSecretId_adopts secretId _ Hr) as Hsnd.
      rewrite Hfull in Hsnd. rewrite <- Hsnd.
      unfold normalizeSecretId, name. rewrite Hfull.
      now destruct (JsString.includes secretId "/versions/"). }
    unfold getSecret. rewrite Hc, Hn. unfold tryCatch, access. cbn [vault].
    cbn [this requests console]. now rewrite Ha.
  - intros w c secretId shorthand Hc Hr Hfull Hproject Hshort w1.
    pose proof (getSecret_state host secretId w c Hc) as Hfirst.
    pose proof (normalizeSecretId_adopts secretId _ Hr) as Hadopt.
    rewrite Hfull in Hadopt.
    destruct (normalizeSecretId secretId (resolvedProjectId (this (vault w))))
      as [normalized resolved]. simpl in Hadopt. subst resolved.
    destruct Hfirst as (Hresolved & Hclient & _). fold w1 in Hresolved, Hclient.
    pose proof (getSecret_state host shorthand w1 c Hclient) as Hsecond.
    rewrite Hresolved in Hsecond. unfold normalizeSecretId in Hsecond.
    rewrite (shorthand_without_slash shorthand Hshort),
            (truthy_Some _ Hproject) in Hsecond.
    simpl negb in Hsecond. cbv iota in Hsecond.
    rewrite (split_lacks shorthand "/" Hshort) in Hsecond.
    apply Hsecond.
Qed.

End GCPFacts.

(** The two examples of the specification, on an instance initialized on a
    machine whose gcloud tool names the project [p1]. *)
Lemma two_segment_tie_break_witness :
  GCP.requests (vault (snd (GCP.getSecret (Doubles.gcloudHost "p1") "p1/s1"
                                          (Doubles.initialized (Doubles.gcloudHost "p1")))))
    = ["projects/p1/secrets/s1/versions/latest"]
  /\ GCP.requests (vault (snd (GCP.getSecret (Doubles.gcloudHost "p1") "s1/v2"
                                          (Doubles.initialized (Doubles.gcloudHost "p1")))))
    = ["projects/p1/secrets/s1/versions/v2"].
Proof.
  assert (Hp : "p1" <> EmptyString) by discriminate.
  pose (c := GCP.mkClient (GCP.mkClientConfig (Some "p1") None None)).
  split.
  - exact (proj2 (proj2 (proj2
      (GCPFacts.two_segment_tie_break "p1" "s1" "p1" eq_refl eq_refl Hp eq_refl)))
      (Doubles.gcloudHost "p1") (Doubles.initialized (Doubles.gcloudHost "p1")) c
      eq_refl eq_refl).
  - exact (proj2 (proj2 (proj2
      (GCPFacts.two_segment_tie_break "s1" "v2" "p1" eq_refl eq_refl Hp eq_refl)))
      (Doubles.gcloudHost "p1") (Doubles.initialized (Doubles.gcloudHost "p1")) c
      eq_refl eq_refl).
Defined.

Lemma canonical_idempotent_witness :
  fst (GCP.normalizeSecretId "projects/p1/secrets/s1/versions/7" None)
    = OK "projects/p1/secrets/s1/versions/7"
  /\ fst (GCP.normalizeSecretId "projects/p1/secrets/s1" None)
    = OK "projects/p1/secrets/s1/versions/latest"
  /\ fst (GCP.normalizeSecretId "projects/p1/secrets/s1/versions/latest" (Some "p2"))
    = OK "projects/p1/secrets/s1/versions/latest".
Proof.
  split; [|split].
  - apply (GCPFacts.canonical_idempotent "projects/p1/secrets/s1/versions/7" None);
      reflexivity.
  - apply (GCPFacts.canonical_idempotent "projects/p1/secrets/s1" None); reflexivity.
  - apply (proj2 (GCPFacts.canonical_idempotent "projects/p1/secrets/s1" None eq_refl)
             eq_refl).
Defined.

(** C4, as the specification states it, fails. On a machine without any GCP
    configuration [initialize] succeeds and resolves no project id; a call
    of [getSecret] with a fully-qualified identifier then sets the resolved
    project id to [p1], and the shorthand [s2], which throws before that
    call, is resolved in project [p1] after it. *)
Lemma resolved_project_id_changes_after_initialization :
  fst (GCP.initialize Doubles.bareHost Doubles.noConfig GCP.new) = OK tt
  /\ GCP.resolvedProjectId (GCP.this (vault (Doubles.initialized Doubles.bareHost))) = None
  /\ GCP.resolvedProjectId
       (GCP.this (vault (snd (GCP.getSecret Doubles.bareHost
                                "projects/p1/secrets/s1/versions/1"
                                (Doubles.initialized Doubles.bareHost)))))
     = Some "p1"
  /\ fst (GCP.getSecret Doubles.bareHost "s2" (Doubles.initialized Doubles.bareHost))
     = Throw GCP.shorthandWithoutProjectError
  /\ fst (GCP.getSecret Doubles.bareHost "s2"
            (snd (GCP.getSecret Doubles.bareHost "projects/p1/secrets/s1/versions/1"
                                (Doubles.initialized Doubles.bareHost))))
     = OK "payload of projects/p1/secrets/s2/versions/latest".
Proof. repeat split. Qed.

(** A session on a machine whose gcloud tool names [p1]: identifiers of
    other projects do not change the resolved project id. And the first
    fully-qualified identifier sets it on a machine that names none. *)
Lemma resolved_project_id_fixed_once_set_witness :
  Forall (fun w' => GCP.resolvedProjectId (GCP.this (vault w')) = Some "p1")
         (gcpSession (Doubles.gcloudHost "p1")
                     ["projects/p2/secrets/s/versions/1"; "p2/s/3"; "s"; "a/b/c/d"]
                     (Doubles.initialized (Doubles.gcloudHost "p1")))
  /\ GCP.resolvedProjectId
       (GCP.this (vault (snd (GCP.getSecret Doubles.bareHost "projects/p1/secrets/s1"
                                            (Doubles.initialized Doubles.bareHost)))))
     = Some "p1".
Proof.
  split.
  - apply (proj1 (GCPFacts.resolved_project_id_fixed_once_set (Doubles.gcloudHost "p1")));
      [reflexivity | discriminate].
  - exact (proj2 (GCPFacts.resolved_project_id_fixed_once_set Doubles.bareHost)
             "projects/p1/secrets/s1" (Doubles.initialized Doubles.bareHost)
             (GCP.mkClient (GCP.mkClientConfig None None None)) eq_refl eq_refl).
Defined.

(** C5, as the specification states it, fails. On a machine without any
    GCP configuration no source gives a project id: there is no explicit
    [projectId], no [keyFilename], no inline credentials, no
    [GOOGLE_APPLICATION_CREDENTIALS], and gcloud fails. [initialize]
    resolves none. Yet after one call with a fully-qualified identifier
    of project [p1], the shorthand [s2] is not refused: it is requested
    from the client in project [p1] and its payload is returned. *)
Lemma shorthand_fetched_without_any_project_source :
  GCP.projectId Doubles.noConfig = None
  /\ GCP.keyFilename Doubles.noConfig = None
  /\ GCP.credentials Doubles.noConfig = None
  /\ GCP.GOOGLE_APPLICATION_CREDENTIALS Doubles.bareHost = None
  /\ GCP.gcloud_project Doubles.bareHost =
       Throw (Error "Command failed: gcloud config get-value project")
  /\ GCP.initialize Doubles.bareHost Doubles.noConfig GCP.new =
       (OK tt,
        GCP.mkPlugin (Some (GCP.mkClient (GCP.mkClientConfig None None None)))
                     (Some Doubles.noConfig) None)
  /\ JsString.startsWith "s2" "projects/" = false
  /\ GCP.getSecret Doubles.bareHost "s2"
        (snd (GCP.getSecret Doubles.bareHost "projects/p1/secrets/s1/versions/1"
                            (Doubles.initialized Doubles.bareHost))) =
       (OK "payload of projects/p1/secrets/s2/versions/latest",
        mkWorld (GCP.mkState
                   (GCP.mkPlugin (Some (GCP.mkClient (GCP.mkClientConfig None None None)))
                                 (Some Doubles.noConfig) (Some "p1"))
                   ["projects/p1/secrets/s1/versions/1";
                    "projects/p1/secrets/s2/versions/latest"])
                []).
Proof. repeat split. Qed.

(** On a machine without any GCP configuration: [initialize] succeeds and
    resolves no project id, a shorthand identifier is refused and the
    world is untouched, a fully-qualified one is fetched, and after it a
    shorthand is requested in its project. *)
Lemma shorthand_needs_project_id_witness :
  GCP.getSecret Doubles.bareHost "my-secret" (Doubles.initialized Doubles.bareHost)
    = (Throw GCP.shorthandWithoutProjectError, Doubles.initialized Doubles.bareHost)
  /\ GCP.initialize Doubles.bareHost Doubles.noConfig GCP.new =
       (OK tt,
        GCP.mkPlugin (Some (GCP.mkClient (GCP.mkClientConfig None None None)))
                     (Some Doubles.noConfig) None)
  /\ GCP.getSecret Doubles.bareHost "projects/p1/secrets/s1"
                   (Doubles.initialized Doubles.bareHost) =
       (OK "payload of projects/p1/secrets/s1/versions/latest",
        mkWorld (GCP.mkState
                   (GCP.mkPlugin (Some (GCP.mkClient (GCP.mkClientConfig None None None)))
                                 (Some Doubles.noConfig) (Some "p1"))
                   ["projects/p1/secrets/s1/versions/latest"])
                [])
  /\ GCP.requests
       (vault (snd (GCP.getSecret Doubles.bareHost "s2"
                      (snd (GCP.getSecret Doubles.bareHost "projects/p1/secrets/s1"
                                          (Doubles.initialized Doubles.bareHost)))))) =
       ["projects/p1/secrets/s1/versions/latest";
        "projects/p1/secrets/s2/versions/latest"].
Proof.
  pose (c := GCP.mkClient (GCP.mkClientConfig None None None)).
  assert (Hfile : forall file : string, @None string = Some file ->
            exists pid, GCP.keyFile_project_id Doubles.bareHost file = OK pid
                        /\ GCP.truthy pid = false) by (intros file H; discriminate H).
  assert (Hcreds : forall creds : GCP.Credentials, @None GCP.Credentials = Some creds ->
            GCP.project_id creds = EmptyString) by (intros creds H; discriminate H).
  assert (Hgcloud : forall project : string,
            GCP.gcloud_project Doubles.bareHost = OK project ->
            project = EmptyString \/ project = "(unset)")
    by (intros project H; discriminate H).
  assert (Hproject : "p1" <> EmptyString) by discriminate.
  split; [|split; [|split]].
  - exact (proj1 (GCPFacts.shorthand_needs_project_id Doubles.bareHost)
                 (Doubles.initialized Doubles.bareHost) c "my-secret"
                 eq_refl eq_refl eq_refl).
  - exact (proj1 (proj2 (proj2 (GCPFacts.shorthand_needs_project_id Doubles.bareHost)))
                 Doubles.noConfig c eq_refl Hfile Hcreds Hgcloud eq_refl).
  - exact (proj1 (proj2 (proj2 (proj2
                   (GCPFacts.shorthand_needs_project_id Doubles.bareHost))))
                 (Doubles.initialized Doubles.bareHost) c "projects/p1/secrets/s1"
                 "payload of projects/p1/secrets/s1/versions/latest"
                 eq_refl eq_refl eq_refl eq_refl).
  - exact (proj2 (proj2 (proj2 (proj2
                   (GCPFacts.shorthand_needs_project_id Doubles.bareHost))))
                 (Doubles.initialized Doubles.bareHost) c "projects/p1/secrets/s1" "s2"
                 eq_refl eq_refl eq_refl Hproject eq_refl).
Defined.

(* ===================================================================== *)
(** * The JSON path extractor                                             *)
(* ===================================================================== *)

Section ExtractorFacts.
Context {RT : JsRuntime}.
Import JsStringFacts.

#[local] Abbreviation Value := (JsValue JsNum).

(** Finds a pattern that lies in the constant tail of a message. *)
Ltac includes_tail := repeat first [reflexivity | apply includes_skip].

Lemma extractJsonPath_parsed (raw path : string) (root : Value) :
  validateJsonPath path = OK tt ->
  JSON_parse raw = OK root ->
  notPlainObject root = false ->
  extractJsonPath raw path =
    bindResult (traverse path (JsString.split path ".") root [])
               (convertFinal path).
Proof.
  intros Hv Hp Hroot. unfold extractJsonPath.
  rewrite Hv, Hp. simpl. now rewrite Hroot.
Qed.

(** The step of the traversal at a plain object that lacks the key. *)
Lemma traverse_key_not_found (jsonPath key : string) (keys segments : list string)
    (props : list (string * Value)) :
  getProperty (JsObject props) key = None ->
  traverse jsonPath (key :: keys) (JsObject props) segments =
    Throw (keyNotFoundError jsonPath
             (if (0 <? List.length segments)%nat
              then Some (JsString.join segments ".") else None)
             key (JsObject props)).
Proof.
  intros H. cbn [traverse].
  change (notPlainObject (JsObject props)) with false. cbv iota.
  now rewrite H.
Qed.

(** C6. When the runtime parses the document
    [{"db":{"host":"postgres","port":5432}}] to the object it denotes and
    prints its number as [5432], the path [db.host] gives the string
    [postgres], the path [db.port] gives the string [5432], and the path
    [db.missing] throws the error that names the key [missing] and lists the
    keys [host, port] of the object at [db]. In general, when the traversal
    reaches a plain object in which the key is not found, the error names
    the key and ends with the list of the object's keys, or with [(none)]
    when the object has no key. *)
Theorem extraction_round_trip (n : JsNum) :
  JSON_parse Documents.dbDocument =
    OK (JsObject [("db", JsObject [("host", JsString "postgres");
                                   ("port", JsNumber n)])]) ->
  Number_toString n = "5432" ->
  extractJsonPath Documents.dbDocument "db.host" = OK "postgres"
  /\ extractJsonPath Documents.dbDocument "db.port" = OK "5432"
  /\ extractJsonPath Documents.dbDocument "db.missing" =
       Throw (Error "Cannot extract JSON path 'db.missing' from secret: key 'missing' not found at path 'db'. Available keys: host, port")
  /\ forall (jsonPath key : string) (keys segments : list string)
            (props : list (string * Value)),
       getProperty (JsObject props) key = None ->
       exists context : string,
         traverse jsonPath (key :: keys) (JsObject props) segments =
           Throw (Error (context ++ "Available keys: " ++
                         match props with
                         | [] => "(none)"
                         | _ :: _ => JsString.join (map fst props) ", "
                         end))
         /\ JsString.includes context ("key '" ++ key ++ "' not found at ") = true.
Proof.
  intros Hparse Hn.
  assert (Hroot : forall props : list (string * Value),
             notPlainObject (JsObject props) = false) by reflexivity.
  repeat split.
  - now rewrite (extractJsonPath_parsed _ "db.host" _ eq_refl Hparse (Hroot _)).
  - rewrite (extractJsonPath_parsed _ "db.port" _ eq_refl Hparse (Hroot _)). simpl.
    now rewrite Hn.
  - now rewrite (extractJsonPath_parsed _ "db.missing" _ eq_refl Hparse (Hroot _)).
  - intros jsonPath key keys segments props Hkey.
    rewrite (traverse_key_not_found _ _ _ _ _ Hkey).
    unfold keyNotFoundError. simpl Object_keys. unfold JsObject.keys.
    exists ("Cannot extract JSON path '" ++ jsonPath ++ "' from secret: key '" ++ key ++
            "' not found at " ++
            pathDescription (if (0 <? List.length segments)%nat
                             then Some (JsString.join segments ".") else None) ++ ". ").
    split.
    + f_equal. f_equal. rewrite !append_assoc. do 6 f_equal.
      now destruct props.
    + apply includes_skip, includes_skip.
      set (description := pathDescription _).
      replace ("' from secret: key '" ++ key ++ "' not found at " ++ description ++ ". ")
        with ("' from secret: " ++ ("key '" ++ key ++ "' not found at ") ++
              description ++ ". ")
        by (rewrite !append_assoc; reflexivity).
      apply includes_middle.
Qed.

(** C7. The conversion of the value found at the end of the path: a string
    is returned as it is, a number and a boolean as [String] prints them,
    and [null], an array and an object throw an error that names the kind
    found. Hence every string that [extractJsonPath] returns is a string
    of the document or the print of one of its numbers or booleans. *)
Theorem terminal_conversion (raw path : string) :
  (forall root v : Value,
      validateJsonPath path = OK tt ->
      JSON_parse raw = OK root ->
      notPlainObject root = false ->
      traverse path (JsString.split path ".") root [] = OK v ->
      match v with
      | JsString s => extractJsonPath raw path = OK s
      | JsNumber n => extractJsonPath raw path = OK (Number_toString n)
      | JsBool b => extractJsonPath raw path = OK (if b then "true" else "false")
      | JsNull =>
          exists message, extractJsonPath raw path = Throw (Error message)
            /\ JsString.includes message "is null. Only non-null primitive values" = true
      | JsArray _ =>
          exists message, extractJsonPath raw path = Throw (Error message)
            /\ JsString.includes message "is an array. Only primitive values" = true
      | JsObject _ | JsFunction | JsObjectPrototype =>
          exists message, extractJsonPath raw path = Throw (Error message)
            /\ JsString.includes message "is an object. Only primitive values" = true
      end)
  /\ (forall s : string,
      extractJsonPath raw path = OK s ->
      exists root v : Value,
        JSON_parse raw = OK root
        /\ traverse path (JsString.split path ".") root [] = OK v
        /\ (v = JsString s
            \/ (exists n, v = JsNumber n /\ s = Number_toString n)
            \/ (exists b, v = JsBool b /\ s = Boolean_toString b))).
Proof.
  split.
  - intros root v Hv Hp Hroot Ht.
    rewrite (extractJsonPath_parsed _ _ _ Hv Hp Hroot), Ht.
    destruct v; simpl; try reflexivity; try (now destruct b);
      (eexists; split; [reflexivity|]; simpl; includes_tail).
  - intros s. unfold extractJsonPath, bindResult.
    destruct (validateJsonPath path); [|discriminate].
    destruct (JSON_parse raw) as [root|e];
      [|destruct (instanceof_SyntaxError e); discriminate].
    destruct (notPlainObject root); [discriminate|].
    destruct (traverse path _ root []) as [v|e] eqn:Ht; [|discriminate].
    intros H. exists root, v. split; [reflexivity|]. split; [exact Ht|].
    destruct v; simpl in H; try discriminate; injection H as <-.
    + right; right. now eexists.
    + right; left. now eexists.
    + now left.
Qed.

(** C8. When the path is well formed and [JSON.parse] throws a
    [SyntaxError], [extractJsonPath] throws an [Error], not the
    [SyntaxError], whose message says that the secret is not valid JSON and
    tells to remove the [#path] suffix. *)
Theorem not_json_diagnostic (raw path : string) (e : JsThrown) :
  validateJsonPath path = OK tt ->
  JSON_parse raw = Throw e ->
  instanceof_SyntaxError e = true ->
  let message :=
    "Cannot extract JSON path '" ++ path ++
    "' from secret: secret value is not valid JSON. " ++
    "If you did not intend to extract a JSON path, remove the '#" ++ path ++
    "' suffix from the secret ID." in
  extractJsonPath raw path = Throw (Error message)
  /\ instanceof_SyntaxError (Error message) = false
  /\ JsString.includes message "secret value is not valid JSON" = true
  /\ JsString.includes message ("remove the '#" ++ path ++ "' suffix") = true.
Proof.
  intros Hv Hp He message. repeat split.
  - unfold extractJsonPath. now rewrite Hv, Hp, He.
  - unfold message. apply includes_skip, includes_skip.
    apply (includes_weaken "' from secret: secret value is not valid JSON. "),
      (includes_skip "' from secret: "). reflexivity.
  - unfold message.
    apply includes_skip, includes_skip.
    replace ("' from secret: secret value is not valid JSON. " ++
             "If you did not intend to extract a JSON path, remove the '#" ++ path ++
             "' suffix from the secret ID.")
      with ("' from secret: secret value is not valid JSON. If you did not intend to extract a JSON path, " ++
            ("remove the '#" ++ path ++ "' suffix") ++ " from the secret ID.")
      by (rewrite !append_assoc; reflexivity).
    apply includes_middle.
Qed.

End ExtractorFacts.

(** The document of the specification, read by the reference runtime; and
    the same paths on a document whose [db] is empty. *)
Lemma extraction_round_trip_witness :
  extractJsonPath (RT := IntegerJson.runtime) Documents.dbDocument "db.host" = OK "postgres"
  /\ extractJsonPath (RT := IntegerJson.runtime) Documents.dbDocument "db.port" = OK "5432"
  /\ extractJsonPath (RT := IntegerJson.runtime) Documents.dbDocument "db.missing" =
       Throw (Error "Cannot extract JSON path 'db.missing' from secret: key 'missing' not found at path 'db'. Available keys: host, port")
  /\ extractJsonPath (RT := IntegerJson.runtime) Documents.emptyDbDocument "db.missing" =
       Throw (Error "Cannot extract JSON path 'db.missing' from secret: key 'missing' not found at path 'db'. Available keys: (none)").
Proof.
  destruct (@extraction_round_trip IntegerJson.runtime 5432%Z eq_refl eq_refl)
    as (Hhost & Hport & Hmissing & _).
  split; [exact Hhost|]. split; [exact Hport|]. split; [exact Hmissing|].
  reflexivity.
Defined.

(** A value of every kind, read by the reference runtime. *)
Lemma terminal_conversion_witness :
  extractJsonPath (RT := IntegerJson.runtime) Documents.kindsDocument "s" = OK "text"
  /\ extractJsonPath (RT := IntegerJson.runtime) Documents.kindsDocument "n" = OK "-7"
  /\ extractJsonPath (RT := IntegerJson.runtime) Documents.kindsDocument "b" = OK "true"
  /\ (exists message,
        extractJsonPath (RT := IntegerJson.runtime) Documents.kindsDocument "z"
          = Throw (Error message)
        /\ JsString.includes message "is null. Only non-null primitive values" = true)
  /\ (exists message,
        extractJsonPath (RT := IntegerJson.runtime) Documents.kindsDocument "a"
          = Throw (Error message)
        /\ JsString.includes message "is an array. Only primitive values" = true)
  /\ (exists message,
        extractJsonPath (RT := IntegerJson.runtime) Documents.kindsDocument "o"
          = Throw (Error message)
        /\ JsString.includes message "is an object. Only primitive values" = true).
Proof.
  split; [exact (proj1 (@terminal_conversion IntegerJson.runtime Documents.kindsDocument "s")
                   Documents.kindsRoot (JsString "text") eq_refl eq_refl eq_refl eq_refl)|].
  split; [exact (proj1 (@terminal_conversion IntegerJson.runtime Documents.kindsDocument "n")
                   Documents.kindsRoot (JsNumber (-7)%Z) eq_refl eq_refl eq_refl eq_refl)|].
  split; [exact (proj1 (@terminal_conversion IntegerJson.runtime Documents.kindsDocument "b")
                   Documents.kindsRoot (JsBool true) eq_refl eq_refl eq_refl eq_refl)|].
  split; [exact (proj1 (@terminal_conversion IntegerJson.runtime Documents.kindsDocument "z")
                   Documents.kindsRoot JsNull eq_refl eq_refl eq_refl eq_refl)|].
  split; [exact (proj1 (@terminal_conversion IntegerJson.runtime Documents.kindsDocument "a")
                   Documents.kindsRoot (JsArray [JsNumber 1%Z; JsNumber 2%Z])
                   eq_refl eq_refl eq_refl eq_refl)|].
  exact (proj1 (@terminal_conversion IntegerJson.runtime Documents.kindsDocument "o")
           Documents.kindsRoot (JsObject [("k", JsNumber 1%Z)])
           eq_refl eq_refl eq_refl eq_refl).
Defined.

(** A password that is not JSON, referred to as [secret#password]. *)
Lemma not_json_diagnostic_witness :
  extractJsonPath (RT := IntegerJson.runtime) "hunter2" "password" =
    Throw (Error "Cannot extract JSON path 'password' from secret: secret value is not valid JSON. If you did not intend to extract a JSON path, remove the '#password' suffix from the secret ID.").
Proof.
  exact (proj1 (@not_json_diagnostic IntegerJson.runtime "hunter2" "password"
                  IntegerJson.syntaxError eq_refl eq_refl eq_refl)).
Defined.

(* ===================================================================== *)
(** * The command line                                                    *)
(* ===================================================================== *)

Module CliFacts.
Import JsStringFacts.

Lemma parseEnvVarArgs_app (pre post : list string) (envVars : Record) :
  parseEnvVarArgs (pre ++ post)%list envVars =
    bindResult (parseEnvVarArgs pre envVars) (parseEnvVarArgs post).
Proof.
  revert envVars; induction pre as [|arg pre IH]; intros envVars; simpl.
  - reflexivity.
  - destruct (negb (JsString.includes arg "=")); [reflexivity | apply IH].
Qed.

Lemma indexOf_from_delimiter (envVarArgs command : list string) (i : Z) :
  ~ In "--" envVarArgs ->
  JsArray.indexOf_from (envVarArgs ++ "--" :: command)%list "--" i =
    (i + Z.of_nat (List.length envVarArgs))%Z.
Proof.
  revert i; induction envVarArgs as [|arg rest IH]; intros i Hnot; simpl.
  - lia.
  - destruct (arg =? "--") eqn:Harg.
    + exfalso. apply Hnot. left. now apply String.eqb_eq.
    + rewrite IH by (intros Hin; apply Hnot; now right). lia.
Qed.

(** An argument [key=value=rest] is split into [key], [value] and the
    pieces of [rest]; the limit keeps the first two. *)
Lemma split_limit_second_piece (key value rest : string) :
  JsString.lacks "=" key = true ->
  JsString.lacks "=" value = true ->
  JsString.split_limit (key ++ "=" ++ value ++ "=" ++ rest) "=" 2 = [key; value].
Proof.
  intros Hk Hv. unfold JsString.split_limit.
  change (key ++ "=" ++ value ++ "=" ++ rest)
    with (key ++ String "=" (value ++ String "=" rest)).
  now rewrite !split_append by assumption.
Qed.

Lemma getOwn_replace {V} (o : JsObject.t V) (k : string) (v : V) :
  JsObject.hasOwn o k = true ->
  JsObject.getOwn (JsObject.replace o k v) k = Some v.
Proof.
  induction o as [|[k' v'] o IH]; simpl; [discriminate|].
  destruct (k' =? k) eqn:Hk; simpl; rewrite Hk; [reflexivity | exact IH].
Qed.

Lemma getOwn_insertIndex {V} (o : JsObject.t V) (k : string) (v : V) :
  JsObject.hasOwn o k = false ->
  JsObject.getOwn (JsObject.insertIndex o k v) k = Some v.
Proof.
  induction o as [|[k' v'] o IH]; simpl.
  - now rewrite String.eqb_refl.
  - intros H. apply orb_false_iff in H as [Hk Ho].
    destruct (JsObject.isArrayIndex k' && _); simpl.
    + rewrite Hk. now apply IH.
    + now rewrite String.eqb_refl.
Qed.

Lemma getOwn_append {V} (o : JsObject.t V) (k : string) (v : V) :
  JsObject.hasOwn o k = false ->
  JsObject.getOwn (o ++ [(k, v)])%list k = Some v.
Proof.
  induction o as [|[k' v'] o IH]; simpl.
  - now rewrite String.eqb_refl.
  - intros H. apply orb_false_iff in H as [Hk Ho]. rewrite Hk. now apply IH.
Qed.

(** After [o[k] = v], the own property [k] of [o] is [v], for every key
    but [__proto__]. *)
Lemma getOwn_set {V} (o : JsObject.t V) (k : string) (v : V) :
  k <> "__proto__" ->
  JsObject.getOwn (JsObject.set o k v) k = Some v.
Proof.
  intros Hk. unfold JsObject.set, JsObject.define.
  apply String.eqb_neq in Hk. rewrite Hk.
  destruct (JsObject.hasOwn o k) eqn:Hown; [now apply getOwn_replace|].
  destruct (JsObject.isArrayIndex k);
    [now apply getOwn_insertIndex | now apply getOwn_append].
Qed.

(** C10. An argument [key=value=rest] before the [--] is split at every
    [=] and only the first two pieces are read: [parseCliArgs] assigns
    [value], the text between the first and the second [=], to [key], and
    [=rest] is dropped. The mapping returned is the one built from the
    arguments before it, with this assignment and then those of the
    arguments after it; after the assignment the mapping holds [value] at
    [key] (the key [__proto__], which an assignment does not create,
    apart). So [K=a=b=c] maps [K] to [a]. *)
Theorem value_truncated_at_second_equals
    (pre post command : list string) (key value rest : string) :
  JsString.lacks "=" key = true ->
  JsString.lacks "=" value = true ->
  ~ In "--" pre ->
  ~ In "--" post ->
  JsString.split_limit (key ++ "=" ++ value ++ "=" ++ rest) "=" 2 = [key; value]
  /\ parseCliArgs
       (pre ++ (key ++ "=" ++ value ++ "=" ++ rest)%string :: post ++ "--" :: command)%list
     = (envVars <- parseEnvVarArgs pre [] ;;
        envVars' <- parseEnvVarArgs post (JsObject.set envVars key value) ;;
        OK (envVars', command))%result
  /\ (key <> "__proto__" ->
      forall envVars : Record,
        JsObject.getOwn (JsObject.set envVars key value) key = Some value)
  /\ parseCliArgs ("K=a=b=c" :: "--" :: command) = OK ([("K", "a")], command).
Proof.
  intros Hk Hv Hpre Hpost.
  pose proof (split_limit_second_piece key value rest Hk Hv) as Hsplit.
  set (arg := key ++ "=" ++ value ++ "=" ++ rest) in *.
  assert (Hinc : JsString.includes arg "=" = true)
    by apply (includes_char key (value ++ "=" ++ rest) "=").
  assert (Harg : arg <> "--").
  { intros Heq. rewrite Heq in Hinc. discriminate. }
  split; [exact Hsplit|]. split; [|split; [intros Hproto envVars; now apply getOwn_set|]].
  - unfold parseCliArgs.
    replace (pre ++ arg :: post ++ "--" :: command)%list
      with ((pre ++ arg :: post) ++ "--" :: command)%list
      by (now rewrite <- app_assoc).
    unfold JsArray.indexOf.
    rewrite indexOf_from_delimiter
      by (intros Hin; apply in_app_or in Hin as [Hin|[Hin|Hin]];
          [now apply Hpre | now apply Harg | now apply Hpost]).
    set (envVarArgs := (pre ++ arg :: post)%list).
    assert (Hne : negb (0 + Z.of_nat (List.length envVarArgs) =? -1)%Z = true)
      by (apply negb_true_iff, Z.eqb_neq; lia).
    rewrite Hne. unfold JsArray.slice, JsArray.slice_from.
    replace (Z.to_nat (0 + Z.of_nat (List.length envVarArgs)) - Z.to_nat 0)%nat
      with (List.length envVarArgs) by lia.
    replace (Z.to_nat (0 + Z.of_nat (List.length envVarArgs) + 1))
      with (List.length envVarArgs + 1)%nat by lia.
    change (skipn (Z.to_nat 0) (envVarArgs ++ "--" :: command)%list)
      with (envVarArgs ++ "--" :: command)%list.
    rewrite firstn_app, firstn_all, Nat.sub_diag, app_nil_r.
    rewrite skipn_app, skipn_all2 by lia.
    replace (List.length envVarArgs + 1 - List.length envVarArgs)%nat with 1%nat by lia.
    simpl skipn. simpl app.
    unfold envVarArgs. rewrite parseEnvVarArgs_app.
    destruct (parseEnvVarArgs pre []) as [envVars|e]; simpl; [|reflexivity].
    rewrite Hinc. simpl negb. cbv iota. fold arg. rewrite Hsplit. simpl nth.
    now destruct (parseEnvVarArgs post _).
  - reflexivity.
Qed.

End CliFacts.

(** The example of the claim between two other arguments. *)
Lemma value_truncated_at_second_equals_witness :
  parseCliArgs ["REGION=eu"; "K=a=b=c"; "TOKEN=t"; "--"; "node"; "server.js"]
    = OK ([("REGION", "eu"); ("K", "a"); ("TOKEN", "t")], ["node"; "server.js"]).
Proof.
  assert (Hpre : ~ In "--" ["REGION=eu"]) by (intros [H|[]]; discriminate).
  assert (Hpost : ~ In "--" ["TOKEN=t"]) by (intros [H|[]]; discriminate).
  exact (proj1 (proj2 (CliFacts.value_truncated_at_second_equals
                         ["REGION=eu"] ["TOKEN=t"] ["node"; "server.js"]
                         "K" "a" "b=c" eq_refl eq_refl Hpre Hpost))).
Defined.

(* ===================================================================== *)
(** * The resolution pipeline                                             *)
(* ===================================================================== *)

Section PipelineFacts.
Context {RT : JsRuntime}.

(** One turn of the loop. *)
Lemma getSecretsLoop_cons {V} (plugin : VaultPlugin V) (key secretIdWithPath : string)
    (entries : list (string * string)) (result : Record) (w : World V) :
  getSecretsLoop plugin ((key, secretIdWithPath) :: entries) result w =
    match resolveSecret plugin key secretIdWithPath w with
    | (OK value, w') => getSecretsLoop plugin entries (JsObject.set result key value) w'
    | (Throw error, w') =>
        (Throw error, mkWorld (vault w') (console w' ++ [failureLine key error])%list)
    end.
Proof.
  simpl. unfold bind, tryCatch.
  now destruct (resolveSecret plugin key secretIdWithPath w) as [[value|error] w'].
Qed.

Lemma getSecretsLoop_fail_fast {V} (plugin : VaultPlugin V)
    (pre rest : list (string * string)) (key secretIdWithPath : string)
    (result0 result1 : Record) (w w1 w2 : World V) (error : JsThrown) :
  getSecretsLoop plugin pre result0 w = (OK result1, w1) ->
  resolveSecret plugin key secretIdWithPath w1 = (Throw error, w2) ->
  getSecretsLoop plugin (pre ++ (key, secretIdWithPath) :: rest)%list result0 w =
    (Throw error, mkWorld (vault w2) (console w2 ++ [failureLine key error])%list).
Proof.
  revert result0 w; induction pre as [|[k t] pre IH]; intros result0 w Hpre Hbad.
  - simpl in Hpre. injection Hpre as <- <-.
    simpl app. now rewrite getSecretsLoop_cons, Hbad.
  - simpl app. rewrite getSecretsLoop_cons in *.
    destruct (resolveSecret plugin k t w) as [[value|e] w']; [|discriminate].
    now apply IH.
Qed.

(** What one entry asks of a recording vault: its identifier, or nothing
    when the reference is refused before the vault is reached. *)
Lemma resolveSecret_spy (answer : string -> Result string) (key secretIdWithPath : string)
    (w : World (list string)) :
  let '(r, w') := resolveSecret (Doubles.spy answer) key secretIdWithPath w in
  vault w' = (vault w ++ [fst (splitSecretId secretIdWithPath)])%list
  \/ (vault w' = vault w /\ exists error, r = Throw error).
Proof.
  unfold resolveSecret.
  destruct (splitSecretId secretIdWithPath) as [actualSecretId [[|c path]|]]; simpl fst.
  - right. split; [reflexivity | now eexists].
  - unfold bind, Doubles.spy. destruct (answer actualSecretId) as [secretValue|e].
    + simpl. unfold liftResult. now left.
    + now left.
  - unfold bind, Doubles.spy. destruct (answer actualSecretId) as [secretValue|e]; now left.
Qed.

(** The secrets requested from a recording vault are those of the first
    [n] entries, in the order of the entries. *)
Lemma getSecretsLoop_spy (answer : string -> Result string)
    (entries : list (string * string)) (result : Record) (w : World (list string)) :
  exists n : nat,
    vault (snd (getSecretsLoop (Doubles.spy answer) entries result w)) =
      (vault w ++ map (fun entry => fst (splitSecretId (snd entry))) (firstn n entries))%list
    /\ (forall final, fst (getSecretsLoop (Doubles.spy answer) entries result w) = OK final ->
        n = List.length entries).
Proof.
  revert result w; induction entries as [|[key token] entries IH]; intros result w.
  - exists 0%nat. simpl. now rewrite app_nil_r.
  - rewrite getSecretsLoop_cons.
    pose proof (resolveSecret_spy answer key token w) as Hstep.
    destruct (resolveSecret (Doubles.spy answer) key token w) as [[value|error] w'].
    + destruct Hstep as [Hstep|[_ [error Habs]]]; [|discriminate].
      destruct (IH (JsObject.set result key value) w') as (n & Hn & Hall).
      exists (S n). split.
      * rewrite Hn, Hstep. simpl. now rewrite <- app_assoc.
      * intros final Hfinal. simpl. f_equal. now apply (Hall final).
    + destruct Hstep as [Hstep|[Hstep _]].
      * exists 1%nat. simpl. split; [now rewrite Hstep | discriminate].
      * exists 0%nat. simpl. split; [now rewrite Hstep, app_nil_r | discriminate].
Qed.

(** C9, as the code has it. The pipeline visits the entries of the mapping
    in the order of [Object.entries] and stops at the first entry that
    fails: when the entries before it are resolved and it throws, the
    pipeline throws the same error, whatever entries follow, and the world
    is the one that entry left, with one more line on the console; no
    mapping is returned. On a vault that records its requests, the secrets
    requested are those of the first entries in the order of the entries,
    all of them when a mapping is returned. The order of [Object.entries]
    is the order of insertion for names that are not array indices: such a
    name, when new, goes to the end. *)
Theorem pipeline_fail_fast :
  (forall (V : Type) (plugin : VaultPlugin V) (pre rest : list (string * string))
          (key secretIdWithPath : string) (result1 : Record) (w w1 w2 : World V)
          (error : JsThrown),
      getSecretsLoop plugin pre [] w = (OK result1, w1) ->
      resolveSecret plugin key secretIdWithPath w1 = (Throw error, w2) ->
      forall envVars : Record,
        JsObject.entries envVars = (pre ++ (key, secretIdWithPath) :: rest)%list ->
        getSecrets envVars plugin w =
          (Throw error, mkWorld (vault w2) (console w2 ++ [failureLine key error])%list))
  /\ (forall (answer : string -> Result string) (envVars : Record)
             (w : World (list string)),
      exists n : nat,
        vault (snd (getSecrets envVars (Doubles.spy answer) w)) =
          (vault w ++ map (fun entry => fst (splitSecretId (snd entry)))
                          (firstn n (JsObject.entries envVars)))%list
        /\ (forall final, fst (getSecrets envVars (Doubles.spy answer) w) = OK final ->
            n = List.length (JsObject.entries envVars)))
  /\ (forall (envVars : Record) (key value : string),
      JsObject.isArrayIndex key = false ->
      key <> "__proto__" ->
      JsObject.hasOwn envVars key = false ->
      JsObject.entries (JsObject.set envVars key value) =
        (JsObject.entries envVars ++ [(key, value)])%list).
Proof.
  split; [|split].
  - intros V plugin pre rest key secretIdWithPath result1 w w1 w2 error Hpre Hbad
           envVars Hentries.
    unfold getSecrets. rewrite Hentries.
    eapply getSecretsLoop_fail_fast; eassumption.
  - intros answer envVars w. apply getSecretsLoop_spy.
  - intros envVars key value Hindex Hproto Hown.
    unfold JsObject.entries, JsObject.set, JsObject.define.
    apply String.eqb_neq in Hproto. now rewrite Hproto, Hown, Hindex.
Qed.

End PipelineFacts.

(** C9, as the specification states it, fails for names that are array
    indices. The arguments [2=bad#] and [1=good] insert [2] before [1],
    but [Object.entries] enumerates [1] first: the secret [good] of the
    later argument is fetched, and only then the reference of the earlier
    one is refused. *)
Lemma later_argument_fetched_before_earlier_fails :
  parseCliArgs ["2=bad#"; "1=good"; "--"; "server"] =
    OK (JsObject.set (JsObject.set [] "2" "bad#") "1" "good", ["server"])
  /\ JsObject.entries (JsObject.set (JsObject.set [] "2" "bad#") "1" "good") =
       [("1", "good"); ("2", "bad#")]
  /\ getSecrets (RT := IntegerJson.runtime)
                (JsObject.set (JsObject.set [] "2" "bad#") "1" "good")
                (Doubles.spy Doubles.echo) (Doubles.start []) =
       (Throw (emptyJsonPathError "2" "bad#"),
        mkWorld ["good"] [failureLine (RT := IntegerJson.runtime) "2"
                                      (emptyJsonPathError "2" "bad#")]).
Proof. repeat split. Qed.

(** Three variables on a vault that lacks the second secret: the first two
    secrets are requested, the third never is, and the error of the second
    is thrown. *)
Lemma pipeline_fail_fast_witness :
  getSecrets (RT := IntegerJson.runtime)
             [("A", "a-secret"); ("B", "absent#user.name"); ("C", "c-secret")]
             (Doubles.spy (Doubles.except "absent")) (Doubles.start []) =
    (Throw (Error "Secret not found: absent"),
     mkWorld ["a-secret"; "absent"]
             [failureLine (RT := IntegerJson.runtime) "B"
                          (Error "Secret not found: absent")]).
Proof.
  exact (proj1 (@pipeline_fail_fast IntegerJson.runtime) (list string)
               (Doubles.spy (Doubles.except "absent"))
               [("A", "a-secret")] [("C", "c-secret")] "B" "absent#user.name"
               [("A", "a-secret")]
               (Doubles.start []) (mkWorld ["a-secret"] [])
               (mkWorld ["a-secret"; "absent"] [])
               (Error "Secret not found: absent") eq_refl eq_refl
               [("A", "a-secret"); ("B", "absent#user.name"); ("C", "c-secret")]
               eq_refl).
Defined.

(* ===================================================================== *)
(** * The examples of the documentation, run on the model                 *)
(* ===================================================================== *)

Module Checks.
Import IntegerJson.

(** README, "JSON Path Extraction". *)
Example readme_username :
  extractJsonPath Documents.readmeDocument "db.credentials.username" = OK "demo_user".
Proof. reflexivity. Qed.

Example readme_port :
  extractJsonPath Documents.readmeDocument "db.port" = OK "5432".
Proof. reflexivity. Qed.

(** README, "What happens if your secret ID contains [#]": without a path
    the identifier [my#secret] is cut into [my] and the path [secret]. *)
Example readme_hash_in_identifier :
  splitSecretId "my#secret" = ("my", Some "secret")
  /\ splitSecretId "my#secret#db.password" = ("my#secret", Some "db.password").
Proof. split; reflexivity. Qed.

(** The GCP guide, "Shorthand Format", with the project [my-project]. *)
Example gcp_shorthand_formats :
  map (fun secretId => fst (GCP.normalizeSecretId secretId (Some "my-project")))
      ["my-project/my-api-key"; "other/my-api-key/3"; "my-api-key";
       "projects/other/secrets/my-api-key"]
  = [OK "projects/my-project/secrets/my-api-key/versions/latest";
     OK "projects/other/secrets/my-api-key/versions/3";
     OK "projects/my-project/secrets/my-api-key/versions/latest";
     OK "projects/other/secrets/my-api-key/versions/latest"].
Proof. reflexivity. Qed.

Example gcp_too_many_segments :
  fst (GCP.normalizeSecretId "a/b/c/d" (Some "my-project")) =
    Throw (GCP.invalidFormatError "a/b/c/d").
Proof. reflexivity. Qed.

(** The shapes that [validateJsonPath] refuses. *)
Example refused_paths :
  map validateJsonPath [EmptyString; ".a"; "a."; "a..b"; "a.b"] =
    [Throw (Error "JSON path cannot be empty");
     Throw (Error "JSON path '.a' cannot start or end with a dot. Use format like 'key.subkey'");
     Throw (Error "JSON path 'a.' cannot start or end with a dot. Use format like 'key.subkey'");
     Throw (Error "JSON path 'a..b' contains empty segments. Use format like 'key.subkey' without consecutive dots");
     OK tt].
Proof. reflexivity. Qed.

(** A root that is not an object, and a step through a value that is not
    one. *)
Example root_is_an_array :
  extractJsonPath (json "[1,2]") "a" =
    Throw (Error "Cannot extract JSON path 'a' from secret: secret value is a JSON array, not a JSON object. JSON path extraction requires a JSON object with key-value pairs.").
Proof. reflexivity. Qed.

Example step_through_a_string :
  extractJsonPath Documents.dbDocument "db.host.name" =
    Throw (Error "Cannot extract JSON path 'db.host.name' from secret: value at path 'db.host' is a string, not a plain object. Cannot access property 'name' on a string. JSON path extraction requires plain objects with key-value pairs.").
Proof. reflexivity. Qed.

(** The operator [in] also finds what an object inherits: the path
    [db.toString] ends at a function, which the conversion reports as an
    object. *)
Example inherited_property :
  extractJsonPath Documents.emptyDbDocument "db.toString" =
    Throw (Error "Cannot extract JSON path 'db.toString' from secret: value at path 'db.toString' is an object. Only primitive values (string, number, boolean) can be extracted, not objects or arrays.").
Proof. reflexivity. Qed.

(** Arguments after the first [--] are the command, also a second [--];
    without [--] every argument is the command. *)
Example command_after_delimiter :
  parseCliArgs ["API_KEY=my-key"; "--"; "npx"; "--"; "server"] =
    OK ([("API_KEY", "my-key")], ["npx"; "--"; "server"])
  /\ parseCliArgs ["API_KEY=my-key"; "npx"] = OK ([], ["API_KEY=my-key"; "npx"])
  /\ parseCliArgs ["API_KEY"; "--"; "npx"] =
       Throw (Error "Invalid format: 'API_KEY'. Use key=value.").
Proof. repeat split. Qed.

(** Two variables on a vault that answers. *)
Example two_secrets_resolved :
  getSecrets [("DB_HOST", "my-db-config#db.host"); ("RAW", "my-db-config")]
             (Doubles.spy (fun _ => OK Documents.dbDocument)) (Doubles.start []) =
    (OK [("DB_HOST", "postgres"); ("RAW", Documents.dbDocument)],
     mkWorld ["my-db-config"; "my-db-config"] []).
Proof. reflexivity. Qed.

End Checks.

(* ===================================================================== *)
(** * More facts about JavaScript strings and arrays                      *)
(* ===================================================================== *)

Module JsStringMore.
Import JsString JsStringFacts.

(** Splitting at [c] a text cut at a [c] gives the pieces of both parts. *)
Lemma split_at_separator (p q : string) (c : ascii) :
  split (p ++ String c q) c = (split p c ++ split q c)%list.
Proof.
  induction p as [|x p IH]; simpl.
  - now rewrite Ascii.eqb_refl.
  - destruct (Ascii.eqb x c); [now rewrite IH|].
    rewrite IH. destruct (GCPFacts.split_cons p c) as (seg & segs & ->).
    reflexivity.
Qed.

Lemma endsWith_char_inv (p : string) (c : ascii) :
  endsWith p (String c EmptyString) = true -> exists q, p = q ++ String c EmptyString.
Proof.
  unfold endsWith. induction p as [|a p IH]; [discriminate|].
  destruct p as [|b p].
  - simpl. destruct (Ascii.eqb a c) eqn:Hac; [|discriminate].
    intros _. apply Ascii.eqb_eq in Hac as ->. now exists EmptyString.
  - intros H. apply andb_true_iff in H as [_ H].
    change (String.length (String c EmptyString)) with 1%nat in *.
    replace (String.length (String a (String b p)) - 1)%nat
      with (S (String.length (String b p) - 1)) in H by (simpl; lia).
    change (String.substring (S (String.length (String b p) - 1)) 1
                             (String a (String b p)))
      with (String.substring (String.length (String b p) - 1) 1 (String b p)) in H.
    destruct IH as [q Hq].
    + apply andb_true_iff. split; [reflexivity | exact H].
    + rewrite Hq. now exists (String a q).
Qed.

Lemma startsWith_char_inv (p : string) (c : ascii) :
  startsWith p (String c EmptyString) = true -> exists q, p = String c q.
Proof.
  intros H. destruct (GCPFacts.prefix_inv _ _ H) as [q ->]. now exists q.
Qed.

Lemma includes_suffix (a m : string) : includes (a ++ m) m = true.
Proof.
  apply includes_skip. rewrite <- (append_empty_r m) at 1. apply includes_prefix.
Qed.

(** A text without [/] does not start with [projects/]. *)
Lemma lacks_slash_shorthand (s : string) :
  lacks "/" s = true -> startsWith s "projects/" = false.
Proof.
  intros H. destruct (startsWith s "projects/") eqn:Hp; [|reflexivity].
  destruct (GCPFacts.prefix_inv _ _ Hp) as [t ->]. discriminate.
Qed.

Lemma indexOf_from_absent (xs : list string) (x : string) (i : Z) :
  ~ In x xs -> JsArray.indexOf_from xs x i = (-1)%Z.
Proof.
  revert i; induction xs as [|y xs IH]; intros i H; simpl; [reflexivity|].
  destruct (y =? x) eqn:Hy.
  - exfalso. apply H. left. now apply String.eqb_eq.
  - apply IH. intros Hin. apply H. now right.
Qed.

End JsStringMore.

(* ===================================================================== *)
(** * More on the JSON path extractor                                     *)
(* ===================================================================== *)

Section ExtractorMore.
Context {RT : JsRuntime}.
Import JsStringFacts JsStringMore.

#[local] Abbreviation Value := (JsValue JsNum).

Lemma filter_none {A} (f : A -> bool) (l : list A) :
  (0 <? List.length (filter f l))%nat = false <-> Forall (fun x => f x = false) l.
Proof.
  induction l as [|x l IH]; simpl; [now split|].
  destruct (f x) eqn:Hx; simpl.
  - split; [discriminate|]. intros H. inversion H; congruence.
  - rewrite IH. split; [now constructor|]. intros H. now inversion H.
Qed.

Lemma length_zero (s : string) : (JsString.length s =? 0)%Z = true <-> s = EmptyString.
Proof.
  unfold JsString.length. destruct s; simpl; split; try reflexivity; try discriminate.
Qed.

(** X1. [validateJsonPath] accepts a path exactly when none of the pieces
    between its dots is empty: the three tests of the function amount to
    this one. *)
Theorem valid_path_has_no_empty_segment (jsonPath : string) :
  validateJsonPath jsonPath = OK tt <->
  Forall (fun segment => segment <> EmptyString) (JsString.split jsonPath ".").
Proof.
  assert (Hall : Forall (fun segment => segment <> EmptyString) (JsString.split jsonPath ".")
                 <-> Forall (fun seg => (JsString.length seg =? 0)%Z = false)
                            (JsString.split jsonPath ".")).
  { rewrite !Forall_forall. split; intros H seg Hin; specialize (H seg Hin).
    - destruct (JsString.length seg =? 0)%Z eqn:Hz; [|reflexivity].
      now apply length_zero in Hz.
    - intros ->. discriminate. }
  rewrite Hall, <- filter_none. unfold validateJsonPath.
  destruct (JsString.length jsonPath =? 0)%Z eqn:Hlen.
  { apply length_zero in Hlen as ->. split; discriminate. }
  destruct (JsString.startsWith jsonPath ".") eqn:Hstart.
  { destruct (startsWith_char_inv _ _ Hstart) as [q ->]. split; discriminate. }
  destruct (JsString.endsWith jsonPath ".") eqn:Hend.
  { destruct (endsWith_char_inv _ _ Hend) as [q ->].
    rewrite split_at_separator. simpl orb. cbv iota. split; [discriminate|].
    rewrite filter_app, length_app. simpl. rewrite Nat.add_comm. discriminate. }
  simpl orb. cbv iota.
  destruct (0 <? _)%nat; split; congruence.
Qed.

Lemma traverse_app (jsonPath : string) (pre rest segments : list string) (value : Value) :
  traverse jsonPath (pre ++ rest)%list value segments =
    bindResult (traverse jsonPath pre value segments)
               (fun value' => traverse jsonPath rest value' (segments ++ pre)%list).
Proof.
  revert value segments; induction pre as [|key pre IH]; intros value segments.
  - simpl. now rewrite app_nil_r.
  - simpl. destruct (notPlainObject value); [reflexivity|].
    destruct (getProperty value key) as [value'|]; [|reflexivity].
    rewrite IH. now rewrite <- app_assoc.
Qed.

(** X2. The traversal composes: walking the path [p.q] from the root is
    walking [p] from the root and then [q] from the value found there,
    with the keys of [p] as the prefix named in the errors; an error
    under [p] is the error of the whole walk. *)
Theorem traverse_nested (jsonPath p q : string) (root : Value) :
  traverse jsonPath (JsString.split (p ++ "." ++ q) ".") root [] =
    bindResult (traverse jsonPath (JsString.split p ".") root [])
               (fun value =>
                  traverse jsonPath (JsString.split q ".") value (JsString.split p ".")).
Proof.
  change (p ++ "." ++ q) with (p ++ String "." q).
  rewrite split_at_separator. apply traverse_app.
Qed.

(** X3. The operator [in] also finds the properties that every object
    inherits. A path made of one name of a method of [Object.prototype],
    on a document that has no key of that name, is not reported as a
    missing key: the function found is refused by the final conversion as
    an object. *)
Theorem inherited_name_is_not_missing (raw key : string)
    (props : list (string * Value)) :
  JSON_parse raw = OK (JsObject props) ->
  isPrototypeName key = true ->
  key <> "__proto__" ->
  JsObject.getOwn props key = None ->
  extractJsonPath raw key =
    Throw (Error ("Cannot extract JSON path '" ++ key ++
                  "' from secret: value at path '" ++ key ++ "' is an object. " ++
                  "Only primitive values (string, number, boolean) can be extracted, not objects or arrays.")).
Proof.
  intros Hparse Hname Hproto Hown.
  unfold isPrototypeName, Object_prototype_names in Hname. simpl in Hname.
  repeat (apply orb_true_iff in Hname as [Hname|Hname]);
    try discriminate;
    apply String.eqb_eq in Hname; subst key;
    try (now exfalso; apply Hproto);
    match goal with
    | |- extractJsonPath raw ?k = _ =>
        rewrite (extractJsonPath_parsed raw k _ eq_refl Hparse eq_refl)
    end;
    simpl; rewrite Hown; reflexivity.
Qed.

(** X4. A secret whose JSON is not an object gives no value, whatever the
    path: [null], a boolean, a number, a string and an array at the root
    make [extractJsonPath] throw, and for a well-formed path the message
    says that the secret is not a JSON object. *)
Theorem root_must_be_an_object (raw jsonPath : string) (root : Value) :
  JSON_parse raw = OK root ->
  (forall props, root <> JsObject props) ->
  root <> JsObjectPrototype ->
  exists message : string,
    extractJsonPath raw jsonPath = Throw (Error message)
    /\ (validateJsonPath jsonPath = OK tt ->
        JsString.includes message ", not a JSON object. " = true).
Proof.
  intros Hparse Hobject Hprototype. unfold extractJsonPath.
  unfold validateJsonPath.
  destruct (JsString.length jsonPath =? 0)%Z;
    [eexists; split; [reflexivity | discriminate]|].
  destruct (JsString.startsWith jsonPath "." || JsString.endsWith jsonPath ".");
    [eexists; split; [reflexivity | discriminate]|].
  destruct (0 <? _)%nat; [eexists; split; [reflexivity | discriminate]|].
  unfold bindResult. rewrite Hparse.
  assert (Hroot : notPlainObject root = true).
  { destruct root; try reflexivity.
    - unfold notPlainObject. simpl. now rewrite orb_true_r.
    - unfold notPlainObject. simpl. now rewrite orb_true_r.
    - unfold notPlainObject. simpl. now rewrite orb_true_r.
    - now destruct (Hobject props).
    - now destruct Hprototype. }
  rewrite Hroot. eexists. split; [reflexivity|]. intros _.
  unfold rootNotObjectError, Error; simpl emessage.
  do 4 apply includes_skip. apply includes_prefix.
Qed.

End ExtractorMore.

(** The path [toString] on a document without such a key. *)
Lemma inherited_name_is_not_missing_witness :
  extractJsonPath (RT := IntegerJson.runtime) Documents.emptyDbDocument "toString" =
    Throw (Error "Cannot extract JSON path 'toString' from secret: value at path 'toString' is an object. Only primitive values (string, number, boolean) can be extracted, not objects or arrays.").
Proof.
  assert (Hproto : "toString" <> "__proto__") by discriminate.
  exact (@inherited_name_is_not_missing IntegerJson.runtime Documents.emptyDbDocument
           "toString" [("db", JsObject [])] eq_refl eq_refl Hproto eq_refl).
Defined.

(** A secret that is a JSON array. *)
Lemma root_must_be_an_object_witness :
  exists message : string,
    extractJsonPath (RT := IntegerJson.runtime) (IntegerJson.json "[1,2]") "user.name"
      = Throw (Error message)
    /\ (validateJsonPath "user.name" = OK tt ->
        JsString.includes message ", not a JSON object. " = true).
Proof.
  assert (Hobject : forall props : list (string * JsValue Z),
             JsArray [JsNumber 1%Z; JsNumber 2%Z] <> JsObject props)
    by (intros props; discriminate).
  assert (Hprototype : JsArray [JsNumber 1%Z; JsNumber 2%Z] <> @JsObjectPrototype Z)
    by discriminate.
  exact (@root_must_be_an_object IntegerJson.runtime (IntegerJson.json "[1,2]")
           "user.name" (JsArray [JsNumber 1%Z; JsNumber 2%Z]) eq_refl Hobject Hprototype).
Defined.

(* ===================================================================== *)
(** * More on the resolution of one reference                             *)
(* ===================================================================== *)

Section ResolveMore.
Context {RT : JsRuntime} {V : Type}.

(** X5. A reference without [#] is handed to the vault whole, and what
    the vault returns or throws is the outcome, unchanged: the secret is
    not parsed, also when it is JSON. *)
Theorem reference_without_path_is_verbatim (plugin : VaultPlugin V)
    (key token : string) (w : World V) :
  JsString.lacks "#" token = true ->
  resolveSecret plugin key token w = plugin token w.
Proof.
  intros H. unfold resolveSecret. rewrite (splitSecretId_plain token H).
  unfold bind, ret. now destruct (plugin token w) as [[secretValue|e] w'].
Qed.

(** X6. A reference [id#path] with a non-empty [path] free of [#] asks
    the vault for [id] and then extracts [path] from what it returns; the
    extractor does not touch the world, and an exception of the vault is
    the outcome. *)
Theorem reference_with_path_composes (plugin : VaultPlugin V)
    (key id path : string) (w : World V) :
  JsString.lacks "#" path = true ->
  path <> EmptyString ->
  resolveSecret plugin key (id ++ "#" ++ path) w =
    match plugin id w with
    | (OK secretValue, w') => (extractJsonPath secretValue path, w')
    | (Throw error, w') => (Throw error, w')
    end.
Proof.
  intros H Hne. unfold resolveSecret. rewrite (splitSecretId_hash id path H).
  destruct path as [|c path]; [now destruct Hne|].
  unfold bind, liftResult. simpl JsString.truthy. cbv iota.
  now destruct (plugin id w) as [[secretValue|e] w'].
Qed.

End ResolveMore.

(** The README's document, asked from a vault that returns it. *)
Lemma reference_without_path_is_verbatim_witness :
  resolveSecret (RT := IntegerJson.runtime) (Doubles.spy (fun _ => OK Documents.dbDocument))
                "RAW" "my-db-config" (Doubles.start []) =
    (OK Documents.dbDocument, mkWorld ["my-db-config"] []).
Proof.
  exact (@reference_without_path_is_verbatim IntegerJson.runtime (list string)
           (Doubles.spy (fun _ => OK Documents.dbDocument)) "RAW" "my-db-config"
           (Doubles.start []) eq_refl).
Defined.

Lemma reference_with_path_composes_witness :
  resolveSecret (RT := IntegerJson.runtime) (Doubles.spy (fun _ => OK Documents.dbDocument))
                "DB_HOST" "my-db-config#db.host" (Doubles.start []) =
    (OK "postgres", mkWorld ["my-db-config"] []).
Proof.
  assert (Hne : "db.host" <> EmptyString) by discriminate.
  exact (@reference_with_path_composes IntegerJson.runtime (list string)
           (Doubles.spy (fun _ => OK Documents.dbDocument)) "DB_HOST" "my-db-config"
           "db.host" (Doubles.start []) eq_refl Hne).
Defined.

(* ===================================================================== *)
(** * More on the command line                                            *)
(* ===================================================================== *)

Module CliMore.
Import JsStringFacts JsStringMore CliFacts.

(** Without a [--] among the arguments nothing is read as a secret:
    the mapping is empty and every argument, a [KEY=value] one too,
    belongs to the command. No argument is refused. *)
Theorem no_delimiter_no_secret (args : list string) :
  ~ In "--" args -> parseCliArgs args = OK ([], args).
Proof.
  intros H. unfold parseCliArgs, JsArray.indexOf.
  now rewrite indexOf_from_absent.
Qed.

Lemma parseCliArgs_delimiter (envVarArgs command : list string) :
  ~ In "--" envVarArgs ->
  parseCliArgs (envVarArgs ++ "--" :: command)%list =
    match parseEnvVarArgs envVarArgs [] with
    | OK envVars => OK (envVars, command)
    | Throw e => Throw e
    end.
Proof.
  intros Hnot. unfold parseCliArgs, JsArray.indexOf.
  rewrite indexOf_from_delimiter by assumption.
  assert (Hne : negb (0 + Z.of_nat (List.length envVarArgs) =? -1)%Z = true)
    by (apply negb_true_iff, Z.eqb_neq; lia).
  rewrite Hne. unfold JsArray.slice, JsArray.slice_from.
  replace (Z.to_nat (0 + Z.of_nat (List.length envVarArgs)) - Z.to_nat 0)%nat
    with (List.length envVarArgs) by lia.
  replace (Z.to_nat (0 + Z.of_nat (List.length envVarArgs) + 1))
    with (List.length envVarArgs + 1)%nat by lia.
  change (skipn (Z.to_nat 0) (envVarArgs ++ "--" :: command)%list)
    with (envVarArgs ++ "--" :: command)%list.
  rewrite firstn_app, firstn_all, Nat.sub_diag, app_nil_r.
  rewrite skipn_app, skipn_all2 by lia.
  replace (List.length envVarArgs + 1 - List.length envVarArgs)%nat with 1%nat by lia.
  reflexivity.
Qed.

Lemma parseEnvVarArgs_accepts (envVarArgs : list string) (envVars : Record) :
  Forall (fun arg => JsString.includes arg "=" = true) envVarArgs ->
  exists envVars', parseEnvVarArgs envVarArgs envVars = OK envVars'.
Proof.
  intros H; revert envVars; induction H as [|arg rest Harg _ IH]; intros envVars; simpl.
  - now exists envVars.
  - rewrite Harg. apply IH.
Qed.

(** X7. The first [--] is the delimiter. The arguments before it are the
    secret references, and the arguments after it are the command, as
    they are: a later [--] and a [KEY=value] there stay in the command.
    When every argument before the [--] holds a [=], the call succeeds. *)
Theorem command_follows_first_delimiter (envVarArgs command : list string) :
  ~ In "--" envVarArgs ->
  Forall (fun arg => JsString.includes arg "=" = true) envVarArgs ->
  exists envVars : Record,
    parseEnvVarArgs envVarArgs [] = OK envVars
    /\ parseCliArgs (envVarArgs ++ "--" :: command)%list = OK (envVars, command).
Proof.
  intros Hnot Hall.
  destruct (parseEnvVarArgs_accepts envVarArgs [] Hall) as [envVars Henv].
  exists envVars. split; [exact Henv|].
  now rewrite parseCliArgs_delimiter, Henv.
Qed.

(** X8. The first argument before the [--] that holds no [=] is refused
    by name, and nothing is returned, whatever the other arguments are. *)
Theorem first_argument_without_equals_is_refused
    (pre post command : list string) (bad : string) :
  ~ In "--" pre ->
  ~ In "--" post ->
  bad <> "--" ->
  Forall (fun arg => JsString.includes arg "=" = true) pre ->
  JsString.includes bad "=" = false ->
  parseCliArgs (pre ++ bad :: post ++ "--" :: command)%list =
    Throw (Error ("Invalid format: '" ++ bad ++ "'. Use key=value.")).
Proof.
  intros Hpre Hpost Hbad Hall Hno.
  replace (pre ++ bad :: post ++ "--" :: command)%list
    with ((pre ++ bad :: post) ++ "--" :: command)%list
    by (now rewrite <- app_assoc).
  rewrite parseCliArgs_delimiter
    by (intros Hin; apply in_app_or in Hin as [Hin|[Hin|Hin]];
        [now apply Hpre | now apply Hbad | now apply Hpost]).
  rewrite parseEnvVarArgs_app.
  destruct (parseEnvVarArgs_accepts pre [] Hall) as [envVars ->].
  simpl. now rewrite Hno.
Qed.

End CliMore.

Lemma command_follows_first_delimiter_witness :
  exists envVars : Record,
    parseEnvVarArgs ["API_KEY=my-key"] [] = OK envVars
    /\ parseCliArgs (["API_KEY=my-key"] ++ "--" :: ["npx"; "--"; "TOKEN=x"])%list =
         OK (envVars, ["npx"; "--"; "TOKEN=x"]).
Proof.
  assert (Hnot : ~ In "--" ["API_KEY=my-key"]) by (intros [H|[]]; discriminate).
  assert (Hall : Forall (fun arg => JsString.includes arg "=" = true) ["API_KEY=my-key"])
    by (repeat constructor).
  exact (CliMore.command_follows_first_delimiter ["API_KEY=my-key"]
           ["npx"; "--"; "TOKEN=x"] Hnot Hall).
Defined.

Lemma no_delimiter_no_secret_witness :
  parseCliArgs ["API_KEY=my-key"; "node"; "server.js"] =
    OK ([], ["API_KEY=my-key"; "node"; "server.js"]).
Proof.
  apply CliMore.no_delimiter_no_secret.
  intros [H|[H|[H|[]]]]; discriminate.
Defined.

Lemma first_argument_without_equals_is_refused_witness :
  parseCliArgs (["A=1"] ++ "API_KEY" :: ["oops"; "B=2"] ++ "--" :: ["node"])%list =
    Throw (Error "Invalid format: 'API_KEY'. Use key=value.").
Proof.
  assert (Hpre : ~ In "--" ["A=1"]) by (intros [H|[]]; discriminate).
  assert (Hpost : ~ In "--" ["oops"; "B=2"]) by (intros [H|[H|[]]]; discriminate).
  assert (Hbad : "API_KEY" <> "--") by discriminate.
  assert (Hall : Forall (fun arg => JsString.includes arg "=" = true) ["A=1"])
    by (repeat constructor).
  exact (CliMore.first_argument_without_equals_is_refused ["A=1"] ["oops"; "B=2"]
           ["node"] "API_KEY" Hpre Hpost Hbad Hall eq_refl).
Defined.

(* ===================================================================== *)
(** * Facts about objects used as maps                                    *)
(* ===================================================================== *)

Module JsObjectFacts.
Import JsObject.

Section Generic.
Context {V : Type}.

Lemma hasOwn_In (o : t V) (k : string) : hasOwn o k = true <-> In k (keys o).
Proof.
  unfold keys. induction o as [|[k' v'] o IH]; simpl; [split; [discriminate | tauto]|].
  rewrite orb_true_iff, IH, String.eqb_eq. tauto.
Qed.

Lemma hasOwn_false (o : t V) (k : string) : hasOwn o k = false <-> ~ In k (keys o).
Proof.
  rewrite <- hasOwn_In. destruct (hasOwn o k); split; congruence.
Qed.

Lemma getOwn_None (o : t V) (k : string) : getOwn o k = None <-> hasOwn o k = false.
Proof.
  induction o as [|[k' v'] o IH]; simpl; [tauto|].
  destruct (k' =? k); simpl; [split; discriminate | exact IH].
Qed.

Lemma keys_replace (o : t V) (k : string) (v : V) : keys (replace o k v) = keys o.
Proof.
  unfold keys. induction o as [|[k' v'] o IH]; simpl; [reflexivity|].
  destruct (k' =? k); simpl; [reflexivity | now rewrite IH].
Qed.

Lemma In_keys_insertIndex (o : t V) (k k' : string) (v : V) :
  In k' (keys (insertIndex o k v)) <-> k' = k \/ In k' (keys o).
Proof.
  unfold keys. induction o as [|[k0 v0] o IH]; simpl; [intuition congruence|].
  destruct (isArrayIndex k0 && _); simpl; [rewrite IH|]; intuition congruence.
Qed.

Lemma NoDup_keys_insertIndex (o : t V) (k : string) (v : V) :
  ~ In k (keys o) -> NoDup (keys o) -> NoDup (keys (insertIndex o k v)).
Proof.
  induction o as [|[k0 v0] o IH]; simpl; intros Hnot Hnd.
  - constructor; [tauto | constructor].
  - destruct (isArrayIndex k0 && _).
    + change (NoDup (k0 :: keys (insertIndex o k v))).
      inversion Hnd as [|? ? Hk0 Hrest]; subst. constructor.
      * rewrite In_keys_insertIndex. intros [->|Hin]; [apply Hnot; now left | tauto].
      * apply IH; [intros Hin; apply Hnot; now right | exact Hrest].
    + change (NoDup (k :: k0 :: keys o)). now constructor.
Qed.

Lemma In_keys_define (o : t V) (k k' : string) (v : V) :
  In k' (keys (define o k v)) <-> k' = k \/ In k' (keys o).
Proof.
  unfold define. destruct (hasOwn o k) eqn:Hown.
  - rewrite keys_replace. apply hasOwn_In in Hown. intuition congruence.
  - destruct (isArrayIndex k); [apply In_keys_insertIndex|].
    unfold keys. rewrite map_app, in_app_iff. simpl. intuition congruence.
Qed.

(** Creating or overwriting a property keeps the keys distinct. *)
Lemma NoDup_keys_define (o : t V) (k : string) (v : V) :
  NoDup (keys o) -> NoDup (keys (define o k v)).
Proof.
  intros Hnd. unfold define. destruct (hasOwn o k) eqn:Hown.
  - now rewrite keys_replace.
  - apply hasOwn_false in Hown. destruct (isArrayIndex k).
    + now apply NoDup_keys_insertIndex.
    + unfold keys in *. rewrite map_app. simpl.
      apply NoDup_app; [exact Hnd | constructor; [tauto | constructor] |].
      intros x Hx [<-|[]]. now apply Hown.
Qed.

Lemma getOwn_replace_other (o : t V) (k k' : string) (v : V) :
  k' <> k -> getOwn (replace o k v) k' = getOwn o k'.
Proof.
  intros Hne. induction o as [|[k0 v0] o IH]; simpl; [reflexivity|].
  destruct (k0 =? k) eqn:Hk0; simpl.
  - apply String.eqb_eq in Hk0 as ->.
    assert (Hkk : (k =? k') = false) by (apply String.eqb_neq; congruence).
    now rewrite Hkk.
  - now rewrite IH.
Qed.

Lemma getOwn_insertIndex_other (o : t V) (k k' : string) (v : V) :
  k' <> k -> getOwn (insertIndex o k v) k' = getOwn o k'.
Proof.
  intros Hne.
  assert (Hkk : (k =? k') = false) by (apply String.eqb_neq; congruence).
  induction o as [|[k0 v0] o IH]; simpl; [now rewrite Hkk|].
  destruct (isArrayIndex k0 && _); simpl; [now rewrite IH | now rewrite Hkk].
Qed.

Lemma getOwn_append_other (o : t V) (k k' : string) (v : V) :
  k' <> k -> getOwn (o ++ [(k, v)])%list k' = getOwn o k'.
Proof.
  intros Hne.
  assert (Hkk : (k =? k') = false) by (apply String.eqb_neq; congruence).
  induction o as [|[k0 v0] o IH]; simpl; [now rewrite Hkk | now rewrite IH].
Qed.

Lemma getOwn_define_other (o : t V) (k k' : string) (v : V) :
  k' <> k -> getOwn (define o k v) k' = getOwn o k'.
Proof.
  intros Hne. unfold define. destruct (hasOwn o k).
  - now apply getOwn_replace_other.
  - destruct (isArrayIndex k);
      [now apply getOwn_insertIndex_other | now apply getOwn_append_other].
Qed.

Lemma getOwn_define_same (o : t V) (k : string) (v : V) :
  getOwn (define o k v) k = Some v.
Proof.
  unfold define. destruct (hasOwn o k) eqn:Hown.
  - now apply CliFacts.getOwn_replace.
  - destruct (isArrayIndex k);
      [now apply CliFacts.getOwn_insertIndex | now apply CliFacts.getOwn_append].
Qed.

(** An assignment does not change the other properties. *)
Lemma getOwn_set_other (o : t V) (k k' : string) (v : V) :
  k' <> k -> getOwn (set o k v) k' = getOwn o k'.
Proof.
  intros Hne. unfold set. destruct (k =? "__proto__"); [reflexivity|].
  now apply getOwn_define_other.
Qed.

Lemma NoDup_keys_set (o : t V) (k : string) (v : V) :
  NoDup (keys o) -> NoDup (keys (set o k v)).
Proof.
  intros H. unfold set. destruct (k =? "__proto__"); [exact H|].
  now apply NoDup_keys_define.
Qed.

Lemma no_proto_set (o : t V) (k : string) (v : V) :
  ~ In "__proto__" (keys o) -> ~ In "__proto__" (keys (set o k v)).
Proof.
  intros H. unfold set. destruct (k =? "__proto__") eqn:Hk; [exact H|].
  rewrite In_keys_define. intros [Heq|Hin]; [|tauto].
  apply String.eqb_neq in Hk. congruence.
Qed.

End Generic.
End JsObjectFacts.

(* ===================================================================== *)
(** * The mapping built from the command line, and the child's environment *)
(* ===================================================================== *)

Module MappingFacts.
Import JsStringFacts JsStringMore CliFacts CliMore JsObjectFacts.

(** A string either lacks [c] or is cut in one way at its first [c]. *)
Lemma first_occurrence (s : string) (c : ascii) :
  JsString.lacks c s = true
  \/ exists a b, s = a ++ String c b /\ JsString.lacks c a = true.
Proof.
  induction s as [|x s IH]; [now left|]. simpl.
  destruct (Ascii.eqb x c) eqn:Hx.
  - right. apply Ascii.eqb_eq in Hx as ->. now exists EmptyString, s.
  - destruct IH as [IH|(a & b & -> & Ha)].
    + left. now rewrite IH.
    + right. exists (String x a), b. split; [reflexivity|]. simpl. now rewrite Hx, Ha.
Qed.

Lemma lacks_includes_char (s : string) (c : ascii) :
  JsString.lacks c s = true -> JsString.includes s (String c EmptyString) = false.
Proof.
  induction s as [|x s IH]; simpl; [reflexivity|].
  intros H. apply andb_true_iff in H as [Hx Hs]. apply negb_true_iff in Hx.
  rewrite (IH Hs), orb_false_r.
  destruct (ascii_dec c x) as [->|]; [|reflexivity].
  now rewrite Ascii.eqb_refl in Hx.
Qed.

(** The name that an argument with a [=] assigns is the text before its
    first [=]. *)
Lemma assigned_name (arg : string) :
  JsString.includes arg "=" = true ->
  exists name rest,
    arg = name ++ "=" ++ rest
    /\ nth 0 (JsString.split_limit arg "=" 2) EmptyString = name.
Proof.
  intros H. destruct (first_occurrence arg "=") as [Hl|(name & rest & -> & Hname)].
  - rewrite (lacks_includes_char _ _ Hl) in H. discriminate.
  - exists name, rest. split; [reflexivity|].
    unfold JsString.split_limit. rewrite split_append by assumption.
    destruct (GCPFacts.split_cons rest "=") as (seg & segs & ->). reflexivity.
Qed.

Lemma parseEnvVarArgs_other_names (post : list string) (name : string)
    (envVars envVars' : Record) :
  Forall (fun arg => JsString.startsWith arg (name ++ "=") = false) post ->
  parseEnvVarArgs post envVars = OK envVars' ->
  JsObject.getOwn envVars' name = JsObject.getOwn envVars name.
Proof.
  intros Hall; revert envVars; induction Hall as [|arg post Harg _ IH];
    intros envVars; simpl.
  - now intros [= <-].
  - destruct (JsString.includes arg "=") eqn:Hinc; [|discriminate]. simpl.
    intros H. rewrite (IH _ H). apply getOwn_set_other.
    destruct (assigned_name arg Hinc) as (name' & rest & Heq & ->).
    intros <-. rewrite Heq in Harg. unfold JsString.startsWith in Harg.
    change (name ++ "=" ++ rest) with (name ++ String "=" rest) in Harg.
    replace (name ++ String "=" rest) with ((name ++ "=") ++ rest) in Harg
      by (now rewrite append_assoc).
    now rewrite prefix_append in Harg.
Qed.

(** X9. When a name is given more than once before the [--], the last
    reference wins: after [name=value], and arguments that do not start
    with [name=], the mapping holds [value] at [name], whatever was given
    for [name] earlier. *)
Theorem last_reference_wins (pre post command command' : list string)
    (name value : string) (envVars : Record) :
  JsString.lacks "=" name = true ->
  JsString.lacks "=" value = true ->
  name <> "__proto__" ->
  ~ In "--" pre ->
  ~ In "--" post ->
  Forall (fun arg => JsString.startsWith arg (name ++ "=") = false) post ->
  parseCliArgs (pre ++ (name ++ "=" ++ value)%string :: post ++ "--" :: command)%list
    = OK (envVars, command') ->
  JsObject.getOwn envVars name = Some value /\ command' = command.
Proof.
  intros Hname Hvalue Hproto Hpre Hpost Hothers.
  set (arg := name ++ "=" ++ value).
  assert (Hinc : JsString.includes arg "=" = true) by apply (includes_char name value "=").
  assert (Harg : arg <> "--") by (intros Heq; rewrite Heq in Hinc; discriminate).
  assert (Hsplit : JsString.split_limit arg "=" 2 = [name; value]).
  { unfold JsString.split_limit, arg.
    change (name ++ "=" ++ value) with (name ++ String "=" value).
    now rewrite split_append, split_lacks by assumption. }
  replace (pre ++ arg :: post ++ "--" :: command)%list
    with ((pre ++ arg :: post) ++ "--" :: command)%list
    by (now rewrite <- app_assoc).
  rewrite parseCliArgs_delimiter
    by (intros Hin; apply in_app_or in Hin as [Hin|[Hin|Hin]];
        [now apply Hpre | now apply Harg | now apply Hpost]).
  rewrite parseEnvVarArgs_app.
  destruct (parseEnvVarArgs pre []) as [envVars0|e]; simpl; [|discriminate].
  rewrite Hinc. simpl negb. cbv iota. rewrite Hsplit. simpl nth.
  destruct (parseEnvVarArgs post _) as [envVars1|e] eqn:Hrest; [|discriminate].
  intros [= <- <-]. split; [|reflexivity].
  rewrite (parseEnvVarArgs_other_names post name _ _ Hothers Hrest).
  now apply CliFacts.getOwn_set.
Qed.

Lemma parseEnvVarArgs_invariant (P : Record -> Prop) :
  (forall o k v, P o -> P (JsObject.set o k v)) ->
  forall envVarArgs envVars envVars',
    P envVars -> parseEnvVarArgs envVarArgs envVars = OK envVars' -> P envVars'.
Proof.
  intros Hset envVarArgs; induction envVarArgs as [|arg rest IH];
    intros envVars envVars' HP; simpl.
  - now intros [= <-].
  - destruct (negb (JsString.includes arg "=")); [discriminate|].
    apply IH. now apply Hset.
Qed.

(** X10. The mapping that [parseCliArgs] returns has no name twice and no
    name [__proto__], whatever the arguments: a name given several times
    is one variable. *)
Theorem names_are_distinct (args command : list string) (envVars : Record) :
  parseCliArgs args = OK (envVars, command) ->
  NoDup (JsObject.keys envVars) /\ ~ In "__proto__" (JsObject.keys envVars).
Proof.
  unfold parseCliArgs.
  destruct (negb (JsArray.indexOf args "--" =? -1)%Z).
  - destruct (parseEnvVarArgs _ []) as [envVars'|e] eqn:Hparse; [|discriminate].
    intros [= <- _].
    apply (parseEnvVarArgs_invariant
             (fun o => NoDup (JsObject.keys o) /\ ~ In "__proto__" (JsObject.keys o)))
      with (3 := Hparse).
    + intros o k v [Hnd Hproto]. split; [now apply NoDup_keys_set | now apply no_proto_set].
    + split; [constructor | intros []].
  - intros [= <- _]. split; [constructor | intros []].
Qed.

Lemma getOwn_fold_define (entries : list (string * string)) (o : Record) (name : string) :
  NoDup (JsObject.keys entries) ->
  JsObject.getOwn
    (fold_left (fun o entry => JsObject.define o (fst entry) (snd entry)) entries o) name
  = match JsObject.getOwn entries name with
    | Some v => Some v
    | None => JsObject.getOwn o name
    end.
Proof.
  revert o; induction entries as [|[k v] entries IH]; intros o Hnd; simpl; [reflexivity|].
  inversion Hnd as [|? ? Hk Hrest]; subst.
  rewrite (IH _ Hrest). destruct (k =? name) eqn:Hkn.
  - apply String.eqb_eq in Hkn as ->.
    apply hasOwn_false, getOwn_None in Hk. rewrite Hk. apply getOwn_define_same.
  - apply String.eqb_neq in Hkn.
    rewrite getOwn_define_other by congruence. reflexivity.
Qed.

(** X11. In the environment of the child process a secret overrides the
    inherited variable of the same name, and every other variable of the
    parent is inherited as it is. *)
Theorem secrets_override_environment (processEnv env : Record)
    (command name : string) (args : list string) :
  NoDup (JsObject.keys processEnv) ->
  NoDup (JsObject.keys env) ->
  JsObject.getOwn (spawn_env (runMcpServer processEnv command args env)) name =
    match JsObject.getOwn env name with
    | Some secret => Some secret
    | None => JsObject.getOwn processEnv name
    end.
Proof.
  intros Hp He. simpl. unfold spread, JsObject.entries.
  rewrite fold_left_app, getOwn_fold_define by assumption.
  destruct (JsObject.getOwn env name); [reflexivity|].
  rewrite getOwn_fold_define by assumption.
  now destruct (JsObject.getOwn processEnv name).
Qed.

End MappingFacts.

Lemma last_reference_wins_witness :
  parseCliArgs ["K=old"; "K=new"; "A=1"; "--"; "node"] =
    OK ([("K", "new"); ("A", "1")], ["node"])
  /\ JsObject.getOwn [("K", "new"); ("A", "1")] "K" = Some "new".
Proof.
  split; [reflexivity|].
  assert (Hproto : "K" <> "__proto__") by discriminate.
  assert (Hpre : ~ In "--" ["K=old"]) by (intros [H|[]]; discriminate).
  assert (Hpost : ~ In "--" ["A=1"]) by (intros [H|[]]; discriminate).
  assert (Hothers : Forall (fun arg => JsString.startsWith arg ("K" ++ "=") = false) ["A=1"])
    by (repeat constructor).
  exact (proj1 (MappingFacts.last_reference_wins ["K=old"] ["A=1"] ["node"] ["node"]
                  "K" "new" [("K", "new"); ("A", "1")]
                  eq_refl eq_refl Hproto Hpre Hpost Hothers eq_refl)).
Defined.

Lemma names_are_distinct_witness :
  NoDup (JsObject.keys [("2", "x"); ("K", "new")])
  /\ ~ In "__proto__" (JsObject.keys [("2", "x"); ("K", "new")]).
Proof.
  exact (MappingFacts.names_are_distinct
           ["K=old"; "__proto__=p"; "2=x"; "K=new"; "--"; "node"] ["node"]
           [("2", "x"); ("K", "new")] eq_refl).
Defined.

Lemma secrets_override_environment_witness :
  JsObject.getOwn
    (spawn_env (runMcpServer [("PATH", "/usr/bin"); ("API_KEY", "inherited")]
                             "node" ["server.js"] [("API_KEY", "secret")]))
    "API_KEY" = Some "secret".
Proof.
  assert (Hp : NoDup (JsObject.keys [("PATH", "/usr/bin"); ("API_KEY", "inherited")])).
  { repeat constructor; simpl; intuition discriminate. }
  assert (He : NoDup (JsObject.keys [("API_KEY", "secret")])).
  { repeat constructor; simpl; intuition discriminate. }
  exact (MappingFacts.secrets_override_environment
           [("PATH", "/usr/bin"); ("API_KEY", "inherited")] [("API_KEY", "secret")]
           "node" "API_KEY" ["server.js"] Hp He).
Defined.

(* ===================================================================== *)
(** * The lines on the console                                            *)
(* ===================================================================== *)

Module ConsoleFacts.
Import JsString JsStringFacts.

Lemma lacks_append (c : ascii) (a b : string) :
  lacks c (a ++ b) = lacks c a && lacks c b.
Proof.
  induction a as [|x a IH]; simpl; [reflexivity|].
  now rewrite IH, andb_assoc.
Qed.

(** A label without [%] is followed by a space and the string. *)
Lemma console_line_string (cf : ConsoleFormat) (label value : string) :
  lacks "%" label = true ->
  console_line cf label (ArgString value) = label ++ " " ++ value.
Proof. intros H. unfold console_line. now rewrite H. Qed.

(** A label without [%] is followed by a space and the error, inspected. *)
Lemma console_line_thrown (cf : ConsoleFormat) (label : string) (error : JsThrown) :
  lacks "%" label = true ->
  console_line cf label (ArgThrown error) = label ++ " " ++ util_inspect cf error.
Proof. intros H. unfold console_line. now rewrite H. Qed.

End ConsoleFacts.

(* ===================================================================== *)
(** * More on the GCP vault plugin                                        *)
(* ===================================================================== *)

Module GCPMore.
Import GCP JsStringFacts JsStringMore GCPFacts.

Lemma canonical_shape (project secret version : string) :
  JsString.startsWith
    ("projects/" ++ project ++ "/secrets/" ++ secret ++ "/versions/" ++ version)
    "projects/" = true
  /\ JsString.includes
       ("projects/" ++ project ++ "/secrets/" ++ secret ++ "/versions/" ++ version)
       "/versions/" = true.
Proof.
  split; [apply (prefix_append "projects/")|].
  do 4 apply includes_skip. apply includes_prefix.
Qed.

(** X12. Every name that the normalizer returns is canonical: it starts
    with [projects/] and holds a [/versions/] segment. Hence the
    normalizer returns it unchanged when given it again, whatever project
    id is then resolved. *)
Theorem normalized_name_is_canonical (secretId name : string)
    (resolved resolved' : option string) :
  normalizeSecretId secretId resolved = (OK name, resolved') ->
  JsString.startsWith name "projects/" = true
  /\ JsString.includes name "/versions/" = true
  /\ forall again : option string, fst (normalizeSecretId name again) = OK name.
Proof.
  intros H.
  assert (Hcanonical : JsString.startsWith name "projects/" = true
                       /\ JsString.includes name "/versions/" = true).
  { unfold normalizeSecretId in H.
    set (p := match resolved with Some p => p | None => EmptyString end) in H.
    destruct (JsString.startsWith secretId "projects/") eqn:Hfull.
    - destruct (JsString.includes secretId "/versions/") eqn:Hv; simpl in H;
        injection H as <- _.
      + now split.
      + split; [now apply startsWith_append | apply (includes_middle _ "/versions/" "latest")].
    - destruct (negb (truthy resolved)); [discriminate|].
      destruct (JsString.split secretId "/") as [|a [|b [|c [|d l]]]]; try discriminate.
      + injection H as <- _. exact (canonical_shape p a "latest").
      + destruct (a =? p); injection H as <- _.
        * exact (canonical_shape a b "latest").
        * exact (canonical_shape p a b).
      + injection H as <- _. exact (canonical_shape a b c). }
  destruct Hcanonical as [Hstart Hversions]. repeat split; try assumption.
  intros again. unfold normalizeSecretId. now rewrite Hstart, Hversions.
Qed.

(** X13. A shorthand without [/] is a secret of the resolved project, at
    its latest version; a shorthand of three segments names its own
    project, secret and version, and the resolved project id is not
    used. *)
Theorem one_and_three_segments (a b c p : string) :
  JsString.lacks "/" a = true ->
  JsString.lacks "/" b = true ->
  JsString.lacks "/" c = true ->
  p <> EmptyString ->
  normalizeSecretId a (Some p) =
    (OK ("projects/" ++ p ++ "/secrets/" ++ a ++ "/versions/latest"), Some p)
  /\ (a <> "projects" ->
      normalizeSecretId (a ++ "/" ++ b ++ "/" ++ c) (Some p) =
        (OK ("projects/" ++ a ++ "/secrets/" ++ b ++ "/versions/" ++ c), Some p)).
Proof.
  intros Ha Hb Hc Hp. split.
  - unfold normalizeSecretId.
    rewrite (lacks_slash_shorthand a Ha), (truthy_Some p Hp). simpl negb. cbv iota.
    now rewrite split_lacks.
  - intros Hne. unfold normalizeSecretId.
    assert (Hshort : JsString.startsWith (a ++ "/" ++ b ++ "/" ++ c) "projects/" = false).
    { destruct (JsString.startsWith _ "projects/") eqn:Hfull; [|reflexivity].
      destruct (split_full _ Hfull) as (project & rest & Hsplit).
      change (a ++ "/" ++ b ++ "/" ++ c) with (a ++ String "/" (b ++ String "/" c))
        in Hsplit.
      rewrite split_append in Hsplit by assumption. now injection Hsplit as -> _. }
    rewrite Hshort, (truthy_Some p Hp). simpl negb. cbv iota.
    change (a ++ "/" ++ b ++ "/" ++ c) with (a ++ String "/" (b ++ String "/" c)).
    now rewrite !split_append, split_lacks by assumption.
Qed.

(** X14. A shorthand of four segments or more is refused with the format
    error, and the call changes nothing: no name is requested from the
    client. *)
Theorem four_segments_are_refused (host : Host) (w : World State) (cl : Client)
    (a b c rest : string) :
  client (this (vault w)) = Some cl ->
  truthy (resolvedProjectId (this (vault w))) = true ->
  JsString.lacks "/" a = true ->
  JsString.lacks "/" b = true ->
  JsString.lacks "/" c = true ->
  a <> "projects" ->
  getSecret host (a ++ "/" ++ b ++ "/" ++ c ++ "/" ++ rest) w =
    (Throw (invalidFormatError (a ++ "/" ++ b ++ "/" ++ c ++ "/" ++ rest)), w).
Proof.
  intros Hcl Hr Ha Hb Hc Hne.
  set (secretId := a ++ "/" ++ b ++ "/" ++ c ++ "/" ++ rest).
  assert (Hsplit : exists d l, JsString.split secretId "/" = a :: b :: c :: d :: l).
  { destruct (split_cons rest "/") as (d & l & Hrest). exists d, l.
    unfold secretId.
    change (a ++ "/" ++ b ++ "/" ++ c ++ "/" ++ rest)
      with (a ++ String "/" (b ++ String "/" (c ++ String "/" rest))).
    now rewrite !split_append, Hrest by assumption. }
  destruct Hsplit as (d & l & Hsplit).
  assert (Hshort : JsString.startsWith secretId "projects/" = false).
  { destruct (JsString.startsWith secretId "projects/") eqn:Hfull; [|reflexivity].
    destruct (split_full _ Hfull) as (project & rest' & Hfullsplit).
    rewrite Hsplit in Hfullsplit. now injection Hfullsplit as -> _. }
  destruct w as [[[cl' cfg resolved] reqs] cons]; simpl in *.
  unfold getSecret, normalizeSecretId; simpl.
  now rewrite Hcl, Hshort, Hr, Hsplit.
Qed.

(** The line that the [catch] block of [getSecret] writes. *)
Lemma getSecret_failed_access (host : Host) (w : World State) (cl : Client)
    (secretId name : string) (resolved' : option string) (error : JsThrown) :
  client (this (vault w)) = Some cl ->
  normalizeSecretId secretId (resolvedProjectId (this (vault w))) = (OK name, resolved') ->
  access host cl name
         (mkWorld (mkState (mkPlugin (Some cl) (config (this (vault w))) resolved')
                           (requests (vault w))) (console w))
    = (Throw error,
       mkWorld (mkState (mkPlugin (Some cl) (config (this (vault w))) resolved')
                        (requests (vault w) ++ [name])%list) (console w)) ->
  getSecret host secretId w =
    accessFailed host secretId name error
      (mkWorld (mkState (mkPlugin (Some cl) (config (this (vault w))) resolved')
                        (requests (vault w) ++ [name])%list) (console w)).
Proof.
  intros Hcl Hn Ha. unfold getSecret. rewrite Hcl, Hn. unfold tryCatch. now rewrite Ha.
Qed.

(** X15. When the client throws, [getSecret] throws an error whose message
    holds the message of the client's error, after one request and one
    line on the console: the line that [console.error] prints for the
    label and the message, which is the label, a space and the message
    when neither the identifier nor the normalized name holds a [%]. A
    message that mentions a permission gives the "Permission denied"
    error; otherwise one that says "not found" gives the "Secret not
    found" error, which names the normalized secret. *)
Theorem client_error_keeps_its_message (host : Host) (w : World State) (cl : Client)
    (secretId name : string) (resolved' : option string) (error : JsThrown) :
  client (this (vault w)) = Some cl ->
  normalizeSecretId secretId (resolvedProjectId (this (vault w))) = (OK name, resolved') ->
  accessSecretVersion host cl name = Throw error ->
  exists (thrown : JsThrown) (w' : World State),
    getSecret host secretId w = (Throw thrown, w')
    /\ JsString.includes (emessage thrown) (emessage error) = true
    /\ requests (vault w') = (requests (vault w) ++ [name])%list
    /\ console w' =
         (console w ++
          [console_line (formats host)
             ("Error retrieving secret " ++ secretId ++ " (normalized: " ++ name ++ "):")
             (ArgString (emessage error))])%list
    /\ (JsString.lacks "%" secretId = true ->
        JsString.lacks "%" name = true ->
        console w' =
          (console w ++ [("Error retrieving secret " ++ secretId ++ " (normalized: " ++
                          name ++ "): " ++ emessage error)%string])%list)
    /\ (JsString.includes (emessage error) "permission" = true ->
        JsString.startsWith (emessage thrown) "Permission denied accessing secret." = true)
    /\ (JsString.includes (emessage error) "Permission denied" = false ->
        JsString.includes (emessage error) "permission" = false ->
        JsString.includes (emessage error) "not found" = true ->
        JsString.startsWith (emessage thrown) ("Secret not found: " ++ name ++ ".") = true).
Proof.
  intros Hcl Hn Ha.
  rewrite (getSecret_failed_access host w cl secretId name resolved' error Hcl Hn)
    by (unfold access; simpl; now rewrite Ha).
  unfold accessFailed, bind, console_error, throw. cbv beta iota.
  assert (Hself : JsString.includes (emessage error) (emessage error) = true)
    by apply (includes_suffix EmptyString).
  assert (Hline : JsString.lacks "%" secretId = true ->
                  JsString.lacks "%" name = true ->
                  console_line (formats host)
                    ("Error retrieving secret " ++ secretId ++ " (normalized: " ++
                     name ++ "):")
                    (ArgString (emessage error)) =
                  "Error retrieving secret " ++ secretId ++ " (normalized: " ++
                  name ++ "): " ++ emessage error).
  { intros Hid Hname. rewrite ConsoleFacts.console_line_string.
    - now rewrite !append_assoc.
    - rewrite !ConsoleFacts.lacks_append, Hid, Hname. reflexivity. }
  destruct (JsString.includes (emessage error) "Permission denied") eqn:H1;
    [|destruct (JsString.includes (emessage error) "permission") eqn:H2;
      [|destruct (JsString.includes (emessage error) "not found") eqn:H3;
        [|destruct (JsString.includes (emessage error) "NotFound") eqn:H4;
          [|destruct (JsString.includes (emessage error)
                        "Could not load the default credentials") eqn:H5]]]];
    cbv beta iota; simpl orb; cbv iota;
    eexists; eexists; (split; [reflexivity|]);
    (split; [unfold Error; cbn [emessage];
             repeat apply includes_skip; exact Hself|]);
    (split; [reflexivity|]); (split; [reflexivity|]);
    (split; [intros Hid Hname; cbn [console vault];
             now rewrite (Hline Hid Hname)|]);
    (split; [intros Hp; try discriminate Hp; reflexivity
            | intros Hn1 Hn2 Hn3; try discriminate Hn1; try discriminate Hn2;
              try discriminate Hn3; unfold Error; cbn [emessage];
              replace ("Secret not found: " ++ name ++
                       ". Verify the secret exists in the specified project. Original error: " ++
                       emessage error)
                with (("Secret not found: " ++ name ++ ".") ++
                      " Verify the secret exists in the specified project. Original error: " ++
                      emessage error)
                by (now rewrite !append_assoc);
              apply prefix_append]).
Qed.

(** A version without payload data is an error too: [getSecret]
    throws "Secret value is empty", after the request and with one line on
    the console, the one printed for the label and that message, and the
    error is passed on as it is. *)
Theorem empty_payload_is_an_error (host : Host) (w : World State) (cl : Client)
    (secretId name : string) (resolved' : option string) :
  client (this (vault w)) = Some cl ->
  normalizeSecretId secretId (resolvedProjectId (this (vault w))) = (OK name, resolved') ->
  accessSecretVersion host cl name = OK None ->
  getSecret host secretId w =
    (Throw (Error "Secret value is empty"),
     mkWorld (mkState (mkPlugin (Some cl) (config (this (vault w))) resolved')
                      (requests (vault w) ++ [name])%list)
             (console w ++
              [console_line (formats host)
                 ("Error retrieving secret " ++ secretId ++ " (normalized: " ++ name ++ "):")
                 (ArgString "Secret value is empty")])%list).
Proof.
  intros Hcl Hn Ha.
  rewrite (getSecret_failed_access host w cl secretId name resolved'
             (Error "Secret value is empty") Hcl Hn)
    by (unfold access; simpl; now rewrite Ha).
  reflexivity.
Qed.


(** X17. The [keyFilename] parameter comes before the
    [GOOGLE_APPLICATION_CREDENTIALS] variable, which is then not looked
    at. Without an explicit [projectId], the project id of that key file
    is the resolved one: the client is built for it with the key file and
    without the inline credentials, and gcloud is not asked. *)
Theorem key_file_parameter_comes_first (host : Host) (config : GCPVaultConfig)
    (this0 : Plugin) (path : string) :
  keyFilename config = Some path ->
  path <> EmptyString ->
  (forall variable : option string,
      initialize host config this0 =
        initialize (mkHost variable (keyFile_project_id host) (gcloud_project host)
                           (newClient host) (accessSecretVersion host) (formats host))
                   config this0)
  /\ (forall (p : string) (c : Client),
      truthy (projectId config) = false ->
      keyFile_project_id host path = OK (Some p) ->
      p <> EmptyString ->
      newClient host (mkClientConfig (Some p) (Some path) None) = OK c ->
      initialize host config this0 = (OK tt, mkPlugin (Some c) (Some config) (Some p))).
Proof.
  intros Hpath Hne.
  assert (Hk : truthy (keyFilename config) = true)
    by (rewrite Hpath; now apply truthy_Some).
  split.
  - intros variable. unfold initialize, credentialSource. simpl. now rewrite Hk.
  - intros p c Hexplicit Hfile Hp Hnew.
    unfold initialize, credentialSource, useKeyFile. simpl.
    rewrite Hk, Hpath, Hexplicit. simpl negb. cbv iota.
    rewrite Hfile, (truthy_Some p Hp). simpl.
    assert (Hpt : JsString.truthy p = true) by exact (truthy_Some p Hp).
    rewrite Hpt. simpl. now rewrite Hnew.
Qed.

(** X18. With no parameter and no credentials variable, a fresh instance
    takes the project of the gcloud tool, unless the tool fails, prints
    nothing or prints [(unset)]: then no project id is resolved, and
    [initialize] succeeds all the same. *)
Theorem gcloud_is_the_last_resort (host : Host) (c : Client) :
  truthy (GOOGLE_APPLICATION_CREDENTIALS host) = false ->
  let fromGcloud :=
    match gcloud_project host with
    | OK project =>
        if JsString.truthy project && negb (project =? "(unset)")
        then Some project else None
    | Throw _ => None
    end in
  newClient host (mkClientConfig fromGcloud None None) = OK c ->
  initialize host (mkConfig None None None) new =
    (OK tt, mkPlugin (Some c) (Some (mkConfig None None None)) fromGcloud).
Proof.
  intros Hvariable fromGcloud Hnew.
  unfold initialize, credentialSource. simpl. rewrite Hvariable. simpl.
  unfold fromGcloud in *.
  destruct (gcloud_project host) as [project|e];
    [destruct (JsString.truthy project && negb (project =? "(unset)"))|];
    simpl; now rewrite Hnew.
Qed.

Lemma initialize_throws_keeps_client (host : Host) (config : GCPVaultConfig)
    (this0 this1 : Plugin) (e : JsThrown) :
  initialize host config this0 = (Throw e, this1) -> client this1 = client this0.
Proof.
  unfold initialize.
  destruct (credentialSource host config _ _) as [[this' cc]|e'] eqn:Hsrc.
  - assert (Hclient : client this' = client this0).
    { unfold credentialSource, useKeyFile in Hsrc.
      repeat match type of Hsrc with
             | context [if ?b then _ else _] => destruct b
             | context [match ?r with OK _ => _ | Throw _ => _ end] => destruct r
             | context [match ?o with Some _ => _ | None => _ end] => destruct o
             end; try discriminate; now injection Hsrc as <- _. }
    destruct (truthy (projectId config)); cbv beta iota zeta;
      (destruct (negb _ && negb _); cbv beta iota zeta;
       [destruct (gcloud_project host) as [projectId'|error'];
        [destruct (JsString.truthy projectId' && negb (projectId' =? "(unset)"))|];
        cbv beta iota zeta|]);
      match goal with
      | |- context [newClient host ?cc'] => destruct (newClient host cc')
      end; try discriminate; intros [= _ <-]; exact Hclient.
  - now intros [= _ <-].
Qed.

(** X19. When [initialize] throws on a fresh instance, the instance stays
    without a client: every later [getSecret] throws the "not initialized"
    error and leaves the world as it is. *)
Theorem failed_initialize_leaves_no_client (host : Host) (config : GCPVaultConfig)
    (this1 : Plugin) (e : JsThrown) (secretId : string) (w : World State) :
  initialize host config new = (Throw e, this1) ->
  this (vault w) = this1 ->
  getSecret host secretId w =
    (Throw (Error "GCP vault plugin not initialized. Call initialize() first."), w).
Proof.
  intros Hinit Hthis. apply initialize_throws_keeps_client in Hinit.
  unfold getSecret. now rewrite Hthis, Hinit.
Qed.

End GCPMore.

(* ===================================================================== *)
(** * The AWS vault plugin                                                *)
(* ===================================================================== *)

Module AWSFacts.
Import AWS.

(** X20. The AWS plugin sends the identifier as it is given, and reads the
    answer in this order: a non-empty [SecretString] is the value;
    otherwise the binary value, decoded, when there is one. *)
Theorem aws_value_selection (host : Host) (w : World State) (cl : Client)
    (secretId : string) (response : Response) :
  client (this (vault w)) = Some cl ->
  send host cl secretId = OK response ->
  requests (vault (snd (getSecret host secretId w))) =
    (requests (vault w) ++ [secretId])%list
  /\ (forall text : string,
      SecretString response = Some text -> text <> EmptyString ->
      getSecret host secretId w =
        (OK text, mkWorld (mkState (this (vault w)) (requests (vault w) ++ [secretId])%list)
                          (console w)))
  /\ (forall buff : string,
      GCP.truthy (SecretString response) = false ->
      SecretBinary response = Some buff ->
      getSecret host secretId w =
        (OK buff, mkWorld (mkState (this (vault w)) (requests (vault w) ++ [secretId])%list)
                          (console w))).
Proof.
  intros Hcl Hsend. unfold getSecret, tryCatch, fetch. rewrite Hcl, Hsend.
  split; [|split].
  - destruct (GCP.truthy (SecretString response)); [reflexivity|].
    now destruct (SecretBinary response).
  - intros text Htext Hne.
    rewrite Htext. now rewrite (GCPFacts.truthy_Some text Hne).
  - intros buff Hfalsy Hbinary. now rewrite Hfalsy, Hbinary.
Qed.

(** X21. The AWS plugin passes errors on as they are. When the client
    throws, [getSecret] throws the same error; when the answer holds
    neither a non-empty string nor a binary value, it throws "Secret value
    is empty". In both cases the request was sent and one line is written
    to the console: the line that [console.error] prints for the label
    and the error, which is the label, a space and the error as the
    console shows it when the identifier holds no [%]. *)
Theorem aws_errors_are_passed_on (host : Host) (w : World State) (cl : Client)
    (secretId : string) :
  client (this (vault w)) = Some cl ->
  let failed (error : JsThrown) :=
    (Throw error,
     mkWorld (mkState (this (vault w)) (requests (vault w) ++ [secretId])%list)
             (console w ++
              [console_line (formats host) ("Error retrieving secret " ++ secretId ++ ":")
                            (ArgThrown error)])%list) in
  (forall error : JsThrown,
      send host cl secretId = Throw error ->
      getSecret host secretId w = failed error)
  /\ (forall response : Response,
      send host cl secretId = OK response ->
      GCP.truthy (SecretString response) = false ->
      SecretBinary response = None ->
      getSecret host secretId w = failed (Error "Secret value is empty"))
  /\ (forall error : JsThrown,
      JsString.lacks "%" secretId = true ->
      console_line (formats host) ("Error retrieving secret " ++ secretId ++ ":")
                   (ArgThrown error) =
        "Error retrieving secret " ++ secretId ++ ": " ++
        util_inspect (formats host) error).
Proof.
  intros Hcl failed. unfold getSecret, tryCatch, fetch, failed. rewrite Hcl.
  split; [|split].
  - intros error Hsend. now rewrite Hsend.
  - intros response Hsend Hfalsy Hbinary. now rewrite Hsend, Hfalsy, Hbinary.
  - intros error Hid. rewrite ConsoleFacts.console_line_thrown.
    + now rewrite !JsStringFacts.append_assoc.
    + rewrite !ConsoleFacts.lacks_append, Hid. reflexivity.
Qed.

(** X22. [initialize] gives credentials to the client exactly when both
    [accessKeyId] and [secretAccessKey] are non-empty; a session token is
    added to them when it is non-empty, and is ignored without them. The
    profile and the region are passed when non-empty. Only the
    construction of the client can make [initialize] throw. *)
Theorem aws_credentials_need_both_keys (host : Host) (config : AWSVaultConfig)
    (this0 : Plugin) :
  exists cc : ClientConfig,
    initialize host config this0 =
      match newClient host cc with
      | OK c => (OK tt, mkPlugin (Some c) (Some config))
      | Throw e => (Throw e, mkPlugin (client this0) (Some config))
      end
    /\ client_profile cc = (if GCP.truthy (profile config) then profile config else None)
    /\ client_region cc = (if GCP.truthy (region config) then region config else None)
    /\ client_credentials cc =
         (if GCP.truthy (accessKeyId config) && GCP.truthy (secretAccessKey config)
          then Some (mkCredentials
                       (match accessKeyId config with Some k => k | None => EmptyString end)
                       (match secretAccessKey config with Some k => k | None => EmptyString end)
                       (if GCP.truthy (sessionToken config)
                        then sessionToken config else None))
          else None).
Proof.
  unfold initialize.
  destruct config as [prof reg keyId secret token]; simpl.
  eexists. split; [reflexivity|].
  destruct (GCP.truthy prof), (GCP.truthy reg), keyId as [keyId|], secret as [secret|];
    simpl; try (destruct (JsString.truthy keyId)); try (destruct (JsString.truthy secret));
    simpl; repeat split; reflexivity.
Qed.

End AWSFacts.

Lemma aws_value_selection_witness :
  AWS.getSecret Fixtures.awsHost "arn:aws:secretsmanager:eu-west-1:1:secret:db"
                Fixtures.awsInitialized =
    (OK "value of arn:aws:secretsmanager:eu-west-1:1:secret:db",
     mkWorld (AWS.mkState (AWS.this (vault Fixtures.awsInitialized))
                          ["arn:aws:secretsmanager:eu-west-1:1:secret:db"]) []).
Proof.
  assert (Hne : "value of arn:aws:secretsmanager:eu-west-1:1:secret:db" <> EmptyString)
    by discriminate.
  exact (proj1 (proj2 (AWSFacts.aws_value_selection Fixtures.awsHost Fixtures.awsInitialized
                         (AWS.mkClient (AWS.mkClientConfig None None None))
                         "arn:aws:secretsmanager:eu-west-1:1:secret:db"
                         (AWS.mkResponse
                            (Some "value of arn:aws:secretsmanager:eu-west-1:1:secret:db")
                            None)
                         eq_refl eq_refl))
               "value of arn:aws:secretsmanager:eu-west-1:1:secret:db" eq_refl Hne).
Defined.

Lemma aws_errors_are_passed_on_witness :
  AWS.getSecret Fixtures.awsHost "absent" Fixtures.awsInitialized =
    (Throw (mkThrown "ResourceNotFoundException"
                     "Secrets Manager can't find the specified secret."),
     mkWorld (AWS.mkState (AWS.this (vault Fixtures.awsInitialized)) ["absent"])
             ["Error retrieving secret absent: ResourceNotFoundException: Secrets Manager can't find the specified secret."]).
Proof.
  exact (proj1 (AWSFacts.aws_errors_are_passed_on Fixtures.awsHost Fixtures.awsInitialized
                  (AWS.mkClient (AWS.mkClientConfig None None None)) "absent" eq_refl)
               (mkThrown "ResourceNotFoundException"
                         "Secrets Manager can't find the specified secret.")
               eq_refl).
Defined.

Lemma normalized_name_is_canonical_witness :
  JsString.startsWith "projects/p1/secrets/db/versions/7" "projects/" = true
  /\ JsString.includes "projects/p1/secrets/db/versions/7" "/versions/" = true
  /\ forall again : option string,
       fst (GCP.normalizeSecretId "projects/p1/secrets/db/versions/7" again) =
         OK "projects/p1/secrets/db/versions/7".
Proof.
  exact (GCPMore.normalized_name_is_canonical "db/7" "projects/p1/secrets/db/versions/7"
           (Some "p1") (Some "p1") eq_refl).
Defined.

Lemma one_and_three_segments_witness :
  GCP.normalizeSecretId "db" (Some "p1") =
    (OK "projects/p1/secrets/db/versions/latest", Some "p1")
  /\ ("db" <> "projects" ->
      GCP.normalizeSecretId "db/app/7" (Some "p1") =
        (OK "projects/db/secrets/app/versions/7", Some "p1")).
Proof.
  assert (Hne : "p1" <> EmptyString) by discriminate.
  exact (GCPMore.one_and_three_segments "db" "app" "7" "p1" eq_refl eq_refl eq_refl Hne).
Defined.

Lemma four_segments_are_refused_witness :
  GCP.getSecret (Doubles.gcloudHost "p1") "p1/db/7/extra"
                (Doubles.initialized (Doubles.gcloudHost "p1")) =
    (Throw (GCP.invalidFormatError "p1/db/7/extra"),
     Doubles.initialized (Doubles.gcloudHost "p1")).
Proof.
  assert (Hne : "p1" <> "projects") by discriminate.
  exact (GCPMore.four_segments_are_refused (Doubles.gcloudHost "p1")
           (Doubles.initialized (Doubles.gcloudHost "p1"))
           (GCP.mkClient (GCP.mkClientConfig (Some "p1") None None))
           "p1" "db" "7" "extra" eq_refl eq_refl eq_refl eq_refl eq_refl Hne).
Defined.

Lemma client_error_keeps_its_message_witness :
  exists (thrown : JsThrown) (w' : World GCP.State),
    GCP.getSecret (Fixtures.failingHost (Error "5 NOT_FOUND: Secret [db] not found"))
                  "db"
                  (Doubles.initialized
                     (Fixtures.failingHost (Error "5 NOT_FOUND: Secret [db] not found"))) =
      (Throw thrown, w')
    /\ JsString.includes (emessage thrown) "5 NOT_FOUND: Secret [db] not found" = true
    /\ GCP.requests (vault w') = ["projects/p1/secrets/db/versions/latest"]
    /\ console w' =
         ["Error retrieving secret db (normalized: projects/p1/secrets/db/versions/latest): 5 NOT_FOUND: Secret [db] not found"]
    /\ (JsString.lacks "%" "db" = true ->
        JsString.lacks "%" "projects/p1/secrets/db/versions/latest" = true ->
        console w' =
          ["Error retrieving secret db (normalized: projects/p1/secrets/db/versions/latest): 5 NOT_FOUND: Secret [db] not found"])
    /\ (JsString.includes "5 NOT_FOUND: Secret [db] not found" "permission" = true ->
        JsString.startsWith (emessage thrown) "Permission denied accessing secret." = true)
    /\ (JsString.includes "5 NOT_FOUND: Secret [db] not found" "Permission denied" = false ->
        JsString.includes "5 NOT_FOUND: Secret [db] not found" "permission" = false ->
        JsString.includes "5 NOT_FOUND: Secret [db] not found" "not found" = true ->
        JsString.startsWith (emessage thrown)
          "Secret not found: projects/p1/secrets/db/versions/latest." = true).
Proof.
  exact (GCPMore.client_error_keeps_its_message
           (Fixtures.failingHost (Error "5 NOT_FOUND: Secret [db] not found"))
           (Doubles.initialized
              (Fixtures.failingHost (Error "5 NOT_FOUND: Secret [db] not found")))
           (GCP.mkClient (GCP.mkClientConfig (Some "p1") None None))
           "db" "projects/p1/secrets/db/versions/latest" (Some "p1")
           (Error "5 NOT_FOUND: Secret [db] not found") eq_refl eq_refl eq_refl).
Defined.

Lemma empty_payload_is_an_error_witness :
  GCP.getSecret Fixtures.emptyHost "db" (Doubles.initialized Fixtures.emptyHost) =
    (Throw (Error "Secret value is empty"),
     mkWorld (GCP.mkState
                (GCP.mkPlugin (Some (GCP.mkClient (GCP.mkClientConfig (Some "p1") None None)))
                              (Some Doubles.noConfig) (Some "p1"))
                ["projects/p1/secrets/db/versions/latest"])
             ["Error retrieving secret db (normalized: projects/p1/secrets/db/versions/latest): Secret value is empty"]).
Proof.
  exact (GCPMore.empty_payload_is_an_error Fixtures.emptyHost
           (Doubles.initialized Fixtures.emptyHost)
           (GCP.mkClient (GCP.mkClientConfig (Some "p1") None None))
           "db" "projects/p1/secrets/db/versions/latest" (Some "p1")
           eq_refl eq_refl eq_refl).
Defined.


Lemma key_file_parameter_comes_first_witness :
  GCP.initialize Fixtures.keyFileHost (GCP.mkConfig None (Some "key.json") None) GCP.new =
    (OK tt,
     GCP.mkPlugin
       (Some (GCP.mkClient (GCP.mkClientConfig (Some "p-file") (Some "key.json") None)))
       (Some (GCP.mkConfig None (Some "key.json") None))
       (Some "p-file")).
Proof.
  assert (Hpath : "key.json" <> EmptyString) by discriminate.
  assert (Hproject : "p-file" <> EmptyString) by discriminate.
  exact (proj2 (GCPMore.key_file_parameter_comes_first Fixtures.keyFileHost
                  (GCP.mkConfig None (Some "key.json") None) GCP.new "key.json"
                  eq_refl Hpath)
               "p-file"
               (GCP.mkClient (GCP.mkClientConfig (Some "p-file") (Some "key.json") None))
               eq_refl eq_refl Hproject eq_refl).
Defined.

Lemma gcloud_is_the_last_resort_witness :
  GCP.initialize (Doubles.gcloudHost "p1") (GCP.mkConfig None None None) GCP.new =
    (OK tt,
     GCP.mkPlugin (Some (GCP.mkClient (GCP.mkClientConfig (Some "p1") None None)))
                  (Some (GCP.mkConfig None None None)) (Some "p1")).
Proof.
  exact (GCPMore.gcloud_is_the_last_resort (Doubles.gcloudHost "p1")
           (GCP.mkClient (GCP.mkClientConfig (Some "p1") None None)) eq_refl eq_refl).
Defined.

Lemma failed_initialize_leaves_no_client_witness :
  GCP.getSecret Doubles.bareHost "projects/p1/secrets/db"
    (Doubles.gcpStart
       (snd (GCP.initialize Doubles.bareHost (GCP.mkConfig None (Some "missing.json") None)
                            GCP.new))) =
    (Throw (Error "GCP vault plugin not initialized. Call initialize() first."),
     Doubles.gcpStart
       (snd (GCP.initialize Doubles.bareHost (GCP.mkConfig None (Some "missing.json") None)
                            GCP.new))).
Proof.
  exact (GCPMore.failed_initialize_leaves_no_client Doubles.bareHost
           (GCP.mkConfig None (Some "missing.json") None)
           (GCP.mkPlugin None (Some (GCP.mkConfig None (Some "missing.json") None)) None)
           (Error "Failed to read or parse key file missing.json: Error: ENOENT: no such file or directory, open 'missing.json'")
           "projects/p1/secrets/db"
           (Doubles.gcpStart
              (snd (GCP.initialize Doubles.bareHost
                      (GCP.mkConfig None (Some "missing.json") None) GCP.new)))
           eq_refl eq_refl).
Defined.

(* ===================================================================== *)
(** * The vault configuration                                             *)
(* ===================================================================== *)

Module ConfigFacts.
Import VaultConfigParser JsStringFacts JsStringMore JsObjectFacts.

Lemma find_first {A} (f : A -> bool) (pre post : list A) (x : A) :
  Forall (fun a => f a = false) pre -> f x = true ->
  List.find f (pre ++ x :: post) = Some x.
Proof.
  intros Hpre Hx. induction Hpre as [|a pre Ha _ IH]; simpl.
  - now rewrite Hx.
  - now rewrite Ha.
Qed.


Lemma find_snoc {A} (f : A -> bool) (xs : list A) (x y : A) :
  List.find f xs = Some x -> List.find f (xs ++ [y]) = Some x.
Proof.
  induction xs as [|a xs IH]; simpl; [discriminate|].
  destruct (f a); [trivial | exact IH].
Qed.

(** A [--vault-type=] argument gives no parameter. *)
Lemma readVaultArg_type (params : Record) (arg : string) :
  JsString.startsWith arg "--vault-type=" = true -> readVaultArg params arg = params.
Proof.
  intros H. unfold readVaultArg. rewrite H. now rewrite andb_false_r.
Qed.

Lemma vault_prefix (rest : string) :
  JsString.startsWith ("--vault-" ++ rest) "--vault-" = true.
Proof. apply (prefix_append "--vault-"). Qed.

Lemma after_vault_prefix (rest : string) :
  JsString.substring_from ("--vault-" ++ rest) 8 = rest.
Proof. exact (substring_after "--vault" rest "-"). Qed.

(** An argument [--vault-k...] whose [k] is not [type] and holds no [=]
    is not a [--vault-type=] argument. *)
Lemma not_the_type (k rest : string) :
  JsString.lacks "=" k = true -> k <> "type" ->
  rest = EmptyString \/ (exists x, rest = String "=" x) ->
  JsString.startsWith ("--vault-" ++ k ++ rest) "--vault-type=" = false.
Proof.
  intros Hk Hne Hrest.
  destruct (JsString.startsWith ("--vault-" ++ k ++ rest) "--vault-type=") eqn:H;
    [|reflexivity].
  exfalso. apply Hne.
  destruct (GCPFacts.prefix_inv _ _ H) as [t Ht].
  assert (Hcut : k ++ rest = "type" ++ String "=" t) by (now injection Ht).
  apply (f_equal (fun s => JsString.split s "=")) in Hcut.
  rewrite (split_append "type" t "=") in Hcut by reflexivity.
  destruct Hrest as [->|[x ->]].
  - rewrite append_empty_r, split_lacks in Hcut by assumption. now injection Hcut.
  - rewrite split_append in Hcut by assumption. now injection Hcut.
Qed.

(** X23. The vault type is the text between the first and the second [=]
    of the first [--vault-type=] argument; what follows a second [=] is
    dropped, later [--vault-type=] arguments are ignored, and no such
    argument gives a parameter. *)
Theorem first_vault_type_wins (pre post : list string) (t junk : string) :
  Forall (fun arg => JsString.startsWith arg "--vault-type=" = false) pre ->
  JsString.lacks "=" t = true ->
  parseFromArgs (pre ++ ("--vault-type=" ++ t) :: post) =
    Some (mkVaultConfig t (fold_left readVaultArg (pre ++ post) []))
  /\ parseFromArgs (pre ++ ("--vault-type=" ++ t ++ "=" ++ junk) :: post) =
       Some (mkVaultConfig t (fold_left readVaultArg (pre ++ post) [])).
Proof.
  intros Hpre Ht.
  assert (Hgen : forall rest : string,
             nth 1 (JsString.split ("--vault-type=" ++ rest) "=") EmptyString = t ->
             parseFromArgs (pre ++ ("--vault-type=" ++ rest) :: post) =
               Some (mkVaultConfig t (fold_left readVaultArg (pre ++ post) []))).
  { intros rest Hnth. unfold parseFromArgs.
    rewrite (find_first _ pre post ("--vault-type=" ++ rest) Hpre
               (prefix_append "--vault-type=" rest)).
    change (JsString.truthy ("--vault-type=" ++ rest)) with true. cbv beta iota.
    simpl negb. cbv iota. rewrite Hnth.
    rewrite !fold_left_app. simpl fold_left.
    now rewrite (readVaultArg_type _ _ (prefix_append "--vault-type=" rest)). }
  split; apply Hgen.
  - change ("--vault-type=" ++ t) with ("--vault-type" ++ String "=" t).
    rewrite split_append by reflexivity. now rewrite split_lacks.
  - change ("--vault-type=" ++ t ++ "=" ++ junk)
      with ("--vault-type" ++ String "=" (t ++ String "=" junk)).
    rewrite split_append by reflexivity. now rewrite split_append.
Qed.

Lemma parseFromArgs_snoc (args : list string) (cfg : VaultConfig) (arg : string) :
  parseFromArgs args = Some cfg ->
  parseFromArgs (args ++ [arg]) =
    Some (mkVaultConfig (type cfg) (readVaultArg (params cfg) arg)).
Proof.
  unfold parseFromArgs.
  destruct (List.find _ args) as [vaultTypeArg|] eqn:Hfind; [|discriminate].
  rewrite (find_snoc _ _ _ arg Hfind).
  destruct (negb (JsString.truthy vaultTypeArg)); [discriminate|].
  intros [= <-]. simpl. now rewrite fold_left_app.
Qed.

(** X24. A parameter [--vault-k=v], with [k] and [v] non-empty and [k] not
    [type], assigns [v] to [k], over an earlier value of [k]; what follows
    a second [=] is dropped. An argument [--vault-k=] with an empty value,
    or [--vault-k] without [=], gives no parameter. *)
Theorem vault_parameter_is_read (args : list string) (cfg : VaultConfig)
    (k v junk : string) :
  parseFromArgs args = Some cfg ->
  JsString.lacks "=" k = true ->
  JsString.lacks "=" v = true ->
  k <> EmptyString ->
  k <> "type" ->
  v <> EmptyString ->
  parseFromArgs (args ++ ["--vault-" ++ k ++ "=" ++ v]) =
    Some (mkVaultConfig (type cfg) (JsObject.set (params cfg) k v))
  /\ parseFromArgs (args ++ ["--vault-" ++ k ++ "=" ++ v ++ "=" ++ junk]) =
       Some (mkVaultConfig (type cfg) (JsObject.set (params cfg) k v))
  /\ parseFromArgs (args ++ ["--vault-" ++ k ++ "="]) = Some cfg
  /\ parseFromArgs (args ++ ["--vault-" ++ k]) = Some cfg.
Proof.
  intros Hcfg Hk Hv Hkne Htype Hvne.
  assert (Hkt : JsString.truthy k = true)
    by (apply negb_true_iff, String.eqb_neq, Hkne).
  assert (Hvt : JsString.truthy v = true)
    by (apply negb_true_iff, String.eqb_neq, Hvne).
  assert (Hread : forall rest pieces,
             (rest = EmptyString \/ exists x, rest = String "=" x) ->
             JsString.split (k ++ rest) "=" = pieces ->
             readVaultArg (params cfg) ("--vault-" ++ k ++ rest) =
               match nth_error pieces 1 with
               | Some value =>
                   if JsString.truthy (nth 0 pieces EmptyString) && JsString.truthy value
                   then JsObject.set (params cfg) (nth 0 pieces EmptyString) value
                   else params cfg
               | None => params cfg
               end).
  { intros rest pieces Hrest <-. unfold readVaultArg.
    rewrite vault_prefix, (not_the_type k rest Hk Htype Hrest), after_vault_prefix.
    reflexivity. }
  repeat split; rewrite (parseFromArgs_snoc _ _ _ Hcfg).
  - change ("--vault-" ++ k ++ "=" ++ v) with ("--vault-" ++ k ++ String "=" v).
    rewrite (Hread (String "=" v) [k; v]).
    + simpl. now rewrite Hkt, Hvt.
    + right. now exists v.
    + now rewrite split_append, split_lacks.
  - destruct (GCPFacts.split_cons junk "=") as (seg & segs & Hjunk).
    change ("--vault-" ++ k ++ "=" ++ v ++ "=" ++ junk)
      with ("--vault-" ++ k ++ String "=" (v ++ String "=" junk)).
    rewrite (Hread (String "=" (v ++ String "=" junk)) (k :: v :: seg :: segs)).
    + simpl. now rewrite Hkt, Hvt.
    + right. now eexists.
    + now rewrite !split_append, Hjunk.
  - change ("--vault-" ++ k ++ "=") with ("--vault-" ++ k ++ String "=" EmptyString).
    rewrite (Hread (String "=" EmptyString) [k; EmptyString]).
    + simpl. rewrite Hkt. simpl. now destruct cfg.
    + right. now eexists.
    + now rewrite split_append.
  - pose proof (Hread EmptyString [k] (or_introl eq_refl)) as H.
    rewrite !append_empty_r in H. rewrite H by (now apply split_lacks).
    simpl. now destruct cfg.
Qed.


(** The names of the parameters read from the environment. *)
Lemma environment_names (toLowerCase : string -> string)
    (entries : list (string * string)) (params : Record) (name : string) :
  In name (JsObject.keys (fold_left (readVaultVariable toLowerCase) entries params)) ->
  In name (JsObject.keys params) \/ exists s, name = toLowerCase s.
Proof.
  revert params; induction entries as [|[key value] entries IH]; intros params H;
    [now left|].
  simpl in H. apply IH in H as [H|H]; [|now right].
  unfold readVaultVariable in H.
  destruct (JsString.startsWith key "VAULT_" && negb (key =? "VAULT_TYPE")); [|now left].
  unfold JsObject.set in H.
  destruct (toLowerCase (JsString.substring_from key 6) =? "__proto__"); [now left|].
  apply In_keys_define in H as [->|H]; [right; now eexists | now left].
Qed.

(** X26. The parameters read from the environment have the names that
    [toLowerCase] returns. As [toLowerCase] returns no capital letter, no
    parameter whose name holds one, such as [projectId], [keyFilename] or
    [accessKeyId], comes from the environment. The type is the value of
    [VAULT_TYPE]. *)
Theorem environment_parameters_are_lower_case (toLowerCase : string -> string)
    (env : Record) (cfg : VaultConfig) (name : string) :
  (forall s, Fixtures.hasUpperCaseLetter (toLowerCase s) = false) ->
  parseFromEnv toLowerCase env = Some cfg ->
  Fixtures.hasUpperCaseLetter name = true ->
  JsObject.getOwn (params cfg) name = None
  /\ JsObject.getOwn env "VAULT_TYPE" = Some (type cfg).
Proof.
  intros Hlower Hcfg Hname. unfold parseFromEnv in Hcfg.
  destruct (JsObject.getOwn env "VAULT_TYPE") as [vaultType|]; [|discriminate].
  destruct (negb (JsString.truthy vaultType)); [discriminate|].
  injection Hcfg as <-. simpl. split; [|reflexivity].
  apply getOwn_None, hasOwn_false. intros Hin.
  apply environment_names in Hin as [[]|[s ->]].
  rewrite Hlower in Hname. discriminate.
Qed.

Lemma In_skipn {A} (n : nat) (xs : list A) (x : A) : In x (skipn n xs) -> In x xs.
Proof.
  revert xs; induction n as [|n IH]; intros xs H; [exact H|].
  destruct xs as [|y xs]; [exact H|]. right. now apply IH.
Qed.

(** X27. No argument that starts with [--vault-] reaches the child: the
    arguments of the wrapped command that stand after the [--] are
    filtered too. *)
Theorem vault_arguments_never_reach_the_command (args command : list string)
    (envVars : Record) :
  parseCliArgs (removeVaultArgs args) = OK (envVars, command) ->
  Forall (fun arg => JsString.startsWith arg "--vault-" = false) command
  /\ forall arg, In arg command -> In arg args.
Proof.
  intros H.
  assert (Hsub : forall arg, In arg command -> In arg (removeVaultArgs args)).
  { unfold parseCliArgs in H.
    destruct (negb (JsArray.indexOf (removeVaultArgs args) "--" =? -1)%Z).
    - destruct (parseEnvVarArgs _ []); [|discriminate].
      injection H as _ <-. intros arg. apply In_skipn.
    - now injection H as _ <-. }
  split.
  - apply Forall_forall. intros arg Hin. apply Hsub, filter_In in Hin as [_ Hin].
    now apply negb_true_iff.
  - intros arg Hin. now apply Hsub, filter_In in Hin as [Hin _].
Qed.

End ConfigFacts.

(* ===================================================================== *)
(** * The plugin registry                                                 *)
(* ===================================================================== *)

Module RegistryFacts.
Import Registry JsObjectFacts.

Section Generic.
Context {S : Type}.

Lemma list_register (registry : t S) (plugin : Plugin S) :
  list (register registry plugin) =
    if JsObject.hasOwn registry (name plugin) then list registry
    else (list registry ++ [name plugin])%list.
Proof.
  unfold register, mapSet, list.
  destruct (JsObject.hasOwn registry (name plugin)).
  - apply keys_replace.
  - now rewrite map_app.
Qed.

Lemma getOwn_replace_same {V} (o : JsObject.t V) (k : string) (v : V) :
  JsObject.hasOwn o k = true -> JsObject.getOwn (JsObject.replace o k v) k = Some v.
Proof.
  induction o as [|[k' v'] o IH]; simpl; [discriminate|].
  destruct (k' =? k) eqn:Hk; simpl.
  - now rewrite Hk.
  - rewrite Hk. exact IH.
Qed.

Lemma getOwn_append_same {V} (o : JsObject.t V) (k : string) (v : V) :
  JsObject.hasOwn o k = false -> JsObject.getOwn (o ++ [(k, v)])%list k = Some v.
Proof.
  induction o as [|[k' v'] o IH]; simpl.
  - now rewrite String.eqb_refl.
  - destruct (k' =? k); [discriminate | exact IH].
Qed.

(** The registry is a map from names to plugins: after
    [register(plugin)], [get] returns [plugin] for its name and what it
    returned before for every other name; a plugin registered under a
    name already in use replaces the earlier one where it stands in
    [list()], and a new name goes to the end. *)
Theorem register_then_get (registry : t S) (plugin : Plugin S) (pluginName : string) :
  get (register registry plugin) pluginName =
    (if name plugin =? pluginName then Some plugin else get registry pluginName)
  /\ list (register registry plugin) =
       (if JsObject.hasOwn registry (name plugin) then list registry
        else (list registry ++ [name plugin])%list).
Proof.
  split; [|apply list_register].
  unfold get, register, mapSet.
  destruct (name plugin =? pluginName) eqn:Hname.
  - apply String.eqb_eq in Hname as <-.
    destruct (JsObject.hasOwn registry (name plugin)) eqn:Hown.
    + now apply getOwn_replace_same.
    + now apply getOwn_append_same.
  - apply String.eqb_neq in Hname.
    destruct (JsObject.hasOwn registry (name plugin)).
    + apply getOwn_replace_other. congruence.
    + apply getOwn_append_other. congruence.
Qed.

Lemma list_registered (plugins : List.list (Plugin S)) (registry : t S) :
  NoDup (list registry ++ map name plugins) ->
  list (fold_left register plugins registry) = (list registry ++ map name plugins)%list.
Proof.
  revert registry; induction plugins as [|plugin plugins IH]; intros registry Hnodup;
    simpl.
  - now rewrite app_nil_r.
  - assert (Hnew : JsObject.hasOwn registry (name plugin) = false).
    { apply hasOwn_false. intros Hin. apply NoDup_remove_2 in Hnodup.
      apply Hnodup, in_or_app. now left. }
    rewrite IH; rewrite list_register, Hnew.
    + now rewrite <- app_assoc.
    + now rewrite <- app_assoc.
Qed.

(** X28. When the plugins registered have distinct names and none is the
    type asked for, [createVault] throws the "not found" error, which
    lists the names registered, in the order of registration. *)
Theorem unknown_type_lists_the_plugins (plugins : List.list (Plugin S))
    (config : VaultConfigParser.VaultConfig) :
  NoDup (map name plugins) ->
  ~ In (VaultConfigParser.type config) (map name plugins) ->
  createVault (fold_left register plugins []) config =
    Throw (Error ("Vault plugin '" ++ VaultConfigParser.type config ++
                  "' not found. Available plugins: " ++
                  JsString.join (map name plugins) ", ")).
Proof.
  intros Hnodup Hnot. unfold createVault.
  pose proof (list_registered plugins [] Hnodup) as Hlist. simpl in Hlist.
  assert (Hget : get (fold_left register plugins []) (VaultConfigParser.type config) = None).
  { unfold get. apply getOwn_None, hasOwn_false.
    change (JsObject.keys (fold_left register plugins []))
      with (list (fold_left register plugins [])).
    now rewrite Hlist. }
  now rewrite Hget, Hlist.
Qed.

End Generic.
End RegistryFacts.

(* ===================================================================== *)
(** * The entry point                                                     *)
(* ===================================================================== *)

Section MainFacts.
Context {RT : JsRuntime}.
Context {S : Type}.
Variable toLowerCase : string -> string.
Variable env : Record.
Variable registry : Registry.t S.
Variable argv : list string.

(** X29. [main] spawns the child only after every step succeeded: a vault
    configuration was found, the arguments were parsed and hold a
    command, the vault was created and initialized, and every secret was
    resolved. The child then gets the command, its arguments and the
    resolved secrets, and nothing was written to the console by [main]
    itself. *)
Theorem child_needs_every_secret (w w' : World S) (call : SpawnCall) :
  main toLowerCase env registry argv w = (Spawned call, w') ->
  exists vaultConfig envVars command commandArgs vault secretValues,
    VaultConfigParser.getVaultConfig toLowerCase env (JsArray.slice_from argv 2) =
      OK vaultConfig
    /\ parseCliArgs (VaultConfigParser.removeVaultArgs (JsArray.slice_from argv 2)) =
         OK (envVars, command :: commandArgs)
    /\ Registry.createVault registry vaultConfig = OK vault
    /\ getSecrets envVars (Registry.getSecret vault)
                  (mkWorld (Registry.fields vault) (console w)) = (OK secretValues, w')
    /\ call = runMcpServer env command commandArgs secretValues.
Proof.
  unfold main, mainBody, bind, liftResult, throw, ret.
  destruct (VaultConfigParser.getVaultConfig _ _ _) as [vaultConfig|e]; [|discriminate].
  destruct (parseCliArgs _) as [[envVars [|command commandArgs]]|e]; try discriminate.
  destruct (Registry.createVault registry vaultConfig) as [vault|e] eqn:Hvault;
    [|discriminate].
  destruct (getSecrets envVars _ _) as [[secretValues|e] w1] eqn:Hsecrets;
    [|discriminate].
  intros [= <- <-].
  now exists vaultConfig, envVars, command, commandArgs, vault, secretValues.
Qed.

(** X30. Without a [--] the first argument that is not a [--vault-] one is
    the command: the vault is created, no secret is asked for, nothing is
    written, and the child runs in the environment of the wrapper. *)
Theorem without_delimiter_nothing_is_fetched (w : World S)
    (vaultConfig : VaultConfigParser.VaultConfig) (vault : Registry.Plugin S)
    (command : string) (commandArgs : list string) :
  VaultConfigParser.getVaultConfig toLowerCase env (JsArray.slice_from argv 2) =
    OK vaultConfig ->
  VaultConfigParser.removeVaultArgs (JsArray.slice_from argv 2) = command :: commandArgs ->
  ~ In "--" (command :: commandArgs) ->
  Registry.createVault registry vaultConfig = OK vault ->
  main toLowerCase env registry argv w =
    (Spawned (mkSpawnCall command commandArgs (spread env []) "inherit" true),
     mkWorld (Registry.fields vault) (console w)).
Proof.
  intros Hconfig Hclean Hnot Hvault.
  unfold main, mainBody, bind, liftResult.
  rewrite Hconfig, Hclean.
  unfold parseCliArgs, JsArray.indexOf.
  rewrite (JsStringMore.indexOf_from_absent _ _ _ Hnot). simpl negb. cbv iota.
  now rewrite Hvault.
Qed.

End MainFacts.

Lemma first_vault_type_wins_witness :
  VaultConfigParser.parseFromArgs
    (["--vault-region=eu"] ++ "--vault-type=aws" :: ["--vault-type=gcp"; "--"; "npx"]) =
    Some (VaultConfigParser.mkVaultConfig "aws" [("region", "eu")])
  /\ VaultConfigParser.parseFromArgs
       (["--vault-region=eu"] ++ "--vault-type=aws=x" :: ["--vault-type=gcp"; "--"; "npx"]) =
       Some (VaultConfigParser.mkVaultConfig "aws" [("region", "eu")]).
Proof.
  assert (Hpre : Forall (fun arg => JsString.startsWith arg "--vault-type=" = false)
                        ["--vault-region=eu"]) by (repeat constructor).
  exact (ConfigFacts.first_vault_type_wins ["--vault-region=eu"]
           ["--vault-type=gcp"; "--"; "npx"] "aws" "x" Hpre eq_refl).
Defined.

Lemma vault_parameter_is_read_witness :
  VaultConfigParser.parseFromArgs (["--vault-type=gcp"] ++ ["--vault-projectId=p1"]) =
    Some (VaultConfigParser.mkVaultConfig "gcp" [("projectId", "p1")])
  /\ VaultConfigParser.parseFromArgs (["--vault-type=gcp"] ++ ["--vault-projectId=p1=x"]) =
       Some (VaultConfigParser.mkVaultConfig "gcp" [("projectId", "p1")])
  /\ VaultConfigParser.parseFromArgs (["--vault-type=gcp"] ++ ["--vault-projectId="]) =
       Some (VaultConfigParser.mkVaultConfig "gcp" [])
  /\ VaultConfigParser.parseFromArgs (["--vault-type=gcp"] ++ ["--vault-projectId"]) =
       Some (VaultConfigParser.mkVaultConfig "gcp" []).
Proof.
  assert (Hk : "projectId" <> EmptyString) by discriminate.
  assert (Htype : "projectId" <> "type") by discriminate.
  assert (Hv : "p1" <> EmptyString) by discriminate.
  exact (ConfigFacts.vault_parameter_is_read ["--vault-type=gcp"]
           (VaultConfigParser.mkVaultConfig "gcp" []) "projectId" "p1" "x"
           eq_refl eq_refl eq_refl Hk Htype Hv).
Defined.


Lemma lowerAscii_lower (a : ascii) :
  Fixtures.isUpperCaseLetter (Fixtures.lowerAscii a) = false.
Proof.
  destruct a as [[] [] [] [] [] [] [] []]; vm_compute; reflexivity.
Qed.

Lemma toLowerCase_lower (s : string) :
  Fixtures.hasUpperCaseLetter (Fixtures.toLowerCase s) = false.
Proof.
  induction s as [|a s IH]; simpl; [reflexivity|]. now rewrite lowerAscii_lower.
Qed.

Lemma environment_parameters_are_lower_case_witness :
  JsObject.getOwn [("projectid", "p1")] "projectId" = None
  /\ JsObject.getOwn [("VAULT_TYPE", "gcp"); ("VAULT_PROJECTID", "p1")] "VAULT_TYPE" =
       Some "gcp".
Proof.
  exact (ConfigFacts.environment_parameters_are_lower_case Fixtures.toLowerCase
           [("VAULT_TYPE", "gcp"); ("VAULT_PROJECTID", "p1")]
           (VaultConfigParser.mkVaultConfig "gcp" [("projectid", "p1")]) "projectId"
           toLowerCase_lower eq_refl eq_refl).
Defined.

Lemma vault_arguments_never_reach_the_command_witness :
  Forall (fun arg => JsString.startsWith arg "--vault-" = false) ["vault"; "read"]
  /\ forall arg, In arg ["vault"; "read"] ->
       In arg ["--vault-type=aws"; "KEY=id"; "--"; "vault"; "--vault-addr=x"; "read"].
Proof.
  exact (ConfigFacts.vault_arguments_never_reach_the_command
           ["--vault-type=aws"; "KEY=id"; "--"; "vault"; "--vault-addr=x"; "read"]
           ["vault"; "read"] [("KEY", "id")] eq_refl).
Defined.

Lemma unknown_type_lists_the_plugins_witness :
  Registry.createVault
    (fold_left Registry.register
       [Registry.mkPlugin "aws" (fun _ => true) (fun _ this => (OK tt, this))
                          (Doubles.spy Doubles.echo) [];
        Registry.mkPlugin "gcp" (fun _ => true) (fun _ this => (OK tt, this))
                          (Doubles.spy Doubles.echo) []] [])
    (VaultConfigParser.mkVaultConfig "azure" []) =
    Throw (Error "Vault plugin 'azure' not found. Available plugins: aws, gcp").
Proof.
  assert (Hnodup : NoDup ["aws"; "gcp"]).
  { constructor; [intros [H|[]]; discriminate|]. constructor; [intros []|constructor]. }
  assert (Hnot : ~ In "azure" ["aws"; "gcp"]) by (intros [H|[H|[]]]; discriminate).
  exact (RegistryFacts.unknown_type_lists_the_plugins
           [Registry.mkPlugin "aws" (fun _ => true) (fun _ this => (OK tt, this))
                              (Doubles.spy Doubles.echo) [];
            Registry.mkPlugin "gcp" (fun _ => true) (fun _ this => (OK tt, this))
                              (Doubles.spy Doubles.echo) []]
           (VaultConfigParser.mkVaultConfig "azure" []) Hnodup Hnot).
Defined.

Lemma child_needs_every_secret_witness :
  exists vaultConfig envVars command commandArgs vault secretValues,
    VaultConfigParser.getVaultConfig Fixtures.toLowerCase [("PATH", "/bin")]
      (JsArray.slice_from
         ["node"; "mcp-secret"; "--vault-type=spy"; "API_KEY=my-key"; "--"; "npx"; "server"]
         2) = OK vaultConfig
    /\ parseCliArgs
         (VaultConfigParser.removeVaultArgs
            (JsArray.slice_from
               ["node"; "mcp-secret"; "--vault-type=spy"; "API_KEY=my-key"; "--"; "npx";
                "server"] 2)) = OK (envVars, command :: commandArgs)
    /\ Registry.createVault (Fixtures.spyRegistry Doubles.echo) vaultConfig = OK vault
    /\ getSecrets (RT := IntegerJson.runtime) envVars (Registry.getSecret vault)
                  (mkWorld (Registry.fields vault)
                           (console (@Doubles.start (list string) [])))
         = (OK secretValues, mkWorld ["my-key"] [])
    /\ mkSpawnCall "npx" ["server"] [("PATH", "/bin"); ("API_KEY", "my-key")] "inherit" true
       = runMcpServer [("PATH", "/bin")] command commandArgs secretValues.
Proof.
  exact (@child_needs_every_secret IntegerJson.runtime (list string) Fixtures.toLowerCase
           [("PATH", "/bin")] (Fixtures.spyRegistry Doubles.echo)
           ["node"; "mcp-secret"; "--vault-type=spy"; "API_KEY=my-key"; "--"; "npx"; "server"]
           (Doubles.start []) (mkWorld ["my-key"] [])
           (mkSpawnCall "npx" ["server"] [("PATH", "/bin"); ("API_KEY", "my-key")]
                        "inherit" true)
           eq_refl).
Defined.

Lemma without_delimiter_nothing_is_fetched_witness :
  main (RT := IntegerJson.runtime) Fixtures.toLowerCase [("PATH", "/bin")]
       (Fixtures.spyRegistry Doubles.echo)
       ["node"; "mcp-secret"; "--vault-type=spy"; "npx"; "API_KEY=my-key"]
       (Doubles.start []) =
    (Spawned (mkSpawnCall "npx" ["API_KEY=my-key"] [("PATH", "/bin")] "inherit" true),
     mkWorld [] []).
Proof.
  assert (Hnot : ~ In "--" ["npx"; "API_KEY=my-key"]) by (intros [H|[H|[]]]; discriminate).
  exact (@without_delimiter_nothing_is_fetched IntegerJson.runtime (list string)
           Fixtures.toLowerCase [("PATH", "/bin")] (Fixtures.spyRegistry Doubles.echo)
           ["node"; "mcp-secret"; "--vault-type=spy"; "npx"; "API_KEY=my-key"]
           (Doubles.start []) (VaultConfigParser.mkVaultConfig "spy" [])
           (Fixtures.spyPlugin Doubles.echo) "npx" ["API_KEY=my-key"]
           eq_refl eq_refl Hnot eq_refl).
Defined.
